(** * oracle-kanban: the task board REST API, embedded and verified

    The repository contains two Express applications over the same SQLite
    table [tasks]:

    - the server ([src/unnamed/part_000]): five REST handlers, no owner
      filter, no status validation, no event stream;
    - the test application ([src/tests/app.ts]): the same five handlers with
      an owner filter on the listing, owner/status validation, and a
      server-sent-event broadcast after every successful mutation.

    Both are embedded below, handler by handler, over one model of the
    table and of the SQL statements the handlers prepare.

    Scope of the model.  A request body is a JSON object; each field a
    handler reads is absent ([undefined]), [null], a boolean, or a value
    of the type the task schema documents for it: a string for a text
    field, an integer for a number field.  A boolean stands for the JSON
    values the SQLite driver refuses to bind.  Numbers reach the handlers
    through [express.json()], which reads them as IEEE 754 doubles: an
    integer literal beyond 2^53 in magnitude arrives as the nearest
    double ([Js.double_of_literal], [Http.express_json]); the handlers
    themselves are embedded over the parsed body.  Strings in number
    fields, numbers in text fields, fractions, arrays, nested objects and
    numbers too large for a double are outside the model.  The [:id]
    path segment is the integer it denotes (a segment that denotes no
    integer selects no row, exactly like an absent id).
    [CURRENT_TIMESTAMP] is the reading [now] of the database clock, in
    seconds, passed to every handler.  Whether the SQLite driver rejects
    an [undefined] argument or binds it as NULL is a parameter of the
    connection; every statement below holds for both. *)

From Stdlib Require Import ZArith String List.
From stdpp Require Import base option gmap strings list sorting.

Local Open Scope Z_scope.

(** ** JavaScript values and the operators the handlers use *)
Module Js.

(** A destructured body field: [undefined] when the key is absent, [null],
    a value of the field's type, or one of the booleans [true] and
    [false]. *)
Inductive value (A : Type) : Type :=
| Undefined
| Null
| Val (a : A)
| Bool (t : bool).
Global Arguments Undefined {A}.
Global Arguments Null {A}.
Global Arguments Val {A} a.
Global Arguments Bool {A} t.

(** Truthiness of a primitive: the empty string and the number zero are
    falsy. *)
Class Truthy (A : Type) := truthy_prim : A -> bool.
Global Instance truthy_string : Truthy string :=
  fun s => match s with EmptyString => false | String _ _ => true end.
Global Instance truthy_number : Truthy Z :=
  fun n => negb (n =? 0).

(** [ToBoolean]: what [if (v)], [!v] and [v && ...] test. *)
Definition truthy {A} `{Truthy A} (v : value A) : bool :=
  match v with
  | Undefined | Null => false
  | Val a => truthy_prim a
  | Bool t => t
  end.

(** [v || d] with a primitive default [d]. *)
Definition or_else {A} `{Truthy A} (v : value A) (d : A) : value A :=
  if truthy v then v else Val d.

(** [v ?? null]. *)
Definition nullish_null {A} (v : value A) : value A :=
  match v with
  | Undefined | Null => Null
  | Val a => Val a
  | Bool t => Bool t
  end.

(** [arr.includes(v)] for an array of string literals: strict equality. *)
Definition includes (arr : list string) (v : value string) : bool :=
  match v with
  | Val s => bool_decide (s ∈ arr)
  | Undefined | Null | Bool _ => false
  end.

(** A field that holds a boolean. *)
Definition is_bool {A} (v : value A) : bool :=
  match v with
  | Bool _ => true
  | Undefined | Null | Val _ => false
  end.

(** [JSON.parse] of an integer literal: the number nearest to it among
    the IEEE 754 doubles, the one with the even significand when two are
    equally near.  Up to 2^53 in magnitude that is the integer itself;
    beyond, the integer is cut to 53 significant bits.  [None] is
    [Infinity], which the literal becomes from 2^1024 - 2^970 on. *)
Definition double_of_literal (n : Z) : option Z :=
  let m := Z.abs n in
  if m <? 2 ^ 53 then Some n
  else
    let e := Z.log2 m - 52 in
    let q := m / 2 ^ e in
    let r := m mod 2 ^ e in
    let half := 2 ^ (e - 1) in
    let q' := if (half <? r) || ((r =? half) && Z.odd q) then q + 1 else q in
    if q' * 2 ^ e <? 2 ^ 1024 then Some (Z.sgn n * (q' * 2 ^ e)) else None.

End Js.

(** ** The table [tasks] and the prepared statements *)
Module Sqlite.

(** What [stmt.run] can throw: a [TypeError] when an argument is not
    bindable (a boolean, or [undefined] on a strict driver), a
    [SqliteError] when a constraint fails. *)
Inductive error : Type :=
| BindTypeError
| ConstraintFailed.

Inductive result (A : Type) : Type :=
| Ok (a : A)
| Throw (e : error).
Global Arguments Ok {A} a.
Global Arguments Throw {A} e.

Global Instance result_ret : MRet result := fun A a => Ok a.
Global Instance result_bind : MBind result := fun A B f m =>
  match m with
  | Ok a => f a
  | Throw e => Throw e
  end.

(** Binding one argument: [null] is SQL NULL ([None]); a boolean is
    refused with a TypeError (the driver binds numbers, strings, bigints,
    buffers and null).  What the driver makes of [undefined] is left
    open: a strict driver rejects it with a TypeError, a lenient one
    binds it as NULL.  The choice only shows in the server's PATCH
    handler, the one place where a value that may be [undefined] reaches
    a statement. *)
Definition bind {A} (lenient : bool) (v : Js.value A) : result (option A) :=
  match v with
  | Js.Undefined => if lenient then Ok None else Throw BindTypeError
  | Js.Null => Ok None
  | Js.Val a => Ok (Some a)
  | Js.Bool _ => Throw BindTypeError
  end.

Definition oracle : string := "oracle"%string.
Definition soheil : string := "soheil"%string.
Definition backlog : string := "backlog"%string.
Definition in_progress : string := "in_progress"%string.
Definition done : string := "done"%string.

Definition owners : list string := [oracle; soheil].
Definition statuses : list string := [backlog; in_progress; done].

(** The columns of a row other than the primary key.  [title] and [owner]
    are NOT NULL; the others admit NULL.  The two timestamps are only ever
    written by [CURRENT_TIMESTAMP]. *)
Record Columns : Type := mkColumns {
  title : string;
  description : option string;
  owner : string;
  priority : option Z;
  status : option string;
  position : option Z;
  created_at : Z;
  updated_at : Z
}.

(** A row as [SELECT *] returns it. *)
Record Task : Type := mkTask {
  id : Z;
  columns :> Columns
}.

(** The open database: the table, keyed by its INTEGER PRIMARY KEY, the
    AUTOINCREMENT counter (the largest rowid ever handed out), and whether
    the driver behind the connection binds [undefined] as NULL. *)
Record Database : Type := mkDatabase {
  rows : gmap Z Columns;
  sequence : Z;
  lenient_driver : bool
}.

Definition empty (lenient : bool) : Database := mkDatabase ∅ 0 lenient.

(** [CHECK(owner IN ('oracle', 'soheil')) NOT NULL] *)
Definition check_owner (o : option string) : result string :=
  match o with
  | Some s => if bool_decide (s ∈ owners) then Ok s else Throw ConstraintFailed
  | None => Throw ConstraintFailed
  end.

(** [CHECK(status IN ('backlog', 'in_progress', 'done'))]: a CHECK whose
    expression is NULL is not violated. *)
Definition check_status (s : option string) : result (option string) :=
  match s with
  | Some v => if bool_decide (v ∈ statuses) then Ok s else Throw ConstraintFailed
  | None => Ok None
  end.

(** [TEXT NOT NULL] *)
Definition not_null {A} (v : option A) : result A :=
  match v with
  | Some a => Ok a
  | None => Throw ConstraintFailed
  end.

(** [COALESCE(?, col)] on a nullable column and on a NOT NULL column. *)
Definition coalesce {A} (param : option A) (col : option A) : option A :=
  match param with
  | Some a => Some a
  | None => col
  end.
Definition coalesce_nn {A} (param : option A) (col : A) : A :=
  match param with
  | Some a => a
  | None => col
  end.

(** The largest rowid in the table (0 when it is empty). *)
Definition max_rowid (m : gmap Z Columns) : Z :=
  map_fold (fun k _ acc => Z.max k acc) 0 m.

(** AUTOINCREMENT: one more than the largest rowid that ever existed. *)
Definition next_rowid (d : Database) : Z :=
  Z.max (sequence d) (max_rowid (rows d)) + 1.

(** [SELECT * FROM tasks WHERE id = ?].get(id) *)
Definition get (i : Z) (d : Database) : option Task :=
  mkTask i <$> rows d !! i.

(** [INSERT INTO tasks (title, description, owner, priority, status)
    VALUES (?, ?, ?, ?, ?)].run(...): position takes its DEFAULT 0, both
    timestamps their DEFAULT CURRENT_TIMESTAMP.  Returns
    [lastInsertRowid]. *)
Definition insert (a_title a_description a_owner : Js.value string)
    (a_priority : Js.value Z) (a_status : Js.value string)
    (now : Z) (d : Database) : result (Z * Database) :=
  p_title ← bind (lenient_driver d) a_title;
  p_description ← bind (lenient_driver d) a_description;
  p_owner ← bind (lenient_driver d) a_owner;
  p_priority ← bind (lenient_driver d) a_priority;
  p_status ← bind (lenient_driver d) a_status;
  v_title ← not_null p_title;
  v_owner ← check_owner p_owner;
  v_status ← check_status p_status;
  let rowid := next_rowid d in
  let c := mkColumns v_title p_description v_owner p_priority v_status
             (Some 0) now now in
  mret (rowid, mkDatabase (<[rowid := c]> (rows d)) rowid (lenient_driver d)).

(** [UPDATE tasks SET title = COALESCE(?, title), ...,
    updated_at = CURRENT_TIMESTAMP WHERE id = ?].run(...) *)
Definition update (a_title a_description a_owner : Js.value string)
    (a_priority : Js.value Z) (a_status : Js.value string)
    (a_position : Js.value Z) (i : Z) (now : Z) (d : Database)
    : result Database :=
  p_title ← bind (lenient_driver d) a_title;
  p_description ← bind (lenient_driver d) a_description;
  p_owner ← bind (lenient_driver d) a_owner;
  p_priority ← bind (lenient_driver d) a_priority;
  p_status ← bind (lenient_driver d) a_status;
  p_position ← bind (lenient_driver d) a_position;
  match rows d !! i with
  | None => mret d
  | Some old =>
      v_owner ← check_owner (Some (coalesce_nn p_owner (owner old)));
      v_status ← check_status (coalesce p_status (status old));
      let c := mkColumns (coalesce_nn p_title (title old))
                 (coalesce p_description (description old))
                 v_owner
                 (coalesce p_priority (priority old))
                 v_status
                 (coalesce p_position (position old))
                 (created_at old) now in
      mret (mkDatabase (<[i := c]> (rows d)) (sequence d) (lenient_driver d))
  end.

(** [UPDATE tasks SET status = ?, position = ?,
    updated_at = CURRENT_TIMESTAMP WHERE id = ?].run(...) *)
Definition set_status_position (a_status : Js.value string)
    (a_position : Js.value Z) (i : Z) (now : Z) (d : Database)
    : result Database :=
  p_status ← bind (lenient_driver d) a_status;
  p_position ← bind (lenient_driver d) a_position;
  match rows d !! i with
  | None => mret d
  | Some old =>
      v_status ← check_status p_status;
      let c := mkColumns (title old) (description old) (owner old)
                 (priority old) v_status p_position
                 (created_at old) now in
      mret (mkDatabase (<[i := c]> (rows d)) (sequence d) (lenient_driver d))
  end.

(** [DELETE FROM tasks WHERE id = ?].run(id) *)
Definition delete_row (i : Z) (d : Database) : Database :=
  mkDatabase (delete i (rows d)) (sequence d) (lenient_driver d).

(** All rows of the table, as [SELECT *] yields them before ordering. *)
Definition all_tasks (d : Database) : list Task :=
  (fun kc => mkTask kc.1 kc.2) <$> map_to_list (rows d).

(** *** [ORDER BY status, position, id]

    SQLite compares NULL below every value, text bytewise (BINARY
    collation) and integers numerically. *)
Definition null_first {A} (R : relation A) : relation (option A) :=
  fun x y =>
    match x, y with
    | None, _ => True
    | Some _, None => False
    | Some a, Some b => R a b
    end.

(** Ordering by a first key, then by [rest] among rows that tie on it. *)
Definition then_by {A K} (R : relation K) (key : A -> K)
    (rest : relation A) : relation A :=
  fun a b => R (key a) (key b) ∧ (R (key b) (key a) -> rest a b).

Definition by_id : relation Task := fun a b => id a <= id b.

Definition task_le : relation Task :=
  then_by (null_first String.le) (fun t : Task => status t)
    (then_by (null_first Z.le) (fun t : Task => position t) by_id).

Global Instance null_first_dec {A} (R : relation A) `{!RelDecision R} :
  RelDecision (null_first R).
Proof. intros [a|] [b|]; simpl; apply _. Defined.

Global Instance then_by_dec {A K} (R : relation K) (key : A -> K)
    (rest : relation A) `{!RelDecision R} `{!RelDecision rest} :
  RelDecision (then_by R key rest).
Proof. intros a b. unfold then_by. apply _. Defined.

Global Instance by_id_dec : RelDecision by_id.
Proof. intros a b. unfold by_id. apply _. Defined.

Global Instance task_le_dec : RelDecision task_le.
Proof. unfold task_le. apply _. Defined.

(** [SELECT * FROM tasks [WHERE owner = ?] ORDER BY status, position, id]
    .all(...) *)
Definition all (where_owner : option string) (d : Database) : list Task :=
  merge_sort task_le
    (match where_owner with
     | Some o => filter (fun t : Task => owner t = o) (all_tasks d)
     | None => all_tasks d
     end).

End Sqlite.

(** ** Requests and responses *)
Module Http.
Import Sqlite.

(** The JSON body of a POST, PUT or PATCH request, as the handlers
    destructure it.  Keys a handler does not name are ignored by it. *)
Record Body : Type := mkBody {
  b_title : Js.value string;
  b_description : Js.value string;
  b_owner : Js.value string;
  b_priority : Js.value Z;
  b_status : Js.value string;
  b_position : Js.value Z
}.

(** The empty object. *)
Definition no_fields : Body :=
  mkBody Js.Undefined Js.Undefined Js.Undefined Js.Undefined Js.Undefined
    Js.Undefined.

(** [app.use(express.json())]: the body a handler destructures, from the
    body as it was sent.  In the body as sent a number field holds the
    integer literal of the JSON text; in [req.body] it holds the double
    [JSON.parse] made of it.  [None]: a number of the body is
    [Infinity]. *)
Definition parse_number (v : Js.value Z) : option (Js.value Z) :=
  match v with
  | Js.Val n => Js.Val <$> Js.double_of_literal n
  | Js.Undefined | Js.Null | Js.Bool _ => Some v
  end.
Definition express_json (sent : Body) : option Body :=
  p_priority ← parse_number (b_priority sent);
  p_position ← parse_number (b_position sent);
  Some (mkBody (b_title sent) (b_description sent) (b_owner sent) p_priority
          (b_status sent) p_position).

(** The texts of the [error] property, in the order they appear in the
    handlers: Title and owner are required / Owner must be oracle or
    soheil / Invalid status / Failed to create task / Task not found /
    Valid status is required. *)
Inductive message : Type :=
| TitleAndOwnerRequired
| OwnerMustBe
| InvalidStatus
| FailedToCreate
| TaskNotFound
| ValidStatusRequired.

(** What [res.json] and [JSON.stringify] are given. *)
Inductive json : Type :=
| JTasks (l : list Task)
| JTask (t : Task)
| JUndefined
| JId (i : Z)
| JError (m : message).

(** The value of [stmt.get(...)]: the row, or [undefined]. *)
Definition of_get (r : option Task) : json :=
  match r with
  | Some t => JTask t
  | None => JUndefined
  end.

Inductive payload : Type :=
| Json (j : json)
| NoBody
| ErrorPage (e : Sqlite.error).

Record response : Type := mkResponse {
  code : Z;
  body : payload
}.

Definition json_response (c : Z) (j : json) : response :=
  mkResponse c (Json j).
Definition error_response (c : Z) (m : message) : response :=
  mkResponse c (Json (JError m)).

(** An exception that leaves a handler reaches Express's default error
    handler, which answers 500. *)
Definition uncaught (e : Sqlite.error) : response :=
  mkResponse 500 (ErrorPage e).

End Http.

(** ** The server, [src/unnamed/part_000] *)
Module Server.
Import Sqlite Http.

(** [app.get('/api/tasks')]: the query string is not read. *)
Definition get_tasks (d : Database) : response * Database :=
  (json_response 200 (JTasks (Sqlite.all None d)), d).

(** [app.post('/api/tasks')] *)
Definition post_tasks (now : Z) (b : Body) (d : Database)
    : response * Database :=
  if negb (Js.truthy (b_title b)) || negb (Js.truthy (b_owner b)) then
    (error_response 400 TitleAndOwnerRequired, d)
  else if negb (Js.includes owners (b_owner b)) then
    (error_response 400 OwnerMustBe, d)
  else
    match Sqlite.insert (b_title b) (Js.or_else (b_description b) EmptyString)
            (b_owner b) (Js.or_else (b_priority b) 1)
            (Js.or_else (b_status b) backlog) now d with
    | Ok (rowid, d') => (json_response 201 (of_get (Sqlite.get rowid d')), d')
    | Throw e => (uncaught e, d)
    end.

(** [app.put('/api/tasks/:id')] *)
Definition put_task (now : Z) (i : Z) (b : Body) (d : Database)
    : response * Database :=
  match Sqlite.get i d with
  | None => (error_response 404 TaskNotFound, d)
  | Some existing =>
      match Sqlite.update (Js.nullish_null (b_title b))
              (Js.nullish_null (b_description b))
              (Js.nullish_null (b_owner b))
              (Js.nullish_null (b_priority b))
              (Js.nullish_null (b_status b))
              (Js.nullish_null (b_position b)) i now d with
      | Ok d' => (json_response 200 (of_get (Sqlite.get i d')), d')
      | Throw e => (uncaught e, d)
      end
  end.

(** [app.delete('/api/tasks/:id')] *)
Definition delete_task (i : Z) (d : Database) : response * Database :=
  match Sqlite.get i d with
  | None => (error_response 404 TaskNotFound, d)
  | Some existing => (mkResponse 204 NoBody, Sqlite.delete_row i d)
  end.

(** [app.patch('/api/tasks/:id/move')] *)
Definition patch_move (now : Z) (i : Z) (b : Body) (d : Database)
    : response * Database :=
  match Sqlite.get i d with
  | None => (error_response 404 TaskNotFound, d)
  | Some existing =>
      match Sqlite.set_status_position (b_status b)
              (Js.or_else (b_position b) 0) i now d with
      | Ok d' => (json_response 200 (of_get (Sqlite.get i d')), d')
      | Throw e => (uncaught e, d)
      end
  end.

End Server.

(** ** The test application, [src/tests/app.ts] *)
Module TestApp.
Import Sqlite Http.

(** One chunk written to an event-stream response: the initial comment
    [: connected], or the frame [event: <name>] / [data: <json>] that
    [broadcast] assembles. *)
Inductive chunk : Type :=
| Connected
| Event (name : string) (data : json).

(** A subscriber: the retained response object ([conn] is its identity)
    and what has been written to it, oldest first. *)
Record Client : Type := mkClient {
  conn : nat;
  written : list chunk
}.

Record State : Type := mkState {
  testDb : Database;
  sseClients : list Client
}.

Definition task_created : string := "task-created"%string.
Definition task_updated : string := "task-updated"%string.
Definition task_deleted : string := "task-deleted"%string.

Definition write (c : chunk) (client : Client) : Client :=
  mkClient (conn client) (written client ++ [c]).

(** [broadcast(event, data)]: one frame to every client, in array order. *)
Definition broadcast (event : string) (data : json) (clients : list Client)
    : list Client :=
  write (Event event data) <$> clients.

(** [sseClients.indexOf(res)] then [splice(idx, 1)]. *)
Fixpoint splice_first (c : nat) (clients : list Client) : list Client :=
  match clients with
  | [] => []
  | x :: rest =>
      if bool_decide (conn x = c) then rest else x :: splice_first c rest
  end.

(** [app.get('/api/events')] for the connection [c], and its [close]
    event. *)
Definition get_events (c : nat) (s : State) : State :=
  mkState (testDb s) (sseClients s ++ [mkClient c [Connected]]).
Definition on_close (c : nat) (s : State) : State :=
  mkState (testDb s) (splice_first c (sseClients s)).

(** [app.get('/api/tasks')]: [owner] is [req.query.owner] when it is a
    string; a missing, repeated or nested parameter is [None]. *)
Definition get_tasks (owner : option string) (s : State)
    : response * State :=
  let where_owner :=
    match owner with
    | Some o => if Js.truthy_prim o then Some o else None
    | None => None
    end in
  (json_response 200 (JTasks (Sqlite.all where_owner (testDb s))), s).

(** [app.post('/api/tasks')] *)
Definition post_tasks (now : Z) (b : Body) (s : State) : response * State :=
  if negb (Js.truthy (b_title b)) || negb (Js.truthy (b_owner b)) then
    (error_response 400 TitleAndOwnerRequired, s)
  else if negb (Js.includes owners (b_owner b)) then
    (error_response 400 OwnerMustBe, s)
  else if Js.truthy (b_status b) && negb (Js.includes statuses (b_status b)) then
    (error_response 400 InvalidStatus, s)
  else
    match Sqlite.insert (b_title b) (Js.or_else (b_description b) EmptyString)
            (b_owner b) (Js.or_else (b_priority b) 1)
            (Js.or_else (b_status b) backlog) now (testDb s) with
    | Ok (rowid, d') =>
        let task := of_get (Sqlite.get rowid d') in
        (json_response 201 task,
         mkState d' (broadcast task_created task (sseClients s)))
    | Throw e => (error_response 400 FailedToCreate, s)
    end.

(** [app.put('/api/tasks/:id')] *)
Definition put_task (now : Z) (i : Z) (b : Body) (s : State)
    : response * State :=
  match Sqlite.get i (testDb s) with
  | None => (error_response 404 TaskNotFound, s)
  | Some existing =>
      if Js.truthy (b_owner b) && negb (Js.includes owners (b_owner b)) then
        (error_response 400 OwnerMustBe, s)
      else if Js.truthy (b_status b) && negb (Js.includes statuses (b_status b)) then
        (error_response 400 InvalidStatus, s)
      else
        match Sqlite.update (Js.nullish_null (b_title b))
                (Js.nullish_null (b_description b))
                (Js.nullish_null (b_owner b))
                (Js.nullish_null (b_priority b))
                (Js.nullish_null (b_status b))
                (Js.nullish_null (b_position b)) i now (testDb s) with
        | Ok d' =>
            let task := of_get (Sqlite.get i d') in
            (json_response 200 task,
             mkState d' (broadcast task_updated task (sseClients s)))
        | Throw e => (uncaught e, s)
        end
  end.

(** [app.delete('/api/tasks/:id')] *)
Definition delete_task (i : Z) (s : State) : response * State :=
  match Sqlite.get i (testDb s) with
  | None => (error_response 404 TaskNotFound, s)
  | Some existing =>
      (mkResponse 204 NoBody,
       mkState (Sqlite.delete_row i (testDb s))
         (broadcast task_deleted (JId i) (sseClients s)))
  end.

(** [app.patch('/api/tasks/:id/move')] *)
Definition patch_move (now : Z) (i : Z) (b : Body) (s : State)
    : response * State :=
  match Sqlite.get i (testDb s) with
  | None => (error_response 404 TaskNotFound, s)
  | Some existing =>
      if negb (Js.truthy (b_status b)) || negb (Js.includes statuses (b_status b)) then
        (error_response 400 ValidStatusRequired, s)
      else
        match Sqlite.set_status_position (b_status b)
                (Js.or_else (b_position b) 0) i now (testDb s) with
        | Ok d' =>
            let task := of_get (Sqlite.get i d') in
            (json_response 200 task,
             mkState d' (broadcast task_updated task (sseClients s)))
        | Throw e => (uncaught e, s)
        end
  end.

(** The requests the application serves, and one step of it. *)
Inductive request : Type :=
| GET_events (c : nat)
| Close (c : nat)
| GET_tasks (owner : option string)
| POST_tasks (b : Body)
| PUT_task (i : Z) (b : Body)
| DELETE_task (i : Z)
| PATCH_move (i : Z) (b : Body).

Definition handle (now : Z) (r : request) (s : State)
    : option response * State :=
  match r with
  | GET_events c => (None, get_events c s)
  | Close c => (None, on_close c s)
  | GET_tasks o => let (res, s') := get_tasks o s in (Some res, s')
  | POST_tasks b => let (res, s') := post_tasks now b s in (Some res, s')
  | PUT_task i b => let (res, s') := put_task now i b s in (Some res, s')
  | DELETE_task i => let (res, s') := delete_task i s in (Some res, s')
  | PATCH_move i b => let (res, s') := patch_move now i b s in (Some res, s')
  end.

(** A run: requests served one after the other, each with the clock
    reading at which its statement executes. *)
Fixpoint run (trace : list (Z * request)) (s : State) : State :=
  match trace with
  | [] => s
  | (now, r) :: rest => run rest (handle now r s).2
  end.

Definition initial (lenient : bool) : State :=
  mkState (Sqlite.empty lenient) [].

End TestApp.

(** ** Predicates used in the statements *)
Module Props.
Import Sqlite Http.

(** The SQL parameter that [v ?? null] binds: the value when one is
    supplied, NULL when the key is absent or null (a boolean is not
    bound at all). *)
Definition supplied {A} (v : Js.value A) : option A :=
  match v with
  | Js.Val a => Some a
  | Js.Undefined | Js.Null | Js.Bool _ => None
  end.

(** Value-presence merge of one field: a supplied value replaces the
    stored one, an absent or null one keeps it; a boolean is never
    merged. *)
Definition merged_nn {A} (v : Js.value A) (before after : A) : Prop :=
  match v with
  | Js.Val a => after = a
  | Js.Undefined | Js.Null => after = before
  | Js.Bool _ => False
  end.
Definition merged {A} (v : Js.value A) (before after : option A) : Prop :=
  match v with
  | Js.Val a => after = Some a
  | Js.Undefined | Js.Null => after = before
  | Js.Bool _ => False
  end.

(** The conditions on a body under which a POST is answered 400: the
    three checks of the handler, and an argument of the INSERT that the
    driver refuses to bind. *)
Definition title_is_falsy (b : Body) : Prop :=
  b_title b = Js.Undefined ∨ b_title b = Js.Null ∨
  b_title b = Js.Val EmptyString ∨ b_title b = Js.Bool false.
Definition owner_is_unlisted (b : Body) : Prop :=
  b_owner b ≠ Js.Val oracle ∧ b_owner b ≠ Js.Val soheil.
Definition status_is_unlisted (b : Body) : Prop :=
  (exists st, b_status b = Js.Val st ∧ st ≠ EmptyString ∧
              st ≠ backlog ∧ st ≠ in_progress ∧ st ≠ done) ∨
  b_status b = Js.Bool true.
Definition unbindable_argument (b : Body) : Prop :=
  b_title b = Js.Bool true ∨ b_description b = Js.Bool true ∨
  b_priority b = Js.Bool true.

(** No field of the body is a boolean: every field that is supplied is
    a value of its type. *)
Definition no_boolean (b : Body) : bool :=
  negb (Js.is_bool (b_title b) || Js.is_bool (b_description b) ||
        Js.is_bool (b_owner b) || Js.is_bool (b_priority b) ||
        Js.is_bool (b_status b) || Js.is_bool (b_position b)).

(** Value-presence merge of a number field, from the body as sent: a
    supplied integer replaces the stored one by what [JSON.parse] reads. *)
Definition merged_number (v : Js.value Z) (before after : option Z) : Prop :=
  match v with
  | Js.Val n => after = Js.double_of_literal n
  | Js.Undefined | Js.Null => after = before
  | Js.Bool _ => False
  end.

(** A stored row satisfies the two CHECK constraints of the schema. *)
Definition satisfies_checks (c : Columns) : bool :=
  bool_decide (owner c ∈ owners) &&
  match status c with
  | Some st => bool_decide (st ∈ statuses)
  | None => true
  end.

(** The AUTOINCREMENT counter as SQLite maintains it: no stored rowid is
    above it. *)
Definition sequence_covers (d : Database) : Prop :=
  map_Forall (fun i (_ : Columns) => i <= sequence d) (rows d).

(** Every row was created no later than it was last updated, and last
    updated no later than the clock reading [t]. *)
Definition timestamps_ok (t : Z) (d : Database) : Prop :=
  map_Forall (fun (_ : Z) c => created_at c <= updated_at c <= t) (rows d).

(** The clock readings of a run never go back, starting from [t0]. *)
Fixpoint ascending (t0 : Z) (trace : list (Z * TestApp.request)) : Prop :=
  match trace with
  | [] => True
  | (t, _) :: rest => t0 <= t ∧ ascending t rest
  end.

(** The clock reading after a run that started at [t0]. *)
Fixpoint last_time (t0 : Z) (trace : list (Z * TestApp.request)) : Z :=
  match trace with
  | [] => t0
  | (t, _) :: rest => last_time t rest
  end.

(** A closed statement made for a strict and for a lenient driver. *)
Definition on_both_drivers (P : bool -> Prop) : Prop := P false ∧ P true.

(** The same table and subscribers behind a driver of the other kind. *)
Definition with_driver (lenient : bool) (d : Database) : Database :=
  mkDatabase (rows d) (sequence d) lenient.
Definition state_with_driver (lenient : bool) (s : TestApp.State)
    : TestApp.State :=
  TestApp.mkState (with_driver lenient (TestApp.testDb s))
    (TestApp.sseClients s).

(** The row [i] of [d] was rewritten at clock reading [now], keeping its
    creation time, and nothing else in [d] changed. *)
Definition rewritten (i now : Z) (d d' : Database) : Prop :=
  exists old c',
    rows d !! i = Some old ∧
    d' = mkDatabase (<[i := c']> (rows d)) (sequence d) (lenient_driver d) ∧
    created_at c' = created_at old ∧ updated_at c' = now.

(** One frame [Event name data] was written to every subscriber, and
    nothing else happened to the subscriber list. *)
Definition one_frame_each (name : string) (data : json)
    (before after : list TestApp.Client) : Prop :=
  Forall2 (fun c c' =>
             TestApp.conn c' = TestApp.conn c ∧
             TestApp.written c' =
             TestApp.written c ++ [TestApp.Event name data])
    before after.

End Props.

(** ** Sample requests and states *)
Module Examples.
Import Sqlite Http.

(** The body [{title, owner}]. *)
Definition titled (t o : string) : Body :=
  mkBody (Js.Val t) Js.Undefined (Js.Val o) Js.Undefined Js.Undefined
    Js.Undefined.

(** The body [{title, owner, status}]. *)
Definition titled_in (t o st : string) : Body :=
  mkBody (Js.Val t) Js.Undefined (Js.Val o) Js.Undefined (Js.Val st)
    Js.Undefined.

(** The test application after one subscriber connected and
    [{title: A, owner: oracle}] was posted at clock reading 10. *)
Definition one_task (lenient : bool) : TestApp.State :=
  (TestApp.post_tasks 10 (titled "A"%string oracle)
     (TestApp.get_events 0%nat (TestApp.initial lenient))).2.

(** The row that state holds. *)
Definition first_row : Task :=
  mkTask 1 (mkColumns "A"%string (Some EmptyString) oracle (Some 1)
              (Some backlog) (Some 0) 10 10).

(** Three more tasks: one in progress, one done, one more in the
    backlog, each posted one second after the other. *)
Definition board (lenient : bool) : TestApp.State :=
  TestApp.run
    [(11, TestApp.POST_tasks (titled_in "B"%string soheil in_progress));
     (12, TestApp.POST_tasks (titled_in "C"%string soheil done));
     (13, TestApp.POST_tasks (titled "D"%string oracle))]
    (one_task lenient).

End Examples.

(** ** The test application without its event stream,
    [src/unnamed/part_001] *)
Module PlainApp.
Import Sqlite Http.

(** [app.get('/api/tasks')] *)
Definition get_tasks (owner : option string) (d : Database)
    : response * Database :=
  let where_owner :=
    match owner with
    | Some o => if Js.truthy_prim o then Some o else None
    | None => None
    end in
  (json_response 200 (JTasks (Sqlite.all where_owner d)), d).

(** [app.post('/api/tasks')] *)
Definition post_tasks (now : Z) (b : Body) (d : Database)
    : response * Database :=
  if negb (Js.truthy (b_title b)) || negb (Js.truthy (b_owner b)) then
    (error_response 400 TitleAndOwnerRequired, d)
  else if negb (Js.includes owners (b_owner b)) then
    (error_response 400 OwnerMustBe, d)
  else if Js.truthy (b_status b) && negb (Js.includes statuses (b_status b)) then
    (error_response 400 InvalidStatus, d)
  else
    match Sqlite.insert (b_title b) (Js.or_else (b_description b) EmptyString)
            (b_owner b) (Js.or_else (b_priority b) 1)
            (Js.or_else (b_status b) backlog) now d with
    | Ok (rowid, d') => (json_response 201 (of_get (Sqlite.get rowid d')), d')
    | Throw e => (error_response 400 FailedToCreate, d)
    end.

(** [app.put('/api/tasks/:id')] *)
Definition put_task (now : Z) (i : Z) (b : Body) (d : Database)
    : response * Database :=
  match Sqlite.get i d with
  | None => (error_response 404 TaskNotFound, d)
  | Some existing =>
      if Js.truthy (b_owner b) && negb (Js.includes owners (b_owner b)) then
        (error_response 400 OwnerMustBe, d)
      else if Js.truthy (b_status b) && negb (Js.includes statuses (b_status b)) then
        (error_response 400 InvalidStatus, d)
      else
        match Sqlite.update (Js.nullish_null (b_title b))
                (Js.nullish_null (b_description b))
                (Js.nullish_null (b_owner b))
                (Js.nullish_null (b_priority b))
                (Js.nullish_null (b_status b))
                (Js.nullish_null (b_position b)) i now d with
        | Ok d' => (json_response 200 (of_get (Sqlite.get i d')), d')
        | Throw e => (uncaught e, d)
        end
  end.

(** [app.delete('/api/tasks/:id')] *)
Definition delete_task (i : Z) (d : Database) : response * Database :=
  match Sqlite.get i d with
  | None => (error_response 404 TaskNotFound, d)
  | Some existing => (mkResponse 204 NoBody, Sqlite.delete_row i d)
  end.

(** [app.patch('/api/tasks/:id/move')] *)
Definition patch_move (now : Z) (i : Z) (b : Body) (d : Database)
    : response * Database :=
  match Sqlite.get i d with
  | None => (error_response 404 TaskNotFound, d)
  | Some existing =>
      if negb (Js.truthy (b_status b)) || negb (Js.includes statuses (b_status b)) then
        (error_response 400 ValidStatusRequired, d)
      else
        match Sqlite.set_status_position (b_status b)
                (Js.or_else (b_position b) 0) i now d with
        | Ok d' => (json_response 200 (of_get (Sqlite.get i d')), d')
        | Throw e => (uncaught e, d)
        end
  end.

End PlainApp.

(** ** The test database helpers, [src/unnamed/part_002] *)
Module Setup.
Import Sqlite.

(** [resetDatabase]: [DELETE FROM tasks].  The AUTOINCREMENT counter lives
    in [sqlite_sequence], which the statement does not touch. *)
Definition resetDatabase (d : Database) : Database :=
  mkDatabase ∅ (sequence d) (lenient_driver d).

(** [INSERT INTO tasks (title, description, owner, priority, status,
    position) VALUES (?, ?, ?, ?, ?, ?)].run(...), the statement
    [seedTestTasks] prepares. *)
Definition insert_positioned (a_title a_description a_owner : Js.value string)
    (a_priority : Js.value Z) (a_status : Js.value string)
    (a_position : Js.value Z) (now : Z) (d : Database)
    : result (Z * Database) :=
  p_title ← bind (lenient_driver d) a_title;
  p_description ← bind (lenient_driver d) a_description;
  p_owner ← bind (lenient_driver d) a_owner;
  p_priority ← bind (lenient_driver d) a_priority;
  p_status ← bind (lenient_driver d) a_status;
  p_position ← bind (lenient_driver d) a_position;
  v_title ← not_null p_title;
  v_owner ← check_owner p_owner;
  v_status ← check_status p_status;
  let rowid := next_rowid d in
  let c := mkColumns v_title p_description v_owner p_priority v_status
             p_position now now in
  mret (rowid, mkDatabase (<[rowid := c]> (rows d)) rowid (lenient_driver d)).

(** [seedTestTasks]: four runs of that statement; [now k] is the clock
    reading at the k-th run. *)
Definition seedTestTasks (now : nat -> Z) (d : Database) : result Database :=
  r1 ← insert_positioned (Js.Val "Fix authentication bug"%string)
         (Js.Val "Auth tokens expiring too early"%string) (Js.Val oracle)
         (Js.Val 3) (Js.Val in_progress) (Js.Val 0) (now 0%nat) d;
  r2 ← insert_positioned (Js.Val "Design new dashboard"%string)
         (Js.Val "Create mockups for v2"%string) (Js.Val soheil)
         (Js.Val 2) (Js.Val backlog) (Js.Val 0) (now 1%nat) r1.2;
  r3 ← insert_positioned (Js.Val "Write documentation"%string)
         (Js.Val "API docs for developers"%string) (Js.Val oracle)
         (Js.Val 1) (Js.Val backlog) (Js.Val 1) (now 2%nat) r2.2;
  r4 ← insert_positioned (Js.Val "Deploy to production"%string)
         (Js.Val "Final deployment checklist"%string) (Js.Val soheil)
         (Js.Val 3) (Js.Val done) (Js.Val 0) (now 3%nat) r3.2;
  mret r4.2.

End Setup.

(** ** The board of the browser front end, [src/public/app.js] *)
Module Frontend.
Import Sqlite Http.

(** The cards [renderTasks] appends to the three column elements, in
    order; the count shown above a column is the length of its list. *)
Record Board : Type := mkBoard {
  in_backlog : list Task;
  in_in_progress : list Task;
  in_done : list Task
}.

(** The property names every object inherits from [Object.prototype];
    all of them hold a truthy value that has no [push]. *)
Definition object_prototype_keys : list string :=
  ["constructor"; "hasOwnProperty"; "isPrototypeOf"; "propertyIsEnumerable";
   "toLocaleString"; "toString"; "valueOf"; "__proto__";
   "__defineGetter__"; "__defineSetter__"; "__lookupGetter__";
   "__lookupSetter__"]%string.

(** The property key [task.status] is converted to. *)
Definition status_key (t : Task) : string :=
  match status t with
  | Some s => s
  | None => "null"%string
  end.

(** One turn of [tasks.forEach]: [if (grouped[task.status])
    grouped[task.status].push(task)].  [None] is the TypeError of calling
    [push] on an inherited property. *)
Definition group_task (g : option Board) (t : Task) : option Board :=
  b ← g;
  let k := status_key t in
  if bool_decide (k = backlog) then
    Some (mkBoard (in_backlog b ++ [t]) (in_in_progress b) (in_done b))
  else if bool_decide (k = in_progress) then
    Some (mkBoard (in_backlog b) (in_in_progress b ++ [t]) (in_done b))
  else if bool_decide (k = done) then
    Some (mkBoard (in_backlog b) (in_in_progress b) (in_done b ++ [t]))
  else if bool_decide (k ∈ object_prototype_keys) then None
  else Some b.

(** [renderTasks], on the array [tasks] that [fetchTasks] stored. *)
Definition renderTasks (tasks : list Task) : option Board :=
  foldl group_task (Some (mkBoard [] [] [])) tasks.

(** The cards of the column element whose id is [column]. *)
Definition cards_in (b : Board) (column : string) : list Task :=
  if bool_decide (column = backlog) then in_backlog b
  else if bool_decide (column = in_progress) then in_in_progress b
  else if bool_decide (column = done) then in_done b
  else [].

(** [handleDrop] on the column element [column]: the body that
    [moveTask] sends, [{status: column.id, position: cards.length}]. *)
Definition handleDrop (b : Board) (column : string) : Body :=
  mkBody Js.Undefined Js.Undefined Js.Undefined Js.Undefined (Js.Val column)
    (Js.Val (Z.of_nat (length (cards_in b column)))).

End Frontend.

(** ** Further predicates used in the statements *)
Module Props2.
Import Sqlite Http TestApp.

(** A row as the test application keeps every row: owner and status
    enumerated, no NULL in description, priority, status or position. *)
Definition within_enums (c : Columns) : Prop :=
  owner c ∈ owners ∧
  (exists st, status c = Some st ∧ st ∈ statuses) ∧
  is_Some (description c) ∧ is_Some (priority c) ∧ is_Some (position c).

(** A row as the server keeps every row: as above, but the status may be
    NULL. *)
Definition within_checks (c : Columns) : Prop :=
  owner c ∈ owners ∧
  (forall st, status c = Some st -> st ∈ statuses) ∧
  is_Some (description c) ∧ is_Some (priority c) ∧ is_Some (position c).

(** The frame a subscriber is sent for a request, read off the request
    and the response alone. *)
Definition frame_of (r : request) (res : option response) : list chunk :=
  match r, res with
  | POST_tasks _, Some (mkResponse c (Json j)) =>
      if c =? 201 then [Event task_created j] else []
  | PUT_task _ _, Some (mkResponse c (Json j))
  | PATCH_move _ _, Some (mkResponse c (Json j)) =>
      if c =? 200 then [Event task_updated j] else []
  | DELETE_task i, Some (mkResponse c _) =>
      if c =? 204 then [Event task_deleted (JId i)] else []
  | _, _ => []
  end.

(** The frames of a whole run, in order. *)
Fixpoint frames_of_run (trace : list (Z * request)) (s : State) : list chunk :=
  match trace with
  | [] => []
  | (now, r) :: rest =>
      frame_of r (handle now r s).1 ++ frames_of_run rest (handle now r s).2
  end.

(** No subscriber disconnects during the run. *)
Definition no_close (trace : list (Z * request)) : Prop :=
  Forall (fun tr => match tr.2 with Close _ => False | _ => True end) trace.

(** The responses of a run, in order (requests on the event stream have
    none). *)
Fixpoint responses (trace : list (Z * request)) (s : State)
    : list (option response) :=
  match trace with
  | [] => []
  | (now, r) :: rest => (handle now r s).1 :: responses rest (handle now r s).2
  end.

End Props2.

(** * Facts about the JavaScript operators *)
Section JsFacts.
Context {A : Type} `{Js.Truthy A}.

Lemma truthy_cases (v : Js.value A) :
  Js.truthy v = true ->
  (exists a, v = Js.Val a ∧ Js.truthy_prim a = true) ∨ v = Js.Bool true.
Proof. destruct v as [| |a|[|]]; simpl; try discriminate; eauto. Qed.

Lemma or_else_truthy (v : Js.value A) (d : A) :
  Js.truthy v = true -> Js.or_else v d = v.
Proof. unfold Js.or_else. intros ->. reflexivity. Qed.

Lemma or_else_falsy (v : Js.value A) (d : A) :
  Js.truthy v = false -> Js.or_else v d = Js.Val d.
Proof. unfold Js.or_else. intros ->. reflexivity. Qed.

(** [v || d] is a value of the field's type, unless [v] is [true]. *)
Lemma or_else_cases (v : Js.value A) (d : A) :
  (exists a, Js.or_else v d = Js.Val a ∧ v ≠ Js.Bool true) ∨
  (v = Js.Bool true ∧ Js.or_else v d = Js.Bool true).
Proof.
  destruct v as [| |a|[|]]; unfold Js.or_else; simpl;
    try (left; eexists; split; [reflexivity | discriminate]).
  - destruct (Js.truthy_prim a); left; eexists; split;
      try reflexivity; discriminate.
  - right. auto.
Qed.

Lemma or_else_is_val (v : Js.value A) (d : A) :
  v ≠ Js.Bool true -> exists a, Js.or_else v d = Js.Val a.
Proof.
  intros Hv. destruct (or_else_cases v d) as [(a & E & _)|[E _]];
    [eauto | contradiction].
Qed.

Lemma bind_nullish (lenient : bool) (v : Js.value A) :
  Js.is_bool v = false ->
  Sqlite.bind lenient (Js.nullish_null v) =
  Sqlite.Ok (match v with Js.Val a => Some a | _ => None end).
Proof. destruct v; try reflexivity. discriminate. Qed.

End JsFacts.

Lemma truthy_string_nonempty (s : string) :
  Js.truthy_prim s = true <-> s ≠ EmptyString.
Proof.
  unfold Js.truthy_prim, Js.truthy_string.
  destruct s; split; intros; try discriminate; try reflexivity; congruence.
Qed.

Lemma truthy_number_nonzero (n : Z) :
  Js.truthy_prim n = true <-> n ≠ 0.
Proof.
  unfold Js.truthy_prim, Js.truthy_number.
  rewrite negb_true_iff, Z.eqb_neq. reflexivity.
Qed.

Lemma includes_inv (arr : list string) (v : Js.value string) :
  Js.includes arr v = true <-> exists s, v = Js.Val s ∧ s ∈ arr.
Proof.
  destruct v as [| |s|t]; simpl.
  - split; [discriminate | intros (? & ? & _); discriminate].
  - split; [discriminate | intros (? & ? & _); discriminate].
  - rewrite bool_decide_eq_true. split; [eauto | intros (? & [= <-] & ?); assumption].
  - split; [discriminate | intros (? & ? & _); discriminate].
Qed.

Lemma includes_truthy (arr : list string) (v : Js.value string) :
  EmptyString ∉ arr -> Js.includes arr v = true -> Js.truthy v = true.
Proof.
  intros Hne (s & -> & Hs)%includes_inv. simpl.
  apply truthy_string_nonempty. intros ->. contradiction.
Qed.

Lemma owners_nonempty : EmptyString ∉ Sqlite.owners.
Proof. intros H. apply (bool_decide_eq_true_2 _) in H. discriminate H. Qed.

Lemma statuses_nonempty : EmptyString ∉ Sqlite.statuses.
Proof. intros H. apply (bool_decide_eq_true_2 _) in H. discriminate H. Qed.

Lemma owners_spec (s : string) :
  s ∈ Sqlite.owners <-> s = Sqlite.oracle ∨ s = Sqlite.soheil.
Proof.
  unfold Sqlite.owners. rewrite !elem_of_cons, elem_of_nil. tauto.
Qed.

Lemma statuses_spec (s : string) :
  s ∈ Sqlite.statuses <->
  s = Sqlite.backlog ∨ s = Sqlite.in_progress ∨ s = Sqlite.done.
Proof.
  unfold Sqlite.statuses. rewrite !elem_of_cons, elem_of_nil. tauto.
Qed.

(** * Facts about the body parser *)
Section ParserFacts.
Import Http.

(** An integer of magnitude up to 2^53 is read as itself. *)
Lemma double_of_literal_safe (n : Z) :
  Z.abs n <= 2 ^ 53 -> Js.double_of_literal n = Some n.
Proof.
  intros Hn. unfold Js.double_of_literal.
  destruct (Z.ltb_spec (Z.abs n) (2 ^ 53)) as [Hlt|Hge]; [reflexivity|].
  assert (n = 2 ^ 53 ∨ n = - 2 ^ 53) as [-> | ->] by lia; reflexivity.
Qed.

(** Only the literal 0 is read as 0. *)
Lemma double_of_literal_nonzero (n m : Z) :
  Js.double_of_literal n = Some m -> n ≠ 0 -> m ≠ 0.
Proof.
  unfold Js.double_of_literal.
  destruct (Z.ltb_spec (Z.abs n) (2 ^ 53)) as [Hlt|Hge];
    [by intros [= <-]|].
  set (e := Z.log2 (Z.abs n) - 52).
  set (q := Z.abs n / 2 ^ e).
  set (q' := if (_ || _)%bool then q + 1 else q).
  destruct (q' * 2 ^ e <? 2 ^ 1024); [|discriminate].
  intros [= <-] Hn.
  assert (0 < Z.abs n) as Hpos by lia.
  assert (53 <= Z.log2 (Z.abs n)) as Hlog
    by (apply (Z.log2_le_pow2 (Z.abs n) 53); lia).
  assert (0 < 2 ^ e) as Hpow by (apply Z.pow_pos_nonneg; lia).
  assert (2 ^ e <= Z.abs n) as Hle.
  { transitivity (2 ^ Z.log2 (Z.abs n)).
    - apply Z.pow_le_mono_r; lia.
    - apply Z.log2_spec. exact Hpos. }
  assert (1 <= q) as Hq.
  { unfold q. apply Z.div_le_lower_bound; lia. }
  assert (1 <= q') as Hq' by (unfold q'; destruct (_ || _); lia).
  assert (0 < q' * 2 ^ e) by nia.
  destruct n; simpl; lia.
Qed.

Lemma parse_number_inv (v w : Js.value Z) :
  parse_number v = Some w ->
  match v with
  | Js.Val n => exists m, Js.double_of_literal n = Some m ∧ w = Js.Val m
  | _ => w = v
  end.
Proof.
  destruct v as [| |n|t]; simpl; try (by intros [= <-]).
  destruct (Js.double_of_literal n) as [m|]; [|discriminate].
  intros [= <-]. eauto.
Qed.

(** What [express.json()] leaves as it was sent, and what it reads. *)
Lemma express_json_inv (sent b : Body) :
  express_json sent = Some b ->
  b_title b = b_title sent ∧ b_description b = b_description sent ∧
  b_owner b = b_owner sent ∧ b_status b = b_status sent ∧
  parse_number (b_priority sent) = Some (b_priority b) ∧
  parse_number (b_position sent) = Some (b_position b).
Proof.
  unfold express_json.
  destruct (parse_number (b_priority sent)) as [p|]; [|discriminate].
  destruct (parse_number (b_position sent)) as [q|]; [|discriminate].
  simpl. intros [= <-]. simpl. auto 10.
Qed.

(** The reading of a number field is truthy, falsy, a boolean, absent or
    null as the field sent is. *)
Lemma parse_number_truthy (v w : Js.value Z) :
  parse_number v = Some w ->
  Js.truthy w = Js.truthy v ∧ Js.is_bool w = Js.is_bool v ∧
  (w = Js.Bool true <-> v = Js.Bool true) ∧
  (w = Js.Undefined <-> v = Js.Undefined) ∧ (w = Js.Null <-> v = Js.Null).
Proof.
  intros Hp. pose proof (parse_number_inv _ _ Hp) as Hinv.
  destruct v as [| |n|t]; simpl in Hinv; try (subst w; tauto).
  destruct Hinv as (m & Hm & ->). simpl.
  split; [|repeat split; discriminate].
  unfold Js.truthy_prim, Js.truthy_number. f_equal.
  destruct (Z.eqb_spec n 0) as [-> |Hn].
  - injection Hm as <-. reflexivity.
  - apply Z.eqb_neq. by apply (double_of_literal_nonzero n).
Qed.
End ParserFacts.

(** * Facts about the table and the statements *)
Section SqliteFacts.
Import Sqlite.

Lemma max_rowid_ge (m : gmap Z Columns) (k : Z) (c : Columns) :
  m !! k = Some c -> k <= max_rowid m.
Proof.
  unfold max_rowid. revert k c.
  apply (map_fold_weak_ind
           (fun r (m : gmap Z Columns) => forall k c, m !! k = Some c -> k <= r)).
  - intros k c. rewrite lookup_empty. discriminate.
  - intros i x m' r Hi IH k c. rewrite lookup_insert.
    case_decide as E.
    + intros _. subst. lia.
    + intros Hk. specialize (IH _ _ Hk). lia.
Qed.

(** AUTOINCREMENT never hands out the id of a stored row. *)
Lemma next_rowid_fresh (d : Database) : rows d !! next_rowid d = None.
Proof.
  destruct (rows d !! next_rowid d) as [c|] eqn:E; [|reflexivity].
  apply max_rowid_ge in E. unfold next_rowid in E. lia.
Qed.

Lemma next_rowid_above_sequence (d : Database) : sequence d < next_rowid d.
Proof. unfold next_rowid. lia. Qed.

Lemma get_Some (i : Z) (d : Database) (t : Task) :
  get i d = Some t <-> id t = i ∧ rows d !! i = Some (columns t).
Proof.
  unfold get. destruct (rows d !! i) as [c|]; simpl; split.
  - intros [= <-]. auto.
  - intros [<- [= ->]]. destruct t; reflexivity.
  - discriminate.
  - intros [_ ?]; discriminate.
Qed.

Lemma get_None (i : Z) (d : Database) :
  get i d = None <-> rows d !! i = None.
Proof. unfold get. apply fmap_None. Qed.

(** What the INSERT does once its arguments are bound and pass the
    constraints. *)
Lemma insert_values (t de o : string) (p : Z) (st : string) (now : Z)
    (d : Database) :
  o ∈ owners -> st ∈ statuses ->
  insert (Js.Val t) (Js.Val de) (Js.Val o) (Js.Val p) (Js.Val st) now d =
  Ok (next_rowid d,
      mkDatabase
        (<[next_rowid d :=
             mkColumns t (Some de) o (Some p) (Some st) (Some 0) now now]>
           (rows d))
        (next_rowid d) (lenient_driver d)).
Proof.
  intros Ho Hst. unfold insert; simpl. unfold mbind, result_bind; simpl.
  rewrite !bool_decide_eq_true_2 by assumption. reflexivity.
Qed.

Lemma insert_bad_status (t de o : string) (p : Z) (st : string) (now : Z)
    (d : Database) :
  o ∈ owners -> st ∉ statuses ->
  insert (Js.Val t) (Js.Val de) (Js.Val o) (Js.Val p) (Js.Val st) now d =
  Throw ConstraintFailed.
Proof.
  intros Ho Hst. unfold insert; simpl. unfold mbind, result_bind; simpl.
  rewrite bool_decide_eq_true_2 by assumption.
  rewrite bool_decide_eq_false_2 by assumption. reflexivity.
Qed.

End SqliteFacts.

(** * Validation conditions, in the words of the API contract *)
Section Validation.
Import Sqlite Http.

(** A title is falsy exactly when it is missing, null, empty or
    [false]. *)
Lemma title_falsy (v : Js.value string) :
  Js.truthy v = false <->
  v = Js.Undefined ∨ v = Js.Null ∨ v = Js.Val EmptyString ∨
  v = Js.Bool false.
Proof.
  destruct v as [| |[|c s]|[|]]; simpl; split; intros; auto;
    try discriminate; intuition discriminate.
Qed.

(** An owner fails [includes] exactly when it is not one of the two
    owner strings (in particular when it is missing). *)
Lemma owner_not_included (v : Js.value string) :
  Js.includes owners v = false <->
  v ≠ Js.Val oracle ∧ v ≠ Js.Val soheil.
Proof.
  destruct (Js.includes owners v) eqn:E.
  - apply includes_inv in E as (s & -> & [->| ->]%owners_spec);
      split; try discriminate; intros [? ?]; congruence.
  - split; [intros _|reflexivity].
    split; intros ->; discriminate E.
Qed.

(** A status is refused by the truthiness-guarded check exactly when it
    is a non-empty string outside the enumeration, or [true]. *)
Lemma status_refused (v : Js.value string) :
  Js.truthy v && negb (Js.includes statuses v) = true <->
  (exists st, v = Js.Val st ∧ st ≠ EmptyString ∧ st ∉ statuses) ∨
  v = Js.Bool true.
Proof.
  rewrite andb_true_iff, negb_true_iff. split.
  - intros [[(st & -> & Hst)| ->]%truthy_cases Hin]; [left|by right].
    exists st.
    split; [reflexivity|]. split; [by apply truthy_string_nonempty|].
    simpl in Hin. by apply bool_decide_eq_false in Hin.
  - intros [(st & -> & Hne & Hin)| ->]; simpl; [|by split]. split.
    + by apply truthy_string_nonempty.
    + by apply bool_decide_eq_false.
Qed.

(** The same check lets through exactly: missing, null, the empty string
    and the three status strings. *)
Lemma status_admitted (v : Js.value string) :
  Js.truthy v && negb (Js.includes statuses v) = false <->
  (Js.truthy v = false ∨ exists st, v = Js.Val st ∧ st ∈ statuses).
Proof.
  rewrite andb_false_iff, negb_false_iff, includes_inv. tauto.
Qed.

End Validation.

(** * Create *)
Section Create.
Import Sqlite Http Props TestApp.

(** The complete effect of an accepted POST on the test application:
    the checks pass and no argument of the INSERT is [true]. *)
Lemma post_tasks_created (now : Z) (b : Body) (s : State) :
  Js.truthy (b_title b) = true ->
  Js.includes owners (b_owner b) = true ->
  Js.truthy (b_status b) && negb (Js.includes statuses (b_status b)) = false ->
  b_title b ≠ Js.Bool true -> b_description b ≠ Js.Bool true ->
  b_priority b ≠ Js.Bool true ->
  exists t de o p st,
    b_title b = Js.Val t ∧ b_owner b = Js.Val o ∧
    Js.or_else (b_description b) EmptyString = Js.Val de ∧
    Js.or_else (b_priority b) 1 = Js.Val p ∧
    Js.or_else (b_status b) backlog = Js.Val st ∧
    let i := next_rowid (testDb s) in
    let task := mkTask i (mkColumns t (Some de) o (Some p) (Some st)
                            (Some 0) now now) in
    post_tasks now b s =
    (json_response 201 (JTask task),
     mkState
       (mkDatabase (<[i := columns task]> (rows (testDb s))) i
          (lenient_driver (testDb s)))
       (broadcast task_created (JTask task) (sseClients s))).
Proof.
  intros Ht Ho Hs Nt Nd Np.
  pose proof (includes_truthy _ _ owners_nonempty Ho) as Hot.
  destruct (truthy_cases _ Ht) as [(t & Et & _)|Et]; [|contradiction].
  destruct (proj1 (includes_inv _ _) Ho) as (o & Eo & Hoin).
  destruct (or_else_is_val (b_description b) EmptyString Nd) as (de & Ede).
  destruct (or_else_is_val (b_priority b) 1 Np) as (p & Ep).
  assert (b_status b ≠ Js.Bool true) as Ns.
  { intros E. rewrite E in Hs. discriminate Hs. }
  destruct (or_else_is_val (b_status b) backlog Ns) as (st & Est).
  assert (st ∈ statuses) as Hstin.
  { apply status_admitted in Hs as [Hf|(st' & Ev & Hin)].
    - rewrite or_else_falsy in Est by exact Hf. injection Est as <-.
      apply statuses_spec. auto.
    - rewrite Ev in Est. unfold Js.or_else in Est.
      destruct (Js.truthy (Js.Val st')); injection Est as <-;
        [assumption | apply statuses_spec; auto]. }
  exists t, de, o, p, st. repeat (split; [assumption|]).
  unfold post_tasks. rewrite Ht, Hot, Ho, Hs; simpl.
  rewrite Ede, Ep, Est, Et, Eo.
  rewrite insert_values by assumption.
  unfold Sqlite.get; simpl. rewrite lookup_insert_eq. reflexivity.
Qed.

(** The catch block of the POST handler: the checks pass, an argument of
    the INSERT is [true], the driver refuses to bind it, and the
    exception is answered 400 with nothing written. *)
Lemma post_tasks_caught (now : Z) (b : Body) (s : State) :
  Js.truthy (b_title b) = true ->
  Js.includes owners (b_owner b) = true ->
  Js.truthy (b_status b) && negb (Js.includes statuses (b_status b)) = false ->
  b_title b = Js.Bool true ∨ b_description b = Js.Bool true ∨
  b_priority b = Js.Bool true ->
  post_tasks now b s = (error_response 400 FailedToCreate, s) ∧
  Sqlite.insert (b_title b) (Js.or_else (b_description b) EmptyString)
    (b_owner b) (Js.or_else (b_priority b) 1)
    (Js.or_else (b_status b) backlog) now (testDb s) = Throw BindTypeError.
Proof.
  intros Ht Ho Hs Hbool.
  pose proof (includes_truthy _ _ owners_nonempty Ho) as Hot.
  destruct (proj1 (includes_inv _ _) Ho) as (o & Eo & Hoin).
  assert (Sqlite.insert (b_title b) (Js.or_else (b_description b) EmptyString)
            (b_owner b) (Js.or_else (b_priority b) 1)
            (Js.or_else (b_status b) backlog) now (testDb s) =
          Throw BindTypeError) as Hins.
  { unfold Sqlite.insert, mbind, result_bind. rewrite Eo.
    destruct (truthy_cases _ Ht) as [(t & Et & _)| ->]; [|reflexivity].
    rewrite Et.
    destruct (or_else_cases (b_description b) EmptyString)
      as [(de & -> & Nd)|[_ ->]]; [|reflexivity].
    destruct (or_else_cases (b_priority b) 1)
      as [(p & -> & Np)|[_ ->]]; [|reflexivity].
    destruct Hbool as [?|[?|?]]; congruence. }
  split; [|exact Hins].
  unfold post_tasks. rewrite Ht, Hot, Ho, Hs; simpl. by rewrite Hins.
Qed.

(** The complete effect of a refused POST: a 400 and nothing else. *)
Lemma post_tasks_refused (now : Z) (b : Body) (s : State) :
  Js.truthy (b_title b) = false ∨
  Js.includes owners (b_owner b) = false ∨
  Js.truthy (b_status b) && negb (Js.includes statuses (b_status b)) = true ->
  exists m, m ≠ FailedToCreate ∧
            post_tasks now b s = (error_response 400 m, s).
Proof.
  intros Hrej. unfold post_tasks.
  destruct (Js.truthy (b_title b)) eqn:Ht; simpl;
    [|eexists; split; [|reflexivity]; discriminate].
  destruct (Js.truthy (b_owner b)) eqn:Hot; simpl;
    [|eexists; split; [|reflexivity]; discriminate].
  destruct (Js.includes owners (b_owner b)) eqn:Ho; simpl;
    [|eexists; split; [|reflexivity]; discriminate].
  destruct (Js.truthy (b_status b) && negb (Js.includes statuses (b_status b)))
    eqn:Hs; [eexists; split; [|reflexivity]; discriminate|].
  destruct Hrej as [?|[?|?]]; discriminate.
Qed.

(** The server's POST: the two checks it has, then the INSERT with
    nothing to catch what it throws. *)
Lemma server_post_tasks_outcome (now : Z) (b : Body) (d : Database) :
  (Js.truthy (b_title b) = false ∨ Js.includes owners (b_owner b) = false) ∧
  (exists m, Server.post_tasks now b d = (error_response 400 m, d)) ∨
  (Js.truthy (b_title b) = true ∧ Js.includes owners (b_owner b) = true) ∧
  code (Server.post_tasks now b d).1 ≠ 400.
Proof.
  unfold Server.post_tasks.
  destruct (Js.truthy (b_title b)) eqn:Ht; simpl; [|left; eauto].
  destruct (Js.includes owners (b_owner b)) eqn:Ho.
  - rewrite (includes_truthy _ _ owners_nonempty Ho); simpl. right.
    split; [auto|].
    destruct (Sqlite.insert _ _ _ _ _ now d) as [[j d']|e]; discriminate.
  - destruct (Js.truthy (b_owner b)); simpl; left; eauto.
Qed.

Lemma bool_true_dec {A} (v : Js.value A) : v = Js.Bool true ∨ v ≠ Js.Bool true.
Proof. destruct v as [| |a|[|]]; (by left) || (right; discriminate). Qed.

Lemma unbindable_argument_dec (b : Body) :
  unbindable_argument b ∨
  b_title b ≠ Js.Bool true ∧ b_description b ≠ Js.Bool true ∧
  b_priority b ≠ Js.Bool true.
Proof.
  unfold unbindable_argument.
  destruct (bool_true_dec (b_title b)), (bool_true_dec (b_description b)),
    (bool_true_dec (b_priority b)); auto.
Qed.

Lemma status_is_unlisted_spec (b : Body) :
  status_is_unlisted b <->
  Js.truthy (b_status b) && negb (Js.includes statuses (b_status b)) = true.
Proof.
  rewrite status_refused. unfold status_is_unlisted.
  split; (intros [(st & E & Hne & H)|E]; [left|by right]); exists st;
    rewrite statuses_spec in *; tauto.
Qed.

(** The five outcomes of a POST on the test application. *)
Lemma post_tasks_outcome (now : Z) (b : Body) (s : State) :
  ((title_is_falsy b ∨ owner_is_unlisted b ∨ status_is_unlisted b) ∧
   exists m, m ≠ FailedToCreate ∧
             post_tasks now b s = (error_response 400 m, s)) ∨
  (¬ title_is_falsy b ∧ ¬ owner_is_unlisted b ∧ ¬ status_is_unlisted b ∧
   unbindable_argument b ∧
   post_tasks now b s = (error_response 400 FailedToCreate, s)) ∨
  (¬ title_is_falsy b ∧ ¬ owner_is_unlisted b ∧ ¬ status_is_unlisted b ∧
   ¬ unbindable_argument b ∧
   exists t : Task,
     id t = next_rowid (testDb s) ∧
     status t = Some (match b_status b with
                      | Js.Val st => if Js.truthy_prim st then st else backlog
                      | _ => backlog
                      end) ∧
     Sqlite.get (id t) (testDb (post_tasks now b s).2) = Some t ∧
     (post_tasks now b s).1 = json_response 201 (JTask t)).
Proof.
  unfold title_is_falsy, owner_is_unlisted.
  rewrite <- title_falsy, <- owner_not_included, status_is_unlisted_spec.
  destruct (Js.truthy (b_title b)) eqn:Ht;
    [|left; split; [auto | apply post_tasks_refused; auto]].
  destruct (Js.includes owners (b_owner b)) eqn:Ho;
    [|left; split; [auto | apply post_tasks_refused; auto]].
  destruct (Js.truthy (b_status b) && negb (Js.includes statuses (b_status b)))
    eqn:Hs; [left; split; [auto | apply post_tasks_refused; auto]|].
  right.
  destruct (unbindable_argument_dec b) as [Hu|(Nt & Nd & Np)].
  - left. destruct (post_tasks_caught now b s Ht Ho Hs Hu) as [E _].
    repeat (split; [first [discriminate | assumption]|]). exact E.
  - right.
    repeat (split; [first [discriminate | assumption]|]).
    split; [intros [?|[?|?]]; contradiction|].
    destruct (post_tasks_created now b s Ht Ho Hs Nt Nd Np)
      as (t & de & o & p & st & Et & Eo & _ & _ & Est & ->).
    cbn [fst snd testDb].
    exists (mkTask (next_rowid (testDb s))
              (mkColumns t (Some de) o (Some p) (Some st) (Some 0) now now)).
    split; [reflexivity|]. cbn [id status columns].
    split.
    + f_equal. unfold Js.or_else in Est.
      destruct (b_status b) as [| |st'|[|]]; cbn in Est, Hs;
        try (by injection Est as <-).
      * destruct (Js.truthy_prim st'); by injection Est as <-.
      * discriminate Hs.
    + split; [|reflexivity].
      unfold Sqlite.get; cbn [rows]. by rewrite lookup_insert_eq.
Qed.

(** The server has no status check of its own: a non-empty status outside
    the enumeration reaches the INSERT, whose CHECK constraint throws; the
    exception is not caught, the answer is 500 and no row is inserted. *)
Lemma server_create_unlisted_status (now : Z) (b : Body) (d : Database)
    (st : string) :
  Js.truthy (b_title b) = true ->
  Js.includes owners (b_owner b) = true ->
  b_status b = Js.Val st -> st ≠ EmptyString -> st ∉ statuses ->
  b_title b ≠ Js.Bool true -> b_description b ≠ Js.Bool true ->
  b_priority b ≠ Js.Bool true ->
  Server.post_tasks now b d = (uncaught ConstraintFailed, d).
Proof.
  intros Ht Ho Est Hne Hst Nt Nd Np.
  pose proof (includes_truthy _ _ owners_nonempty Ho) as Hot.
  destruct (truthy_cases _ Ht) as [(t & Et & _)|Et]; [|contradiction].
  destruct (proj1 (includes_inv _ _) Ho) as (o & Eo & Hoin).
  destruct (or_else_is_val (b_description b) EmptyString Nd) as (de & Ede).
  destruct (or_else_is_val (b_priority b) 1 Np) as (p & Ep).
  unfold Server.post_tasks. rewrite Ht, Hot, Ho; simpl.
  rewrite Ede, Ep, Et, Eo, Est.
  rewrite or_else_truthy by (simpl; by apply truthy_string_nonempty).
  by rewrite insert_bad_status.
Qed.

End Create.

Section CreateClaims.
Import Sqlite Http Props TestApp.

(** C2 (as amended).  A POST on the test application is answered 400
    exactly when the title is falsy (missing, null, empty, or [false]), or
    the owner is not one of the two owner strings (in particular
    missing), or the status is truthy and none of the three status
    strings, or the INSERT throws because the driver refuses to bind one
    of its arguments; the last case is the catch block, answered with
    the message Failed to create task.  A 400 leaves the table and the
    subscribers as they were; every other POST is answered 201 with a
    row inserted.  An empty-string status is not refused: the request is
    handled exactly as if the status were omitted, and the row is
    created in the backlog.  On the server the title and owner checks
    are the same: it answers 400 exactly when the title is falsy or the
    owner is not listed, and then leaves the table as it was. *)
Theorem create_validation (now : Z) (b : Body) (s : State) :
  (code (post_tasks now b s).1 = 400 <->
     title_is_falsy b ∨ owner_is_unlisted b ∨ status_is_unlisted b ∨
     unbindable_argument b) ∧
  ((post_tasks now b s).1 = error_response 400 FailedToCreate <->
     ¬ title_is_falsy b ∧ ¬ owner_is_unlisted b ∧ ¬ status_is_unlisted b ∧
     unbindable_argument b) ∧
  (code (post_tasks now b s).1 = 400 -> (post_tasks now b s).2 = s) ∧
  (code (post_tasks now b s).1 ≠ 400 ->
   code (post_tasks now b s).1 = 201 ∧
   is_Some (rows (testDb (post_tasks now b s).2) !! next_rowid (testDb s))) ∧
  (b_status b = Js.Val EmptyString ->
   post_tasks now b s =
   post_tasks now
     (mkBody (b_title b) (b_description b) (b_owner b) (b_priority b)
        Js.Undefined (b_position b)) s ∧
   forall t : Task,
     (post_tasks now b s).1 = json_response 201 (JTask t) ->
     status t = Some backlog) ∧
  (code (Server.post_tasks now b (testDb s)).1 = 400 <->
     title_is_falsy b ∨ owner_is_unlisted b) ∧
  (code (Server.post_tasks now b (testDb s)).1 = 400 ->
   (Server.post_tasks now b (testDb s)).2 = testDb s).
Proof.
  split; [|split; [|split; [|split; [|split; [|split]]]]].
  - destruct (post_tasks_outcome now b s)
      as [[Hc (m & _ & ->)]|[(N1 & N2 & N3 & Hu & ->)|
          (N1 & N2 & N3 & Nu & t & _ & _ & _ & ->)]]; simpl.
    + split; [intros _; tauto | reflexivity].
    + split; [intros _; tauto | reflexivity].
    + split; [discriminate | tauto].
  - destruct (post_tasks_outcome now b s)
      as [[Hc (m & Hm & ->)]|[(N1 & N2 & N3 & Hu & ->)|
          (N1 & N2 & N3 & Nu & t & _ & _ & _ & ->)]]; simpl.
    + split; [intros [= ->]; contradiction | tauto].
    + split; [tauto | reflexivity].
    + split; [discriminate | tauto].
  - destruct (post_tasks_outcome now b s)
      as [[Hc (m & _ & ->)]|[(N1 & N2 & N3 & Hu & ->)|
          (N1 & N2 & N3 & Nu & t & _ & _ & _ & E)]]; simpl;
      [reflexivity..|].
    rewrite E. discriminate.
  - destruct (post_tasks_outcome now b s)
      as [[Hc (m & _ & E)]|[(N1 & N2 & N3 & Hu & E)|
          (N1 & N2 & N3 & Nu & t & Hid & _ & Hget & E)]];
      rewrite ?E; simpl; try (intros H; contradiction H; reflexivity).
    intros _. split; [reflexivity|].
    apply get_Some in Hget as [_ Hrow]. rewrite Hid in Hrow. eauto.
  - intros Est. split.
    + unfold post_tasks; simpl. rewrite Est. reflexivity.
    + intros t Ht.
      destruct (post_tasks_outcome now b s)
        as [[Hc (m & _ & E)]|[(N1 & N2 & N3 & Hu & E)|
            (N1 & N2 & N3 & Nu & t' & _ & Hs & _ & E)]];
        rewrite E in Ht; try discriminate Ht.
      injection Ht as <-. rewrite Hs, Est. reflexivity.
  - unfold title_is_falsy, owner_is_unlisted.
    rewrite <- title_falsy, <- owner_not_included.
    destruct (server_post_tasks_outcome now b (testDb s))
      as [[Hc (m & ->)]|[[Ht Ho] Hne]]; simpl.
    + split; [intros _; exact Hc | reflexivity].
    + split; [intros E; contradiction | intros [E|E]; congruence].
  - destruct (server_post_tasks_outcome now b (testDb s))
      as [[Hc (m & ->)]|[[Ht Ho] Hne]]; simpl;
      [reflexivity | intros E; contradiction].
Qed.

(** C2 fails as stated: a status that is supplied (the empty string) and
    is none of the three status strings does not make the POST fail; the
    row is created in the backlog. *)
Lemma create_empty_status_accepted :
  let b := mkBody (Js.Val "A"%string) Js.Undefined (Js.Val oracle)
             Js.Undefined (Js.Val EmptyString) Js.Undefined in
  Js.includes statuses (b_status b) = false ∧
  on_both_drivers (fun lenient =>
    post_tasks 0 b (initial lenient) =
    (json_response 201
       (JTask (mkTask 1 (mkColumns "A"%string (Some EmptyString) oracle
                           (Some 1) (Some backlog) (Some 0) 0 0))),
     mkState
       (mkDatabase
          {[ 1 := mkColumns "A"%string (Some EmptyString) oracle (Some 1)
                    (Some backlog) (Some 0) 0 0 ]} 1 lenient) [])).
Proof. repeat split; reflexivity. Qed.

(** C7 (as amended).  A valid POST (a non-empty string as title, one of
    the two owners, a status that is falsy or one of the three, and
    neither description nor priority [true]) returns the stored row; its
    description is the empty string when omitted, its status the backlog
    when omitted, its two timestamps are the same clock reading, its
    position is 0, its priority is 1 when omitted; a supplied non-zero
    integer priority is stored as [express.json()] read it, with no range
    enforced: as given when its magnitude is at most 2^53, as the nearest
    double beyond; and a supplied priority 0 is replaced by 1. *)
Theorem create_defaults (now : Z) (sent b : Body) (s : State) :
  express_json sent = Some b ->
  (exists t, b_title sent = Js.Val t ∧ t ≠ EmptyString) ->
  (b_owner sent = Js.Val oracle ∨ b_owner sent = Js.Val soheil) ->
  (Js.truthy (b_status sent) = false ∨
   exists st, b_status sent = Js.Val st ∧ st ∈ statuses) ->
  b_description sent ≠ Js.Bool true ->
  b_priority sent ≠ Js.Bool true ->
  exists t : Task,
    (post_tasks now b s).1 = json_response 201 (JTask t) ∧
    Sqlite.get (id t) (testDb (post_tasks now b s).2) = Some t ∧
    Sqlite.get (id t) (testDb s) = None ∧
    (b_description sent = Js.Undefined -> description t = Some EmptyString) ∧
    (b_status sent = Js.Undefined -> status t = Some backlog) ∧
    created_at t = now ∧ updated_at t = now ∧
    position t = Some 0 ∧
    (b_priority sent = Js.Undefined -> priority t = Some 1) ∧
    (forall n, b_priority sent = Js.Val n -> n ≠ 0 ->
       priority t = Js.double_of_literal n ∧
       (Z.abs n <= 2 ^ 53 -> priority t = Some n)) ∧
    (b_priority sent = Js.Val 0 -> priority t = Some 1).
Proof.
  intros Hparse (t0 & Et0 & Hne) Ho Hs Nd Np.
  apply express_json_inv in Hparse as (Pt & Pd & Po & Ps & Pp & _).
  rewrite <- Pt in Et0. rewrite <- Po in Ho. rewrite <- Ps in Hs.
  rewrite <- Pd in Nd.
  pose proof (parse_number_inv _ _ Pp) as Hinv.
  apply parse_number_truthy in Pp as (_ & _ & Pb & Pu & _).
  assert (b_priority b ≠ Js.Bool true) as Np' by (by rewrite Pb).
  assert (Js.truthy (b_title b) = true) as Ht.
  { rewrite Et0. simpl. by apply truthy_string_nonempty. }
  assert (b_title b ≠ Js.Bool true) as Nt by (rewrite Et0; discriminate).
  assert (Js.includes owners (b_owner b) = true) as Hoin.
  { destruct Ho as [-> | ->]; reflexivity. }
  apply status_admitted in Hs.
  destruct (post_tasks_created now b s Ht Hoin Hs Nt Nd Np')
    as (t & de & o & p & st & Et & Eo & Ede & Ep & Est & ->).
  cbn [fst snd testDb].
  exists (mkTask (next_rowid (testDb s))
            (mkColumns t (Some de) o (Some p) (Some st) (Some 0) now now)).
  split; [reflexivity|]. cbn [id columns description status created_at
                              updated_at position priority].
  split; [unfold Sqlite.get; cbn [rows]; by rewrite lookup_insert_eq|].
  split; [apply get_None, next_rowid_fresh|].
  rewrite <- Pd, <- Ps.
  split; [intros E; rewrite E in Ede; by injection Ede as <-|].
  split; [intros E; rewrite E in Est; by injection Est as <-|].
  repeat (split; [reflexivity|]).
  split; [|split].
  - intros E. apply Pu in E. rewrite E in Ep. by injection Ep as <-.
  - intros n E Hn. rewrite E in Hinv. destruct Hinv as (m & Hm & Em).
    rewrite Em in Ep. unfold Js.or_else in Ep. simpl in Ep.
    pose proof (double_of_literal_nonzero n m Hm Hn) as Hm0.
    apply truthy_number_nonzero in Hm0. rewrite Hm0 in Ep.
    injection Ep as <-. split; [by symmetry|].
    intros Hsafe. rewrite double_of_literal_safe in Hm by exact Hsafe.
    by symmetry.
  - intros E. rewrite E in Hinv. destruct Hinv as (m & Hm & Em).
    injection Hm as <-. rewrite Em in Ep. by injection Ep as <-.
Qed.

Lemma create_defaults_witness :
  exists t : Task,
    (post_tasks 7 (mkBody (Js.Val "A"%string) Js.Undefined (Js.Val oracle)
                     (Js.Val 5) Js.Undefined Js.Undefined)
       (initial false)).1 =
    json_response 201 (JTask t) ∧
    description t = Some EmptyString ∧ status t = Some backlog ∧
    created_at t = updated_at t ∧ priority t = Some 5.
Proof.
  destruct (create_defaults 7
              (mkBody (Js.Val "A"%string) Js.Undefined (Js.Val oracle)
                 (Js.Val 5) Js.Undefined Js.Undefined)
              (mkBody (Js.Val "A"%string) Js.Undefined (Js.Val oracle)
                 (Js.Val 5) Js.Undefined Js.Undefined) (initial false))
    as (t & E & _ & _ & Hd & Hs & Hc & Hu & _ & _ & Hp & _).
  - reflexivity.
  - exists "A"%string. split; [reflexivity | discriminate].
  - left; reflexivity.
  - left; reflexivity.
  - discriminate.
  - discriminate.
  - exists t. split; [exact E|].
    split; [apply Hd; reflexivity|].
    split; [apply Hs; reflexivity|].
    split; [by rewrite Hc, Hu|].
    apply (Hp 5); [reflexivity | lia | lia].
Defined.

(** Beyond 2^53 the priority stored is not the one sent: the literal
    9007199254740993 is read, and stored, as 9007199254740992. *)
Example create_priority_is_rounded :
  express_json (mkBody (Js.Val "A"%string) Js.Undefined (Js.Val oracle)
                  (Js.Val 9007199254740993) Js.Undefined Js.Undefined) =
  Some (mkBody (Js.Val "A"%string) Js.Undefined (Js.Val oracle)
          (Js.Val 9007199254740992) Js.Undefined Js.Undefined) ∧
  on_both_drivers (fun lenient =>
    (post_tasks 0 (mkBody (Js.Val "A"%string) Js.Undefined (Js.Val oracle)
                     (Js.Val 9007199254740992) Js.Undefined Js.Undefined)
       (initial lenient)).1 =
    json_response 201
      (JTask (mkTask 1 (mkColumns "A"%string (Some EmptyString) oracle
                          (Some 9007199254740992) (Some backlog) (Some 0)
                          0 0)))).
Proof. repeat split; reflexivity. Qed.

(** The catch block at work: with [priority: true] the three checks
    pass, the driver refuses the argument, and the test application
    answers 400 where the server, which has no catch, ends in an
    uncaught exception. *)
Example create_unbindable_priority :
  let b := mkBody (Js.Val "A"%string) Js.Undefined (Js.Val oracle)
             (Js.Bool true) Js.Undefined Js.Undefined in
  on_both_drivers (fun lenient =>
    post_tasks 0 b (initial lenient) =
    (error_response 400 FailedToCreate, initial lenient) ∧
    Server.post_tasks 0 b (Sqlite.empty lenient) =
    (uncaught BindTypeError, Sqlite.empty lenient)).
Proof. repeat split; reflexivity. Qed.

(** C7 fails as stated: the supplied integer priority 0 is not stored as
    given; the created row has priority 1. *)
Lemma create_priority_zero_becomes_one :
  on_both_drivers (fun lenient =>
    (post_tasks 0 (mkBody (Js.Val "A"%string) Js.Undefined (Js.Val oracle)
                     (Js.Val 0) Js.Undefined Js.Undefined)
       (initial lenient)).1 =
    json_response 201
      (JTask (mkTask 1 (mkColumns "A"%string (Some EmptyString) oracle
                          (Some 1) (Some backlog) (Some 0) 0 0)))).
Proof. split; reflexivity. Qed.

End CreateClaims.

(** * Update *)
Section Update.
Import Sqlite Http Props.

Lemma satisfies_checks_inv (c : Columns) :
  satisfies_checks c = true <->
  owner c ∈ owners ∧ (forall st, status c = Some st -> st ∈ statuses).
Proof.
  unfold satisfies_checks. rewrite andb_true_iff, bool_decide_eq_true.
  destruct (status c) as [st|].
  - rewrite bool_decide_eq_true. split.
    + intros [? ?]. split; [assumption|]. by intros ? [= <-].
    + intros [? H]. split; [assumption|]. by apply H.
  - split; [intros [? _]; split; [assumption | discriminate] | intros [? _]; auto].
Qed.

(** The UPDATE statement on an existing row whose new owner and status
    pass the CHECK constraints. *)
Lemma update_ok (vt vd vo : Js.value string) (vp : Js.value Z)
    (vs : Js.value string) (vpos : Js.value Z) (i now : Z) (d : Database)
    (old : Columns) :
  Js.is_bool vt = false -> Js.is_bool vd = false -> Js.is_bool vo = false ->
  Js.is_bool vp = false -> Js.is_bool vs = false ->
  Js.is_bool vpos = false ->
  rows d !! i = Some old ->
  coalesce_nn (supplied vo) (owner old) ∈ owners ->
  (forall st, coalesce (supplied vs) (status old) = Some st -> st ∈ statuses) ->
  update (Js.nullish_null vt) (Js.nullish_null vd) (Js.nullish_null vo)
    (Js.nullish_null vp) (Js.nullish_null vs) (Js.nullish_null vpos)
    i now d =
  Ok (mkDatabase
        (<[i := mkColumns (coalesce_nn (supplied vt) (title old))
                  (coalesce (supplied vd) (description old))
                  (coalesce_nn (supplied vo) (owner old))
                  (coalesce (supplied vp) (priority old))
                  (coalesce (supplied vs) (status old))
                  (coalesce (supplied vpos) (position old))
                  (created_at old) now]> (rows d))
        (sequence d) (lenient_driver d)).
Proof.
  intros Bt Bd Bo Bp Bs Bpos Hold Ho Hs. unfold update.
  rewrite !bind_nullish by assumption.
  unfold mbind, result_bind; simpl. rewrite Hold.
  fold (supplied vt) (supplied vd) (supplied vo) (supplied vp)
    (supplied vs) (supplied vpos).
  rewrite bool_decide_eq_true_2 by exact Ho.
  unfold check_status.
  destruct (coalesce (supplied vs) (status old)) as [st|] eqn:E;
    [|reflexivity].
  rewrite bool_decide_eq_true_2 by (by apply Hs). reflexivity.
Qed.

(** The UPDATE statement when the new owner or the new status violates
    its CHECK constraint: the statement throws and nothing is written. *)
Lemma update_violates (vt vd vo : Js.value string) (vp : Js.value Z)
    (vs : Js.value string) (vpos : Js.value Z) (i now : Z) (d : Database)
    (old : Columns) :
  Js.is_bool vt = false -> Js.is_bool vd = false -> Js.is_bool vo = false ->
  Js.is_bool vp = false -> Js.is_bool vs = false ->
  Js.is_bool vpos = false ->
  rows d !! i = Some old ->
  coalesce_nn (supplied vo) (owner old) ∉ owners ∨
  (exists st, coalesce (supplied vs) (status old) = Some st ∧ st ∉ statuses) ->
  update (Js.nullish_null vt) (Js.nullish_null vd) (Js.nullish_null vo)
    (Js.nullish_null vp) (Js.nullish_null vs) (Js.nullish_null vpos)
    i now d = Throw ConstraintFailed.
Proof.
  intros Bt Bd Bo Bp Bs Bpos Hold Hbad. unfold update.
  rewrite !bind_nullish by assumption.
  unfold mbind, result_bind; simpl. rewrite Hold.
  fold (supplied vt) (supplied vd) (supplied vo) (supplied vp)
    (supplied vs) (supplied vpos).
  destruct (bool_decide (coalesce_nn (supplied vo) (owner old) ∈ owners))
    eqn:Eo; [|reflexivity].
  apply bool_decide_eq_true in Eo.
  destruct Hbad as [Hbad|(st & E & Hbad)]; [contradiction|].
  unfold check_status. rewrite E.
  rewrite bool_decide_eq_false_2 by exact Hbad. reflexivity.
Qed.

(** A boolean among the six arguments: the driver refuses it and
    nothing is written. *)
Lemma update_unbindable (vt vd vo : Js.value string) (vp : Js.value Z)
    (vs : Js.value string) (vpos : Js.value Z) (i now : Z) (d : Database) :
  Js.is_bool vt || Js.is_bool vd || Js.is_bool vo || Js.is_bool vp ||
  Js.is_bool vs || Js.is_bool vpos = true ->
  update (Js.nullish_null vt) (Js.nullish_null vd) (Js.nullish_null vo)
    (Js.nullish_null vp) (Js.nullish_null vs) (Js.nullish_null vpos)
    i now d = Throw BindTypeError.
Proof.
  intros Hb. unfold update, mbind, result_bind.
  destruct vt as [| |?|?]; simpl in *; try reflexivity;
    destruct vd as [| |?|?]; simpl in *; try reflexivity;
    destruct vo as [| |?|?]; simpl in *; try reflexivity;
    destruct vp as [| |?|?]; simpl in *; try reflexivity;
    destruct vs as [| |?|?]; simpl in *; try reflexivity;
    destruct vpos as [| |?|?]; simpl in *; try reflexivity;
    discriminate Hb.
Qed.

Lemma merged_nn_coalesce {A} (v : Js.value A) (before : A) :
  Js.is_bool v = false ->
  merged_nn v before (coalesce_nn (supplied v) before).
Proof. destruct v; try reflexivity. discriminate. Qed.

Lemma merged_coalesce {A} (v : Js.value A) (before : option A) :
  Js.is_bool v = false ->
  merged v before (coalesce (supplied v) before).
Proof. destruct v; try reflexivity. discriminate. Qed.

End Update.

Section UpdateClaims.
Import Sqlite Http Props.

Lemma no_boolean_inv (b : Body) :
  no_boolean b = true ->
  Js.is_bool (b_title b) = false ∧ Js.is_bool (b_description b) = false ∧
  Js.is_bool (b_owner b) = false ∧ Js.is_bool (b_priority b) = false ∧
  Js.is_bool (b_status b) = false ∧ Js.is_bool (b_position b) = false.
Proof.
  unfold no_boolean. rewrite negb_true_iff, !orb_false_iff. tauto.
Qed.

Lemma merged_number_parsed (v w : Js.value Z) (before after : option Z) :
  parse_number v = Some w -> merged w before after ->
  merged_number v before after.
Proof.
  intros Hp%parse_number_inv.
  destruct v as [| |n|t]; simpl in Hp; try (subst w; exact (fun H => H)).
  destruct Hp as (m & Hm & ->). simpl. congruence.
Qed.

(** C1 (as amended).  For a PUT on an existing task, on both
    applications, whose owner and status are each absent, null or one of
    the enumerated strings, and whose supplied fields are values of
    their type: the request succeeds and the returned (and stored) row
    is the value-presence merge of the body into the old row.  A
    supplied value, the number 0 and the empty string included, replaces
    the stored one (a number as [express.json()] read it: itself up to
    2^53 in magnitude); an absent or null field keeps it; the id and
    created_at are kept and updated_at is the clock reading. *)
Theorem update_merge (now i : Z) (sent b : Body) (s : TestApp.State)
    (old : Task) :
  express_json sent = Some b ->
  Sqlite.get i (TestApp.testDb s) = Some old ->
  satisfies_checks old = true ->
  (b_owner sent = Js.Undefined ∨ b_owner sent = Js.Null ∨
   b_owner sent = Js.Val oracle ∨ b_owner sent = Js.Val soheil) ->
  (b_status sent = Js.Undefined ∨ b_status sent = Js.Null ∨
   exists st, b_status sent = Js.Val st ∧ st ∈ statuses) ->
  no_boolean sent = true ->
  exists t : Task,
    (TestApp.put_task now i b s).1 = json_response 200 (JTask t) ∧
    Sqlite.get i (TestApp.testDb (TestApp.put_task now i b s).2) = Some t ∧
    Server.put_task now i b (TestApp.testDb s) =
    (json_response 200 (JTask t),
     TestApp.testDb (TestApp.put_task now i b s).2) ∧
    id t = id old ∧
    merged_nn (b_title sent) (title old) (title t) ∧
    merged (b_description sent) (description old) (description t) ∧
    merged_nn (b_owner sent) (owner old) (owner t) ∧
    merged_number (b_priority sent) (priority old) (priority t) ∧
    merged (b_status sent) (status old) (status t) ∧
    merged_number (b_position sent) (position old) (position t) ∧
    (forall n, b_priority sent = Js.Val n -> Z.abs n <= 2 ^ 53 ->
               priority t = Some n) ∧
    (forall n, b_position sent = Js.Val n -> Z.abs n <= 2 ^ 53 ->
               position t = Some n) ∧
    created_at t = created_at old ∧
    updated_at t = now.
Proof.
  intros Hparse Hget Hchk Ho Hs Hnb.
  apply express_json_inv in Hparse as (Pt & Pd & Po & Ps & Pp & Ppos).
  apply no_boolean_inv in Hnb as (Bt & Bd & Bo & Bp & Bs & Bpos).
  rewrite <- Pt in Bt. rewrite <- Pd in Bd. rewrite <- Po in Bo, Ho.
  rewrite <- Ps in Bs, Hs.
  pose proof (parse_number_truthy _ _ Pp) as (_ & Bp' & _).
  pose proof (parse_number_truthy _ _ Ppos) as (_ & Bpos' & _).
  rewrite <- Bp' in Bp. rewrite <- Bpos' in Bpos.
  apply get_Some in Hget as [Hid Hrow].
  apply satisfies_checks_inv in Hchk as [Hoo Hos].
  assert (Sqlite.get i (TestApp.testDb s) = Some old) as Hget
    by (by apply get_Some).
  assert (Js.truthy (b_owner b) && negb (Js.includes owners (b_owner b))
          = false) as Vo.
  { destruct Ho as [-> |[-> |[-> | ->]]]; reflexivity. }
  assert (Js.truthy (b_status b) && negb (Js.includes statuses (b_status b))
          = false) as Vs.
  { apply status_admitted.
    destruct Hs as [-> |[-> |Hs]]; [left; reflexivity..|by right]. }
  assert (coalesce_nn (supplied (b_owner b)) (owner old) ∈ owners) as Co.
  { destruct Ho as [-> |[-> |[-> | ->]]]; simpl; try assumption;
      apply owners_spec; auto. }
  assert (forall st, coalesce (supplied (b_status b)) (status old) = Some st ->
                     st ∈ statuses) as Cs.
  { destruct Hs as [-> |[-> |(st & -> & Hin)]]; simpl; try assumption.
    by intros ? [= <-]. }
  pose proof (update_ok (b_title b) (b_description b) (b_owner b)
                (b_priority b) (b_status b) (b_position b) i now
                (TestApp.testDb s) old Bt Bd Bo Bp Bs Bpos Hrow Co Cs) as Hup.
  unfold TestApp.put_task, Server.put_task.
  rewrite Hget, Vo, Vs, Hup. unfold Sqlite.get; simpl.
  rewrite lookup_insert_eq; simpl.
  eexists. split; [reflexivity|]. split; [reflexivity|].
  split; [reflexivity|]. simpl.
  split; [by symmetry|].
  rewrite <- Pt, <- Pd, <- Po, <- Ps.
  assert (merged_number (b_priority sent) (priority old)
            (coalesce (supplied (b_priority b)) (priority old))) as Mp
    by (apply (merged_number_parsed _ _ _ _ Pp); by apply merged_coalesce).
  assert (merged_number (b_position sent) (position old)
            (coalesce (supplied (b_position b)) (position old))) as Mpos
    by (apply (merged_number_parsed _ _ _ _ Ppos); by apply merged_coalesce).
  repeat split; auto using @merged_nn_coalesce, @merged_coalesce.
  - intros n E Hn. rewrite E in Mp. simpl in Mp.
    by rewrite Mp, double_of_literal_safe.
  - intros n E Hn. rewrite E in Mpos. simpl in Mpos.
    by rewrite Mpos, double_of_literal_safe.
Qed.

End UpdateClaims.

(** * The effect of each statement and handler on the table *)
Section Effects.
Import Sqlite Http Props.

Lemma update_cases (a_title a_description a_owner : Js.value string)
    (a_priority : Js.value Z) (a_status : Js.value string)
    (a_position : Js.value Z) (i now : Z) (d : Database) :
  match update a_title a_description a_owner a_priority a_status a_position
          i now d with
  | Throw _ => True
  | Ok d' => rows d !! i = None ∧ d' = d ∨ rewritten i now d d'
  end.
Proof.
  unfold update, mbind, result_bind.
  destruct (bind _ a_title); [|exact I].
  destruct (bind _ a_description); [|exact I].
  destruct (bind _ a_owner); [|exact I].
  destruct (bind _ a_priority); [|exact I].
  destruct (bind _ a_status); [|exact I].
  destruct (bind _ a_position); [|exact I].
  destruct (rows d !! i) as [old|] eqn:E; [|left; auto].
  destruct (check_owner _); [|exact I].
  destruct (check_status _); [|exact I].
  simpl. right. unfold rewritten. eauto 10.
Qed.

Lemma set_status_position_cases (a_status : Js.value string)
    (a_position : Js.value Z) (i now : Z) (d : Database) :
  match set_status_position a_status a_position i now d with
  | Throw _ => True
  | Ok d' => rows d !! i = None ∧ d' = d ∨ rewritten i now d d'
  end.
Proof.
  unfold set_status_position, mbind, result_bind.
  destruct (bind _ a_status); [|exact I].
  destruct (bind _ a_position); [|exact I].
  destruct (rows d !! i) as [old|] eqn:E; [|left; auto].
  destruct (check_status _); [|exact I].
  simpl. right. unfold rewritten. eauto 10.
Qed.

Lemma rewritten_get (i now : Z) (d d' : Database) :
  rewritten i now d d' ->
  exists t, Sqlite.get i d' = Some t ∧ id t = i ∧ updated_at t = now.
Proof.
  intros (old & c' & _ & -> & _ & Hu). unfold Sqlite.get; simpl.
  rewrite lookup_insert_eq. simpl. eauto.
Qed.

(** ** The four mutating handlers of the test application, by cases *)

Lemma post_tasks_cases (now : Z) (b : Body) (s : TestApp.State) :
  (exists m, TestApp.post_tasks now b s = (error_response 400 m, s)) ∨
  (exists c,
     let i := next_rowid (TestApp.testDb s) in
     created_at c = now ∧ updated_at c = now ∧
     satisfies_checks c = true ∧
     TestApp.post_tasks now b s =
     (json_response 201 (JTask (mkTask i c)),
      TestApp.mkState
        (mkDatabase (<[i := c]> (rows (TestApp.testDb s))) i
           (lenient_driver (TestApp.testDb s)))
        (TestApp.broadcast TestApp.task_created (JTask (mkTask i c))
           (TestApp.sseClients s)))).
Proof.
  assert (Js.truthy (b_title b) = false ∨
          Js.includes owners (b_owner b) = false ∨
          Js.truthy (b_status b) && negb (Js.includes statuses (b_status b))
          = true ->
          exists m, TestApp.post_tasks now b s = (error_response 400 m, s))
    as Hrefused.
  { intros Hrej.
    destruct (post_tasks_refused now b s Hrej) as (m & _ & E). eauto. }
  destruct (Js.truthy (b_title b)) eqn:Ht; [|left; auto].
  destruct (Js.includes owners (b_owner b)) eqn:Ho; [|left; auto].
  destruct (Js.truthy (b_status b) && negb (Js.includes statuses (b_status b)))
    eqn:Hs; [left; auto|].
  destruct (unbindable_argument_dec b) as [Hu|(Nt & Nd & Np)].
  { left. destruct (post_tasks_caught now b s Ht Ho Hs Hu) as [E _]. eauto. }
  right.
  destruct (post_tasks_created now b s Ht Ho Hs Nt Nd Np)
    as (t & de & o & p & st & Et & Eo & _ & _ & Est & E).
  eexists. split; [|split; [|split; [|exact E]]]; try reflexivity.
  apply satisfies_checks_inv; simpl. split.
  - apply includes_inv in Ho as (o' & Eo' & Hin). congruence.
  - intros st' [= <-].
    apply status_admitted in Hs as [Hf|(st' & Ev & Hin)].
    + rewrite or_else_falsy in Est by exact Hf. injection Est as <-.
      apply statuses_spec; auto.
    + rewrite Ev in Est. unfold Js.or_else in Est.
      destruct (Js.truthy (Js.Val st')); injection Est as <-;
        [assumption | apply statuses_spec; auto].
Qed.

Lemma put_task_cases (now i : Z) (b : Body) (s : TestApp.State) :
  (exists r, code r ≠ 200 ∧ TestApp.put_task now i b s = (r, s)) ∨
  (exists d' t,
     rewritten i now (TestApp.testDb s) d' ∧ Sqlite.get i d' = Some t ∧
     TestApp.put_task now i b s =
     (json_response 200 (JTask t),
      TestApp.mkState d'
        (TestApp.broadcast TestApp.task_updated (JTask t)
           (TestApp.sseClients s)))).
Proof.
  unfold TestApp.put_task.
  destruct (Sqlite.get i (TestApp.testDb s)) as [existing|] eqn:Hget;
    [|left; eexists; split; [|reflexivity]; discriminate].
  destruct (Js.truthy (b_owner b) && negb (Js.includes owners (b_owner b)));
    [left; eexists; split; [|reflexivity]; discriminate|].
  destruct (Js.truthy (b_status b) && negb (Js.includes statuses (b_status b)));
    [left; eexists; split; [|reflexivity]; discriminate|].
  pose proof (update_cases (Js.nullish_null (b_title b))
                (Js.nullish_null (b_description b))
                (Js.nullish_null (b_owner b))
                (Js.nullish_null (b_priority b))
                (Js.nullish_null (b_status b))
                (Js.nullish_null (b_position b)) i now (TestApp.testDb s))
    as Hup.
  destruct (update _ _ _ _ _ _ i now (TestApp.testDb s)) as [d'|e];
    [|left; eexists; split; [|reflexivity]; discriminate].
  destruct Hup as [[Hnone _]|Hrw].
  { apply get_Some in Hget as [_ Hrow]. congruence. }
  right. destruct (rewritten_get _ _ _ _ Hrw) as (t & Ht & _).
  exists d', t. rewrite Ht. auto.
Qed.

Lemma patch_move_cases (now i : Z) (b : Body) (s : TestApp.State) :
  (exists r, code r ≠ 200 ∧ TestApp.patch_move now i b s = (r, s)) ∨
  (exists d' t,
     rewritten i now (TestApp.testDb s) d' ∧ Sqlite.get i d' = Some t ∧
     TestApp.patch_move now i b s =
     (json_response 200 (JTask t),
      TestApp.mkState d'
        (TestApp.broadcast TestApp.task_updated (JTask t)
           (TestApp.sseClients s)))).
Proof.
  unfold TestApp.patch_move.
  destruct (Sqlite.get i (TestApp.testDb s)) as [existing|] eqn:Hget;
    [|left; eexists; split; [|reflexivity]; discriminate].
  destruct (negb (Js.truthy (b_status b)) ||
            negb (Js.includes statuses (b_status b)));
    [left; eexists; split; [|reflexivity]; discriminate|].
  pose proof (set_status_position_cases (b_status b)
                (Js.or_else (b_position b) 0) i now (TestApp.testDb s))
    as Hup.
  destruct (set_status_position _ _ i now (TestApp.testDb s)) as [d'|e];
    [|left; eexists; split; [|reflexivity]; discriminate].
  destruct Hup as [[Hnone _]|Hrw].
  { apply get_Some in Hget as [_ Hrow]. congruence. }
  right. destruct (rewritten_get _ _ _ _ Hrw) as (t & Ht & _).
  exists d', t. rewrite Ht. auto.
Qed.

Lemma delete_task_cases (i : Z) (s : TestApp.State) :
  Sqlite.get i (TestApp.testDb s) = None ∧
  TestApp.delete_task i s = (error_response 404 TaskNotFound, s) ∨
  is_Some (Sqlite.get i (TestApp.testDb s)) ∧
  TestApp.delete_task i s =
  (mkResponse 204 NoBody,
   TestApp.mkState (Sqlite.delete_row i (TestApp.testDb s))
     (TestApp.broadcast TestApp.task_deleted (JId i)
        (TestApp.sseClients s))).
Proof.
  unfold TestApp.delete_task.
  destruct (Sqlite.get i (TestApp.testDb s)) eqn:E; [right|left]; eauto.
Qed.

End Effects.

Section UpdateExamples.
Import Sqlite Http Props Examples.

Lemma update_merge_witness :
  exists t : Task,
    (TestApp.put_task 20 1
       (mkBody (Js.Val EmptyString) Js.Undefined Js.Null (Js.Val 0)
          Js.Undefined Js.Undefined) (one_task false)).1 =
    json_response 200 (JTask t) ∧
    title t = EmptyString ∧ priority t = Some 0 ∧
    description t = description first_row ∧ owner t = owner first_row ∧
    status t = status first_row ∧ position t = position first_row ∧
    created_at t = 10 ∧ updated_at t = 20.
Proof.
  destruct (update_merge 20 1
              (mkBody (Js.Val EmptyString) Js.Undefined Js.Null (Js.Val 0)
                 Js.Undefined Js.Undefined)
              (mkBody (Js.Val EmptyString) Js.Undefined Js.Null (Js.Val 0)
                 Js.Undefined Js.Undefined) (one_task false) first_row)
    as (t & E & _ & _ & _ & Ht & Hd & Ho & Hp & Hs & Hpos & _ & _ & Hc & Hu).
  - reflexivity.
  - reflexivity.
  - reflexivity.
  - right; left; reflexivity.
  - left; reflexivity.
  - reflexivity.
  - exists t. simpl in *. auto 10.
Defined.

(** C1 fails as stated: a supplied empty-string owner does not overwrite
    the stored owner.  The truthiness-guarded validation lets it through,
    the UPDATE violates the CHECK constraint, the request ends in a 500
    and the row keeps its owner. *)
Lemma update_empty_owner_not_stored :
  let b := mkBody Js.Undefined Js.Undefined (Js.Val EmptyString)
             Js.Undefined Js.Undefined Js.Undefined in
  on_both_drivers (fun lenient =>
    Sqlite.get 1 (TestApp.testDb (one_task lenient)) = Some first_row ∧
    TestApp.put_task 20 1 b (one_task lenient) =
    (uncaught ConstraintFailed, one_task lenient) ∧
    Server.put_task 20 1 b (TestApp.testDb (one_task lenient)) =
    (uncaught ConstraintFailed, TestApp.testDb (one_task lenient))) ∧
  owner first_row = oracle.
Proof. repeat split; reflexivity. Qed.

End UpdateExamples.

(** * One step and whole runs of the test application *)
Section Steps.
Import Sqlite Http Props TestApp.

Lemma handle_state (now : Z) (r : request) (s : State) :
  (handle now r s).2 =
  match r with
  | GET_events c => get_events c s
  | Close c => on_close c s
  | GET_tasks o => s
  | POST_tasks b => (post_tasks now b s).2
  | PUT_task i b => (put_task now i b s).2
  | DELETE_task i => (delete_task i s).2
  | PATCH_move i b => (patch_move now i b s).2
  end.
Proof.
  destruct r; simpl; try reflexivity.
  - by destruct (post_tasks now b s).
  - by destruct (put_task now i b s).
  - by destruct (delete_task i s).
  - by destruct (patch_move now i b s).
Qed.

(** What one request can do to the row stored under an id [j]: nothing,
    delete it, insert it under a rowid above the counter with both
    timestamps at the clock reading, or rewrite it keeping its creation
    time and stamping its update time.  The counter never decreases. *)
Lemma handle_effect (now : Z) (r : request) (s : State) (j : Z) :
  let d := testDb s in
  let d' := testDb (handle now r s).2 in
  sequence d <= sequence d' ∧
  (rows d' !! j = rows d !! j ∨
   rows d' !! j = None ∨
   (rows d !! j = None ∧ sequence d < j ∧ j <= sequence d' ∧
    exists c', rows d' !! j = Some c' ∧
               created_at c' = now ∧ updated_at c' = now) ∨
   (exists c c', rows d !! j = Some c ∧ rows d' !! j = Some c' ∧
                 created_at c' = created_at c ∧ updated_at c' = now)).
Proof.
  simpl. rewrite handle_state.
  assert (forall i d',
            rewritten i now (testDb s) d' ->
            sequence (testDb s) <= sequence d' ∧
            (rows d' !! j = rows (testDb s) !! j ∨
             rows d' !! j = None ∨
             (rows (testDb s) !! j = None ∧ sequence (testDb s) < j ∧
              j <= sequence d' ∧
              exists c', rows d' !! j = Some c' ∧
                         created_at c' = now ∧ updated_at c' = now) ∨
             (exists c c', rows (testDb s) !! j = Some c ∧
                           rows d' !! j = Some c' ∧
                           created_at c' = created_at c ∧
                           updated_at c' = now))) as Hrw.
  { intros i d' (old & c' & Hold & -> & Hc & Hu); simpl.
    split; [lia|]. rewrite lookup_insert. case_decide as E.
    - subst j. right; right; right. exists old, c'. auto.
    - left; reflexivity. }
  destruct r as [c|c|o|b|i b|i|i b]; simpl;
    try (split; [lia | left; reflexivity]).
  - destruct (post_tasks_cases now b s) as [(m & ->)|(c & Hc & Hu & _ & ->)];
      simpl; [split; [lia | left; reflexivity]|].
    pose proof (next_rowid_above_sequence (testDb s)).
    split; [lia|]. rewrite lookup_insert. case_decide as E.
    + subst j. right; right; left.
      split; [apply next_rowid_fresh|]. split; [lia|]. split; [lia|]. eauto.
    + left; reflexivity.
  - destruct (put_task_cases now i b s)
      as [(r & _ & ->)|(d' & t & Hd' & _ & ->)]; simpl;
      [split; [lia | left; reflexivity] | by apply (Hrw i)].
  - destruct (delete_task_cases i s) as [[_ ->]|[_ ->]]; simpl;
      [split; [lia | left; reflexivity]|].
    split; [lia|]. rewrite lookup_delete. case_decide; auto.
  - destruct (patch_move_cases now i b s)
      as [(r & _ & ->)|(d' & t & Hd' & _ & ->)]; simpl;
      [split; [lia | left; reflexivity] | by apply (Hrw i)].
Qed.

(** A rowid that is free and not above the counter stays free: ids are
    never reused. *)
Lemma free_rowid_stays_free (trace : list (Z * request)) (s : State) (i : Z) :
  rows (testDb s) !! i = None -> i <= sequence (testDb s) ->
  rows (testDb (run trace s)) !! i = None.
Proof.
  revert s. induction trace as [|[now r] trace IH]; intros s Hfree Hle;
    [exact Hfree|].
  simpl. destruct (handle_effect now r s i) as [Hseq Hcases].
  apply IH; [|lia].
  destruct Hcases as [E|[E|[(_ & Hlt & _)|(c & c' & Hc & _)]]];
    [congruence | exact E | lia | congruence].
Qed.

Lemma sequence_covers_step (now : Z) (r : request) (s : State) :
  sequence_covers (testDb s) -> sequence_covers (testDb (handle now r s).2).
Proof.
  intros Hcov j c' Hj.
  destruct (handle_effect now r s j) as [Hseq Hcases].
  destruct Hcases as [E|[E|[(_ & _ & Hle & _)|(c & c'' & Hc & _)]]].
  - rewrite E in Hj. specialize (Hcov j c' Hj). simpl in Hcov. lia.
  - congruence.
  - exact Hle.
  - specialize (Hcov j c Hc). simpl in Hcov. lia.
Qed.

Lemma timestamps_step (t0 now : Z) (r : request) (s : State) :
  t0 <= now -> timestamps_ok t0 (testDb s) ->
  timestamps_ok now (testDb (handle now r s).2).
Proof.
  intros Hle Hok j c' Hj.
  destruct (handle_effect now r s j) as [_ Hcases].
  destruct Hcases
    as [E|[E|[(_ & _ & _ & c'' & Hc'' & Hc & Hu)|(c & c'' & Hc & Hc'' & Hcr & Hu)]]].
  - rewrite E in Hj. specialize (Hok j c' Hj). simpl in Hok. lia.
  - congruence.
  - assert (c'' = c') as -> by congruence. lia.
  - assert (c'' = c') as -> by congruence.
    specialize (Hok j c Hc). simpl in Hok. lia.
Qed.

(** Across one step, a row that is still stored keeps its creation time
    and its update time does not go back. *)
Lemma row_step (t0 now : Z) (r : request) (s : State) (j : Z)
    (c c' : Columns) :
  t0 <= now -> timestamps_ok t0 (testDb s) ->
  rows (testDb s) !! j = Some c ->
  rows (testDb (handle now r s).2) !! j = Some c' ->
  created_at c' = created_at c ∧ updated_at c <= updated_at c'.
Proof.
  intros Hle Hok Hc Hc'.
  destruct (handle_effect now r s j) as [_ Hcases].
  specialize (Hok j c Hc). simpl in Hok.
  destruct Hcases
    as [E|[E|[(E & _)|(c1 & c2 & Hc1 & Hc2 & Hcr & Hu)]]]; try congruence.
  - assert (c' = c) as -> by congruence. lia.
  - assert (c1 = c) as -> by congruence.
    assert (c2 = c') as -> by congruence. lia.
Qed.

Lemma run_invariants (trace : list (Z * request)) (t0 : Z) (s : State) :
  sequence_covers (testDb s) -> timestamps_ok t0 (testDb s) ->
  ascending t0 trace ->
  sequence_covers (testDb (run trace s)) ∧
  timestamps_ok (last_time t0 trace) (testDb (run trace s)).
Proof.
  revert t0 s. induction trace as [|[now r] trace IH]; intros t0 s Hcov Hok Hasc;
    [auto|].
  destruct Hasc as [Hle Hasc]. simpl.
  apply IH; [by apply sequence_covers_step | by eapply timestamps_step | exact Hasc].
Qed.

Lemma run_rows (trace : list (Z * request)) (t0 : Z) (s : State) (j : Z)
    (c c' : Columns) :
  sequence_covers (testDb s) -> timestamps_ok t0 (testDb s) ->
  ascending t0 trace ->
  rows (testDb s) !! j = Some c ->
  rows (testDb (run trace s)) !! j = Some c' ->
  created_at c' = created_at c ∧ updated_at c <= updated_at c'.
Proof.
  revert t0 s c. induction trace as [|[now r] trace IH];
    intros t0 s c Hcov Hok Hasc Hc Hc'; simpl in *.
  - assert (c' = c) as -> by congruence. lia.
  - destruct Hasc as [Hle Hasc].
    destruct (rows (testDb (handle now r s).2) !! j) as [c1|] eqn:E1.
    + destruct (row_step t0 now r s j c c1 Hle Hok Hc E1) as [Hcr Hu].
      destruct (IH now (handle now r s).2 c1) as [Hcr' Hu'];
        [by apply sequence_covers_step | by eapply timestamps_step
        | exact Hasc | exact E1 | exact Hc' |].
      split; [congruence | lia].
    + exfalso.
      assert (rows (testDb (run trace (handle now r s).2)) !! j = None);
        [|congruence].
      apply free_rowid_stays_free; [exact E1|].
      destruct (handle_effect now r s j) as [Hseq _].
      specialize (Hcov j c Hc). simpl in Hcov. lia.
Qed.

(** Every state reached from the empty database by requests whose clock
    readings never go back satisfies both invariants. *)
Lemma reachable_invariants (lenient : bool) (t0 : Z)
    (trace : list (Z * request)) :
  ascending t0 trace ->
  sequence_covers (testDb (run trace (initial lenient))) ∧
  timestamps_ok (last_time t0 trace) (testDb (run trace (initial lenient))).
Proof.
  apply run_invariants; apply map_Forall_empty.
Qed.

End Steps.

(** * Timestamps *)
Section TimestampClaims.
Import Sqlite Http Props TestApp Examples.

(** C8.  Take a table whose rows were created no later than they were
    updated and updated no later than the clock reading [t0], and serve
    any sequence of requests whose clock readings never go back.  Then
    every row still satisfies created_at <= updated_at (and is no later
    than the last clock reading); a row present before and after keeps its
    created_at and its updated_at has not decreased; and every PUT or
    PATCH answered 200 leaves its row with updated_at equal to the clock
    reading of that request. *)
Theorem timestamps_along_runs (t0 : Z) (s : State)
    (trace : list (Z * request)) :
  sequence_covers (testDb s) ->
  timestamps_ok t0 (testDb s) ->
  ascending t0 trace ->
  timestamps_ok (last_time t0 trace) (testDb (run trace s)) ∧
  (forall i old new,
     Sqlite.get i (testDb s) = Some old ->
     Sqlite.get i (testDb (run trace s)) = Some new ->
     created_at new = created_at old ∧ updated_at old <= updated_at new) ∧
  (forall now i b,
     code (put_task now i b s).1 = 200 ->
     exists t, Sqlite.get i (testDb (put_task now i b s).2) = Some t ∧
               updated_at t = now) ∧
  (forall now i b,
     code (patch_move now i b s).1 = 200 ->
     exists t, Sqlite.get i (testDb (patch_move now i b s).2) = Some t ∧
               updated_at t = now).
Proof.
  intros Hcov Hok Hasc.
  split; [by apply run_invariants|].
  split; [|split].
  - intros i old new [_ Hold]%get_Some [_ Hnew]%get_Some.
    by apply (run_rows trace t0 s i).
  - intros now i b Hcode.
    destruct (put_task_cases now i b s)
      as [(r & Hr & E)|(d' & t & Hrw & Ht & E)]; rewrite E in *; simpl in *;
      [contradiction|].
    destruct (rewritten_get _ _ _ _ Hrw) as (t' & Ht' & _ & Hu).
    exists t'. auto.
  - intros now i b Hcode.
    destruct (patch_move_cases now i b s)
      as [(r & Hr & E)|(d' & t & Hrw & Ht & E)]; rewrite E in *; simpl in *;
      [contradiction|].
    destruct (rewritten_get _ _ _ _ Hrw) as (t' & Ht' & _ & Hu).
    exists t'. auto.
Qed.

Lemma timestamps_along_runs_witness :
  let trace :=
    [(20, PUT_task 1 (titled "A2"%string soheil));
     (20, PATCH_move 1 (titled_in "A2"%string soheil done));
     (31, POST_tasks (titled "B"%string oracle))] in
  timestamps_ok 31 (testDb (run trace (one_task false))) ∧
  (forall i old new,
     Sqlite.get i (testDb (one_task false)) = Some old ->
     Sqlite.get i (testDb (run trace (one_task false))) = Some new ->
     created_at new = created_at old ∧ updated_at old <= updated_at new).
Proof.
  intros trace.
  destruct (timestamps_along_runs 10 (one_task false) trace)
    as (H1 & H2 & _).
  - apply (bool_decide_unpack _). vm_compute. exact I.
  - apply (bool_decide_unpack _). vm_compute. exact I.
  - simpl. lia.
  - split; [exact H1 | exact H2].
Defined.

End TimestampClaims.

(** * Delete *)
Section DeleteClaims.
Import Sqlite Http Props TestApp Examples.

(** C9.  A DELETE of an unknown id is answered 404 and changes nothing.
    A DELETE of a stored id is answered 204; afterwards that id selects
    no row, every other id selects exactly the row it selected before
    (no renumbering of positions), and a PUT, PATCH or DELETE of the
    deleted id is answered 404.  The removal is permanent: as rowids are
    never reused, the id selects no row after any further requests. *)
Theorem delete_removes_one_row (i : Z) (s : State) :
  (Sqlite.get i (testDb s) = None ->
   delete_task i s = (error_response 404 TaskNotFound, s)) ∧
  (is_Some (Sqlite.get i (testDb s)) ->
   code (delete_task i s).1 = 204 ∧
   Sqlite.get i (testDb (delete_task i s).2) = None ∧
   (forall j, j ≠ i ->
      Sqlite.get j (testDb (delete_task i s).2) = Sqlite.get j (testDb s)) ∧
   (forall now b,
      code (put_task now i b (delete_task i s).2).1 = 404 ∧
      code (patch_move now i b (delete_task i s).2).1 = 404 ∧
      code (delete_task i (delete_task i s).2).1 = 404) ∧
   (sequence_covers (testDb s) ->
    forall trace,
      Sqlite.get i (testDb (run trace (delete_task i s).2)) = None)).
Proof.
  split.
  - intros Hnone. unfold delete_task. by rewrite Hnone.
  - intros [old Hold]. unfold delete_task. rewrite Hold. simpl.
    assert (Sqlite.get i (delete_row i (testDb s)) = None) as Hgone.
    { apply get_None. simpl. apply lookup_delete_eq. }
    split; [reflexivity|]. split; [exact Hgone|]. split; [|split].
    + intros j Hj. unfold Sqlite.get; simpl.
      by rewrite lookup_delete_ne.
    + intros now b. unfold put_task, patch_move, delete_task; simpl.
      rewrite Hgone. auto.
    + intros Hcov trace. apply get_None, free_rowid_stays_free.
      * simpl. apply lookup_delete_eq.
      * simpl. apply get_Some in Hold as [_ Hold].
        exact (Hcov i _ Hold).
Qed.

Lemma delete_removes_one_row_witness :
  let s := board false in
  code (delete_task 2 s).1 = 204 ∧
  Sqlite.get 2 (testDb (delete_task 2 s).2) = None ∧
  (forall j, j ≠ 2 ->
     Sqlite.get j (testDb (delete_task 2 s).2) = Sqlite.get j (testDb s)) ∧
  Sqlite.get 2
    (testDb (run [(40, POST_tasks (titled "E"%string oracle));
                  (41, PUT_task 2 (titled "F"%string oracle))]
               (delete_task 2 s).2)) = None.
Proof.
  intros s.
  destruct (delete_removes_one_row 2 s) as [_ H].
  destruct H as (H1 & H2 & H3 & _ & H5).
  - vm_compute. eauto.
  - split; [exact H1|]. split; [exact H2|]. split; [exact H3|].
    apply H5. apply (bool_decide_unpack _). vm_compute. exact I.
Defined.

End DeleteClaims.

(** * Broadcast *)
Section BroadcastClaims.
Import Sqlite Http Props TestApp Examples.

Lemma broadcast_one_frame_each (name : string) (data : json)
    (clients : list Client) :
  one_frame_each name data clients (broadcast name data clients).
Proof.
  unfold one_frame_each, broadcast.
  induction clients as [|c clients IH]; constructor; auto.
Qed.

(** C4.  On the test application, from any state and for any request:
    a POST answered 201 writes exactly one frame [task-created] carrying
    the stored row to every subscriber; a PUT or a PATCH answered 200
    writes exactly one frame [task-updated] carrying the stored row; a
    DELETE answered 204 writes exactly one frame [task-deleted] carrying
    the id alone; a request answered otherwise leaves the whole state,
    subscribers included, as it was; and a listing writes nothing. *)
Theorem broadcast_on_mutation (now : Z) (s : State) :
  (forall b,
     (code (post_tasks now b s).1 ≠ 201 ∧ (post_tasks now b s).2 = s) ∨
     (exists t, (post_tasks now b s).1 = json_response 201 (JTask t) ∧
                Sqlite.get (id t) (testDb (post_tasks now b s).2) = Some t ∧
                one_frame_each task_created (JTask t) (sseClients s)
                  (sseClients (post_tasks now b s).2))) ∧
  (forall i b,
     (code (put_task now i b s).1 ≠ 200 ∧ (put_task now i b s).2 = s) ∨
     (exists t, (put_task now i b s).1 = json_response 200 (JTask t) ∧
                Sqlite.get i (testDb (put_task now i b s).2) = Some t ∧
                one_frame_each task_updated (JTask t) (sseClients s)
                  (sseClients (put_task now i b s).2))) ∧
  (forall i b,
     (code (patch_move now i b s).1 ≠ 200 ∧ (patch_move now i b s).2 = s) ∨
     (exists t, (patch_move now i b s).1 = json_response 200 (JTask t) ∧
                Sqlite.get i (testDb (patch_move now i b s).2) = Some t ∧
                one_frame_each task_updated (JTask t) (sseClients s)
                  (sseClients (patch_move now i b s).2))) ∧
  (forall i,
     (code (delete_task i s).1 ≠ 204 ∧ (delete_task i s).2 = s) ∨
     ((delete_task i s).1 = mkResponse 204 NoBody ∧
      Sqlite.get i (testDb (delete_task i s).2) = None ∧
      one_frame_each task_deleted (JId i) (sseClients s)
        (sseClients (delete_task i s).2))) ∧
  (forall o, (get_tasks o s).2 = s).
Proof.
  split; [|split; [|split; [|split]]].
  - intros b.
    destruct (post_tasks_cases now b s) as [(m & ->)|(c & _ & _ & _ & ->)];
      simpl; [left; split; [discriminate | reflexivity]|].
    right. eexists. split; [reflexivity|]. simpl. split.
    + unfold Sqlite.get; simpl. by rewrite lookup_insert_eq.
    + apply broadcast_one_frame_each.
  - intros i b.
    destruct (put_task_cases now i b s)
      as [(r & Hr & ->)|(d' & t & _ & Ht & ->)]; simpl; [by left|].
    right. exists t. split; [reflexivity|]. split; [exact Ht|].
    apply broadcast_one_frame_each.
  - intros i b.
    destruct (patch_move_cases now i b s)
      as [(r & Hr & ->)|(d' & t & _ & Ht & ->)]; simpl; [by left|].
    right. exists t. split; [reflexivity|]. split; [exact Ht|].
    apply broadcast_one_frame_each.
  - intros i.
    destruct (delete_task_cases i s) as [[_ ->]|[_ ->]]; simpl;
      [left; split; [discriminate | reflexivity]|].
    right. split; [reflexivity|]. split.
    + apply get_None. simpl. apply lookup_delete_eq.
    + apply broadcast_one_frame_each.
  - reflexivity.
Qed.

(** The events of a concrete run, as the one subscriber of [one_task]
    receives them: the refused PUT, the PATCH of an unknown id and the
    second DELETE write nothing. *)
Example broadcast_run :
  written <$> sseClients
    (run [(20, PUT_task 1 (titled "A2"%string soheil));
          (21, PUT_task 1 (titled "A3"%string "nobody"%string));
          (22, PATCH_move 1 (titled_in "x"%string oracle done));
          (23, PATCH_move 7 (titled_in "x"%string oracle done));
          (24, DELETE_task 1);
          (25, DELETE_task 1)] (one_task false)) =
  [[Connected;
    Event task_created (JTask first_row);
    Event task_updated
      (JTask (mkTask 1 (mkColumns "A2"%string (Some EmptyString) soheil
                          (Some 1) (Some backlog) (Some 0) 10 20)));
    Event task_updated
      (JTask (mkTask 1 (mkColumns "A2"%string (Some EmptyString) soheil
                          (Some 1) (Some done) (Some 0) 10 22)));
    Event task_deleted (JId 1)]].
Proof. reflexivity. Qed.

End BroadcastClaims.

(** * Move, and the order of the checks *)
Section MoveClaims.
Import Sqlite Http Props TestApp Examples.

(** The claim C3 holds of the test application: an unknown id is
    answered 404, a missing, null, empty or unlisted status is answered
    400, and either way nothing changes. *)
Lemma test_app_move_validation (now i : Z) (b : Body) (s : State) :
  (Sqlite.get i (testDb s) = None ->
   patch_move now i b s = (error_response 404 TaskNotFound, s)) ∧
  (is_Some (Sqlite.get i (testDb s)) ->
   b_status b ≠ Js.Val backlog -> b_status b ≠ Js.Val in_progress ->
   b_status b ≠ Js.Val done ->
   patch_move now i b s = (error_response 400 ValidStatusRequired, s)).
Proof.
  unfold patch_move. split.
  - intros ->. reflexivity.
  - intros [old ->] H1 H2 H3.
    destruct (Js.includes statuses (b_status b)) eqn:E.
    + apply includes_inv in E as (st & Est & Hin).
      apply statuses_spec in Hin as [-> |[-> | ->]]; contradiction.
    + by rewrite orb_true_r.
Qed.

(** C3, on the server.  The server's PATCH handler does not validate the
    status.  On the table of [one_task], whose row 1 is in the backlog:
    a null status is bound as NULL, passes the CHECK constraint and is
    stored, with answer 200; an unlisted status makes the statement
    throw, which is answered 500 and not 400; a missing status is
    answered 500 by a strict driver and stored as NULL, with answer 200,
    by a lenient one.  The test application answers the same null status
    with 400. *)
Theorem server_move_unvalidated :
  let null_status := mkBody Js.Undefined Js.Undefined Js.Undefined
                       Js.Undefined Js.Null Js.Undefined in
  let moved := mkColumns "A"%string (Some EmptyString) oracle (Some 1) None
                 (Some 0) 10 20 in
  on_both_drivers (fun lenient =>
    let d := testDb (one_task lenient) in
    Sqlite.get 1 d = Some first_row ∧
    Server.patch_move 20 1 null_status d =
    (json_response 200 (JTask (mkTask 1 moved)),
     mkDatabase {[ 1 := moved ]} 1 lenient) ∧
    Server.patch_move 20 1
      (titled_in "A"%string oracle "archived"%string) d =
    (uncaught ConstraintFailed, d) ∧
    patch_move 20 1 null_status (one_task lenient) =
    (error_response 400 ValidStatusRequired, one_task lenient)) ∧
  Server.patch_move 20 1 no_fields (testDb (one_task false)) =
  (uncaught BindTypeError, testDb (one_task false)) ∧
  Server.patch_move 20 1 no_fields (testDb (one_task true)) =
  (json_response 200 (JTask (mkTask 1 moved)),
   mkDatabase {[ 1 := moved ]} 1 true).
Proof. repeat split; reflexivity. Qed.

(** C10.  On both applications, a PUT or a PATCH that names an id with
    no row is answered 404 whatever the body holds, and changes
    nothing. *)
Theorem not_found_before_validation (now i : Z) (b : Body) (s : State) :
  Sqlite.get i (testDb s) = None ->
  put_task now i b s = (error_response 404 TaskNotFound, s) ∧
  patch_move now i b s = (error_response 404 TaskNotFound, s) ∧
  Server.put_task now i b (testDb s) =
  (error_response 404 TaskNotFound, testDb s) ∧
  Server.patch_move now i b (testDb s) =
  (error_response 404 TaskNotFound, testDb s).
Proof.
  intros H. unfold put_task, patch_move, Server.put_task, Server.patch_move.
  rewrite H. auto.
Qed.

Lemma not_found_before_validation_witness :
  let b := titled_in "A"%string "nobody"%string "archived"%string in
  let s := one_task false in
  put_task 20 9999 b s = (error_response 404 TaskNotFound, s) ∧
  patch_move 20 9999 b s = (error_response 404 TaskNotFound, s) ∧
  put_task 20 1 b s = (error_response 400 OwnerMustBe, s) ∧
  patch_move 20 1 b s = (error_response 400 ValidStatusRequired, s).
Proof.
  intros b s.
  destruct (not_found_before_validation 20 9999 b s)
    as (H1 & H2 & _); [reflexivity|].
  split; [exact H1|]. split; [exact H2|]. split; reflexivity.
Defined.

End MoveClaims.

(** * Listing *)
Section Ordering.
Import Sqlite.

Global Instance null_first_total {A} (R : relation A) `{!Total R} :
  Total (null_first R).
Proof. intros [a|] [b|]; simpl; try (apply total; assumption); auto. Qed.

Global Instance null_first_trans {A} (R : relation A) `{!Transitive R} :
  Transitive (null_first R).
Proof.
  intros [a|] [b|] [c|]; simpl; auto; try contradiction.
  apply transitivity.
Qed.

Global Instance null_first_refl {A} (R : relation A) `{!Reflexive R} :
  Reflexive (null_first R).
Proof. intros [a|]; simpl; [reflexivity | exact I]. Qed.

Lemma null_first_antisym {A} (R : relation A) `{!AntiSymm (=) R}
    (x y : option A) :
  null_first R x y -> null_first R y x -> x = y.
Proof.
  destruct x as [a|], y as [b|]; simpl; try contradiction; auto.
  intros H1 H2. f_equal. by apply (anti_symm R).
Qed.

Global Instance then_by_total {A K} (R : relation K) (key : A -> K)
    (rest : relation A) `{!RelDecision R} `{!Total R} `{!Total rest} :
  Total (then_by R key rest).
Proof.
  intros a b. unfold then_by.
  destruct (decide (R (key a) (key b))) as [Hab|Hab];
    destruct (decide (R (key b) (key a))) as [Hba|Hba].
  - destruct (total rest a b); [left | right]; auto.
  - left. split; [assumption | contradiction].
  - right. split; [assumption | contradiction].
  - destruct (total R (key a) (key b)); contradiction.
Qed.

Global Instance then_by_trans {A K} (R : relation K) (key : A -> K)
    (rest : relation A) `{!Transitive R} `{!Transitive rest} :
  Transitive (then_by R key rest).
Proof.
  intros a b c [Hab Hab'] [Hbc Hbc']. split.
  - by transitivity (key b).
  - intros Hca. transitivity b.
    + apply Hab'. by transitivity (key c).
    + apply Hbc'. by transitivity (key a).
Qed.

Global Instance by_id_total : Total by_id.
Proof. intros a b. unfold by_id. lia. Qed.

Global Instance by_id_trans : Transitive by_id.
Proof. intros a b c. unfold by_id. lia. Qed.

Global Instance task_le_total : Total task_le.
Proof. unfold task_le. apply _. Qed.

Global Instance task_le_trans : Transitive task_le.
Proof. unfold task_le. apply _. Qed.

(** [task_le] spelled out: the status decides unless it ties, then the
    position unless it ties, then the id. *)
Lemma task_le_lexicographic (a b : Task) :
  task_le a b <->
  (status a ≠ status b ∧ null_first String.le (status a) (status b)) ∨
  (status a = status b ∧
   ((position a ≠ position b ∧
     null_first Z.le (position a) (position b)) ∨
    (position a = position b ∧ id a <= id b))).
Proof.
  unfold task_le, then_by, by_id. split.
  - intros [Hs Hrest].
    destruct (decide (status a = status b)) as [Es|Es]; [right|left; auto].
    split; [assumption|]. rewrite <- Es in Hrest.
    destruct Hrest as [Hp Hid]; [reflexivity|].
    destruct (decide (position a = position b)) as [Ep|Ep]; [right|left; auto].
    split; [assumption|]. apply Hid. rewrite <- Ep. reflexivity.
  - intros [[Hne Hs]|[Es [[Hne Hp]|[Ep Hid]]]].
    + split; [assumption|]. intros Hs'. contradiction Hne.
      by apply (null_first_antisym String.le).
    + split; [rewrite Es; reflexivity|].
      intros _. split; [assumption|]. intros Hp'. contradiction Hne.
      by apply (null_first_antisym Z.le).
    + split; [rewrite Es; reflexivity|].
      intros _. split; [rewrite Ep; reflexivity|].
      intros _. assumption.
Qed.

(** The rows of the table are the rows [get] selects. *)
Lemma elem_of_all_tasks (d : Database) (t : Task) :
  t ∈ all_tasks d <-> Sqlite.get (id t) d = Some t.
Proof.
  unfold all_tasks. rewrite list_elem_of_fmap, get_Some. split.
  - intros ([k c] & -> & Hkc). simpl.
    by apply elem_of_map_to_list in Hkc.
  - intros [_ Hrow]. exists (id t, columns t). split.
    + by destruct t.
    + by apply elem_of_map_to_list.
Qed.

Lemma NoDup_all_tasks (d : Database) : NoDup (all_tasks d).
Proof.
  unfold all_tasks. apply NoDup_fmap_2_strong; [|apply NoDup_map_to_list].
  intros [k c] [k' c'] _ _ [= -> ->]. reflexivity.
Qed.

(** The listing statement returns the selected rows, each once, in
    [task_le] order. *)
Lemma all_spec (where_owner : option string) (d : Database) :
  StronglySorted task_le (Sqlite.all where_owner d) ∧
  NoDup (Sqlite.all where_owner d) ∧
  (forall t, t ∈ Sqlite.all where_owner d <->
             Sqlite.get (id t) d = Some t ∧
             match where_owner with
             | Some o => owner t = o
             | None => True
             end).
Proof.
  unfold Sqlite.all. split; [apply StronglySorted_merge_sort; apply _|].
  split.
  - rewrite merge_sort_Permutation.
    destruct where_owner; [apply NoDup_filter|]; apply NoDup_all_tasks.
  - intros t. rewrite merge_sort_Permutation.
    destruct where_owner as [o|].
    + rewrite list_elem_of_filter, elem_of_all_tasks. tauto.
    + rewrite elem_of_all_tasks. tauto.
Qed.

(** Two rows of one table that tie in the order are the same row, so the
    order of a listing is determined: any sorted arrangement of the same
    rows is the listing. *)
Lemma all_determined (where_owner : option string) (d : Database)
    (l : list Task) :
  Sorted task_le l -> l ≡ₚ Sqlite.all where_owner d ->
  l = Sqlite.all where_owner d.
Proof.
  intros Hsorted Hperm.
  apply (Sorted_unique_strong task_le); [|assumption| |assumption].
  - intros a b Ha Hb Hab Hba.
    rewrite Hperm in Ha.
    apply all_spec in Ha as [Ha _]. apply all_spec in Hb as [Hb _].
    apply task_le_lexicographic in Hab, Hba.
    assert (id a = id b) as Eid.
    { destruct Hab as [[Hne H1]|[Es [[Hne H1]|[Ep H1]]]];
        destruct Hba as [[Hne' H2]|[Es' [[Hne' H2]|[Ep' H2]]]];
        try congruence; try lia.
      - contradiction Hne. by apply (null_first_antisym String.le).
      - contradiction Hne. by apply (null_first_antisym Z.le). }
    rewrite Eid in Ha. congruence.
  - apply Sorted_merge_sort. apply _.
Qed.

End Ordering.

Section ListingClaims.
Import Sqlite Http Props TestApp Examples.

(** C5.  On both applications the listing is answered 200 with the rows
    in (status, position, id) order, NULL first, text compared as plain
    strings, integers numerically: of two listed rows the earlier one has
    the smaller status, or the same status and the smaller position, or
    the same status and position and the smaller or equal id.  The
    server lists every stored row exactly once, and so does the test
    application when no filter is given.  In particular no row
    whose status is the string [in_progress] is listed before a row whose
    status is the string [done]. *)
Theorem listing_is_sorted (s : State) (o : option string) :
  exists l l0 : list Task,
    get_tasks o s = (json_response 200 (JTasks l), s) ∧
    Server.get_tasks (testDb s) = (json_response 200 (JTasks l0), testDb s) ∧
    NoDup l0 ∧
    (forall t, t ∈ l0 <-> Sqlite.get (id t) (testDb s) = Some t) ∧
    (forall t, t ∈ l -> t ∈ l0) ∧
    (o = None -> l = l0) ∧
    (forall (l1 : list Task) (a : Task) (l2 : list Task) (b : Task),
       l = l1 ++ a :: l2 ∨ l0 = l1 ++ a :: l2 -> b ∈ l2 ->
       ((status a ≠ status b ∧ null_first String.le (status a) (status b)) ∨
        (status a = status b ∧
         ((position a ≠ position b ∧
           null_first Z.le (position a) (position b)) ∨
          (position a = position b ∧ id a <= id b)))) ∧
       (status a = Some in_progress -> status b ≠ Some done)).
Proof.
  eexists. eexists. split; [reflexivity|]. split; [reflexivity|].
  set (w := match o with
            | Some o0 => if Js.truthy_prim o0 then Some o0 else None
            | None => None
            end).
  destruct (all_spec w (testDb s)) as (Hsorted & _ & Hmem).
  destruct (all_spec None (testDb s)) as (Hsorted0 & Hnodup0 & Hmem0).
  split; [exact Hnodup0|].
  split; [intros t; rewrite Hmem0; tauto|].
  split; [intros t Ht; apply Hmem0; apply Hmem in Ht; tauto|].
  split; [by intros ->|].
  intros l1 a l2 b Hsplit Hb.
  assert (task_le a b) as Hle.
  { destruct Hsplit as [E|E]; [rewrite E in Hsorted | rewrite E in Hsorted0].
    - apply StronglySorted_app_1_r, StronglySorted_cons in Hsorted as [Hall _].
      by apply (proj1 (Forall_forall _ _) Hall).
    - apply StronglySorted_app_1_r, StronglySorted_cons in Hsorted0 as [Hall _].
      by apply (proj1 (Forall_forall _ _) Hall). }
  split; [by apply task_le_lexicographic|].
  intros Ea Eb. destruct Hle as [Hle _]. rewrite Ea, Eb in Hle.
  exact Hle.
Qed.

(** The listing of the sample board: the two backlog rows by id, then the
    done row, then the row in progress. *)
Example listing_of_board :
  (fun t : Task => (id t, status t)) <$>
    Sqlite.all None (testDb (board false)) =
  [(1, Some backlog); (4, Some backlog); (3, Some done);
   (2, Some in_progress)].
Proof. reflexivity. Qed.

(** C6 (as amended).  On the test application, a listing with a
    non-empty filter string is answered 200 with exactly the stored rows
    whose owner is that string, each once, in listing order, whatever the
    string is; an empty filter string is no filter at all; no listing is
    answered with an error, and none changes the state. *)
Theorem listing_filter (s : State) (o : string) :
  o ≠ EmptyString ->
  (exists l : list Task,
     get_tasks (Some o) s = (json_response 200 (JTasks l), s) ∧
     NoDup l ∧ StronglySorted task_le l ∧
     (forall t, t ∈ l <->
                Sqlite.get (id t) (testDb s) = Some t ∧ owner t = o)) ∧
  get_tasks (Some EmptyString) s = get_tasks None s ∧
  (forall q, code (get_tasks q s).1 = 200 ∧ (get_tasks q s).2 = s).
Proof.
  intros Hne. split; [|split; [reflexivity | intros q; split; reflexivity]].
  unfold get_tasks.
  rewrite (proj2 (truthy_string_nonempty o) Hne).
  eexists. split; [reflexivity|].
  destruct (all_spec (Some o) (testDb s)) as (Hsorted & Hnodup & Hmem).
  auto.
Qed.

Lemma listing_filter_witness :
  exists l : list Task,
    get_tasks (Some soheil) (board false) =
    (json_response 200 (JTasks l), board false) ∧
    (forall t, t ∈ l <->
               Sqlite.get (id t) (testDb (board false)) = Some t ∧
               owner t = soheil) ∧
    (fun t : Task => (id t, owner t, status t)) <$> l =
    [(3, soheil, Some done); (2, soheil, Some in_progress)].
Proof.
  destruct (listing_filter (board false) soheil)
    as [(l & E & _ & _ & Hmem) _]; [discriminate|].
  exists l. split; [exact E|]. split; [exact Hmem|].
  assert (l = Sqlite.all (Some soheil) (testDb (board false))) as ->
    by (by injection E).
  reflexivity.
Defined.

(** C6 fails as stated: with the empty string supplied as the filter
    value, the listing is not restricted to the rows whose owner is the
    empty string (there are none); all four rows are returned. *)
Lemma listing_empty_filter_returns_all :
  on_both_drivers (fun lenient =>
    (fun t : Task => (id t, owner t)) <$>
      match body (get_tasks (Some EmptyString) (board lenient)).1 with
      | Json (JTasks l) => l
      | _ => []
      end =
    [(1, oracle); (4, oracle); (3, soheil); (2, soheil)]).
Proof. split; reflexivity. Qed.

End ListingClaims.

(** * The driver's treatment of [undefined] never shows in the test
    application *)
Section Driver.
Import Sqlite Http Props TestApp.

(** Only [undefined] is bound differently by the two kinds of driver. *)
Lemma bind_defined {A} (l l' : bool) (v : Js.value A) :
  v ≠ Js.Undefined -> bind l v = bind l' v.
Proof. destruct v; try reflexivity. intros H; contradiction H; reflexivity. Qed.

Lemma or_else_defined {A} `{Js.Truthy A} (v : Js.value A) (d : A) :
  Js.or_else v d ≠ Js.Undefined.
Proof. unfold Js.or_else. destruct v as [| |a|[|]]; simpl; try discriminate.
  destruct (Js.truthy_prim a); discriminate. Qed.

Lemma nullish_defined {A} (v : Js.value A) :
  Js.nullish_null v ≠ Js.Undefined.
Proof. destruct v; discriminate. Qed.

Lemma truthy_defined {A} `{Js.Truthy A} (v : Js.value A) :
  Js.truthy v = true -> v ≠ Js.Undefined.
Proof. intros Ht ->. discriminate Ht. Qed.

Lemma insert_with_driver (lenient : bool) (vt vd vo : Js.value string)
    (vp : Js.value Z) (vs : Js.value string) (now : Z) (d : Database) :
  vt ≠ Js.Undefined -> vd ≠ Js.Undefined -> vo ≠ Js.Undefined ->
  vp ≠ Js.Undefined -> vs ≠ Js.Undefined ->
  insert vt vd vo vp vs now (with_driver lenient d) =
  match insert vt vd vo vp vs now d with
  | Ok (i, d') => Ok (i, with_driver lenient d')
  | Throw e => Throw e
  end.
Proof.
  intros Dt Dd Do Dp Ds. unfold insert. cbn [lenient_driver with_driver].
  rewrite (bind_defined lenient (lenient_driver d) vt Dt),
    (bind_defined lenient (lenient_driver d) vd Dd),
    (bind_defined lenient (lenient_driver d) vo Do),
    (bind_defined lenient (lenient_driver d) vp Dp),
    (bind_defined lenient (lenient_driver d) vs Ds).
  unfold mbind, result_bind.
  repeat match goal with
         | |- context [bind ?l ?v] => destruct (bind l v); [|reflexivity]
         end.
  match goal with |- context [not_null ?x] => destruct (not_null x) end;
    [|reflexivity].
  match goal with |- context [check_owner ?x] => destruct (check_owner x) end;
    [|reflexivity].
  match goal with |- context [check_status ?x] => destruct (check_status x) end;
    reflexivity.
Qed.

Lemma update_with_driver (lenient : bool) (vt vd vo : Js.value string)
    (vp : Js.value Z) (vs : Js.value string) (vpos : Js.value Z) (i now : Z)
    (d : Database) :
  update (Js.nullish_null vt) (Js.nullish_null vd) (Js.nullish_null vo)
    (Js.nullish_null vp) (Js.nullish_null vs) (Js.nullish_null vpos)
    i now (with_driver lenient d) =
  match update (Js.nullish_null vt) (Js.nullish_null vd)
          (Js.nullish_null vo) (Js.nullish_null vp) (Js.nullish_null vs)
          (Js.nullish_null vpos) i now d with
  | Ok d' => Ok (with_driver lenient d')
  | Throw e => Throw e
  end.
Proof.
  unfold update. cbn [lenient_driver with_driver rows].
  rewrite !(bind_defined lenient (lenient_driver d) (Js.nullish_null _))
    by apply nullish_defined.
  unfold mbind, result_bind.
  repeat match goal with
         | |- context [bind ?l ?v] => destruct (bind l v); [|reflexivity]
         end.
  destruct (rows d !! i) as [old|]; [|reflexivity].
  match goal with |- context [check_owner ?x] => destruct (check_owner x) end;
    [|reflexivity].
  match goal with |- context [check_status ?x] => destruct (check_status x) end;
    reflexivity.
Qed.

Lemma set_status_position_with_driver (lenient : bool) (vs : Js.value string)
    (vp : Js.value Z) (i now : Z) (d : Database) :
  vs ≠ Js.Undefined -> vp ≠ Js.Undefined ->
  set_status_position vs vp i now (with_driver lenient d) =
  match set_status_position vs vp i now d with
  | Ok d' => Ok (with_driver lenient d')
  | Throw e => Throw e
  end.
Proof.
  intros Ds Dp. unfold set_status_position.
  cbn [lenient_driver with_driver rows].
  rewrite (bind_defined lenient (lenient_driver d) vs Ds),
    (bind_defined lenient (lenient_driver d) vp Dp).
  unfold mbind, result_bind.
  repeat match goal with
         | |- context [bind ?l ?v] => destruct (bind l v); [|reflexivity]
         end.
  destruct (rows d !! i) as [old|]; [|reflexivity].
  match goal with |- context [check_status ?x] => destruct (check_status x) end;
    reflexivity.
Qed.

(** X19.  Every request to the test application is answered alike, and
    leaves the same table and subscribers, whichever kind of driver is
    behind the connection: no value that may be [undefined] reaches a
    statement of the test application. *)
Lemma test_app_ignores_driver (lenient : bool) (now : Z) (r : request)
    (s : State) :
  handle now r (state_with_driver lenient s) =
  ((handle now r s).1, state_with_driver lenient (handle now r s).2).
Proof.
  destruct r as [c|c|o|b|i b|i|i b]; simpl; try reflexivity.
  - unfold post_tasks; simpl.
    destruct (Js.truthy (b_title b)) eqn:Ht; [|reflexivity].
    destruct (Js.truthy (b_owner b)) eqn:Hot; [|reflexivity]. simpl.
    destruct (Js.includes owners (b_owner b)); [|reflexivity]. simpl.
    destruct (Js.truthy (b_status b) && negb (Js.includes statuses (b_status b)));
      [reflexivity|].
    fold (with_driver lenient (testDb s)).
    rewrite insert_with_driver
      by first [by apply truthy_defined | apply or_else_defined].
    destruct (insert _ _ _ _ _ now (testDb s)) as [[j d']|e]; reflexivity.
  - unfold put_task; simpl. fold (with_driver lenient (testDb s)).
    change (Sqlite.get i (with_driver lenient (testDb s)))
      with (Sqlite.get i (testDb s)).
    destruct (Sqlite.get i (testDb s)); [|reflexivity].
    destruct (Js.truthy (b_owner b) && negb (Js.includes owners (b_owner b)));
      [reflexivity|].
    destruct (Js.truthy (b_status b) && negb (Js.includes statuses (b_status b)));
      [reflexivity|].
    rewrite update_with_driver.
    destruct (update _ _ _ _ _ _ i now (testDb s)); reflexivity.
  - unfold delete_task; simpl. fold (with_driver lenient (testDb s)).
    change (Sqlite.get i (with_driver lenient (testDb s)))
      with (Sqlite.get i (testDb s)).
    destruct (Sqlite.get i (testDb s)); reflexivity.
  - unfold patch_move; simpl. fold (with_driver lenient (testDb s)).
    change (Sqlite.get i (with_driver lenient (testDb s)))
      with (Sqlite.get i (testDb s)).
    destruct (Sqlite.get i (testDb s)); [|reflexivity].
    destruct (Js.truthy (b_status b)) eqn:Hst; [|reflexivity]. simpl.
    destruct (Js.includes statuses (b_status b)); [|reflexivity]. simpl.
    rewrite set_status_position_with_driver
      by first [by apply truthy_defined | apply or_else_defined].
    destruct (set_status_position _ _ i now (testDb s)); reflexivity.
Qed.

End Driver.

(** * The three applications compared *)
Section Applications.
Import Sqlite Http Props TestApp Examples.

(** X1.  The plain test application of [src/unnamed/part_001] and the
    broadcasting one of [src/tests/app.ts] answer every REST request alike
    and leave the same table: broadcasting changes no response and no
    row. *)
Theorem plain_app_agrees (now i : Z) (o : option string) (b : Body)
    (s : State) :
  PlainApp.get_tasks o (testDb s) =
  ((get_tasks o s).1, testDb (get_tasks o s).2) ∧
  PlainApp.post_tasks now b (testDb s) =
  ((post_tasks now b s).1, testDb (post_tasks now b s).2) ∧
  PlainApp.put_task now i b (testDb s) =
  ((put_task now i b s).1, testDb (put_task now i b s).2) ∧
  PlainApp.delete_task i (testDb s) =
  ((delete_task i s).1, testDb (delete_task i s).2) ∧
  PlainApp.patch_move now i b (testDb s) =
  ((patch_move now i b s).1, testDb (patch_move now i b s).2).
Proof.
  split; [reflexivity|]. split; [|split; [|split]].
  - unfold PlainApp.post_tasks, post_tasks.
    destruct (negb (Js.truthy (b_title b)) || negb (Js.truthy (b_owner b)));
      [reflexivity|].
    destruct (negb (Js.includes owners (b_owner b))); [reflexivity|].
    destruct (Js.truthy (b_status b) && negb (Js.includes statuses (b_status b)));
      [reflexivity|].
    destruct (insert _ _ _ _ _ now (testDb s)) as [[j d']|e]; reflexivity.
  - unfold PlainApp.put_task, put_task.
    destruct (Sqlite.get i (testDb s)); [|reflexivity].
    destruct (Js.truthy (b_owner b) && negb (Js.includes owners (b_owner b)));
      [reflexivity|].
    destruct (Js.truthy (b_status b) && negb (Js.includes statuses (b_status b)));
      [reflexivity|].
    destruct (update _ _ _ _ _ _ i now (testDb s)); reflexivity.
  - unfold PlainApp.delete_task, delete_task.
    destruct (Sqlite.get i (testDb s)); reflexivity.
  - unfold PlainApp.patch_move, patch_move.
    destruct (Sqlite.get i (testDb s)); [|reflexivity].
    destruct (negb (Js.truthy (b_status b)) ||
              negb (Js.includes statuses (b_status b))); [reflexivity|].
    destruct (set_status_position _ _ i now (testDb s)); reflexivity.
Qed.

(** X2.  The server of [src/unnamed/part_000] answers like the test
    application, and leaves the same table, whenever what only the test
    application has does not decide the answer: a POST that the test
    application answers neither with Invalid status (its status check)
    nor with Failed to create task (its catch block), a PUT or PATCH it
    does not answer 400, every DELETE, and the listing without a
    filter. *)
Theorem server_agrees_when_not_refused (now i : Z) (b : Body) (s : State) :
  ((post_tasks now b s).1 ≠ error_response 400 InvalidStatus ->
   (post_tasks now b s).1 ≠ error_response 400 FailedToCreate ->
   Server.post_tasks now b (testDb s) =
   ((post_tasks now b s).1, testDb (post_tasks now b s).2)) ∧
  (code (put_task now i b s).1 ≠ 400 ->
   Server.put_task now i b (testDb s) =
   ((put_task now i b s).1, testDb (put_task now i b s).2)) ∧
  (code (patch_move now i b s).1 ≠ 400 ->
   Server.patch_move now i b (testDb s) =
   ((patch_move now i b s).1, testDb (patch_move now i b s).2)) ∧
  Server.delete_task i (testDb s) =
  ((delete_task i s).1, testDb (delete_task i s).2) ∧
  Server.get_tasks (testDb s) =
  ((get_tasks None s).1, testDb (get_tasks None s).2).
Proof.
  split; [|split; [|split; [|split; [|reflexivity]]]].
  - unfold Server.post_tasks, post_tasks.
    destruct (Js.truthy (b_title b)) eqn:Ht; [|reflexivity].
    destruct (Js.includes owners (b_owner b)) eqn:Ho.
    2:{ destruct (Js.truthy (b_owner b)); reflexivity. }
    rewrite (includes_truthy _ _ owners_nonempty Ho). simpl.
    destruct (Js.truthy (b_status b) && negb (Js.includes statuses (b_status b)));
      [intros H; contradiction H; reflexivity|].
    destruct (insert _ _ _ _ _ now (testDb s)) as [[j d']|e];
      [reflexivity|].
    intros _ H. contradiction H. reflexivity.
  - unfold Server.put_task, put_task.
    destruct (Sqlite.get i (testDb s)); [|reflexivity].
    destruct (Js.truthy (b_owner b) && negb (Js.includes owners (b_owner b)));
      [intros H; contradiction H; reflexivity|].
    destruct (Js.truthy (b_status b) && negb (Js.includes statuses (b_status b)));
      [intros H; contradiction H; reflexivity|].
    intros _. destruct (update _ _ _ _ _ _ i now (testDb s)); reflexivity.
  - unfold Server.patch_move, patch_move.
    destruct (Sqlite.get i (testDb s)); [|reflexivity].
    destruct (negb (Js.truthy (b_status b)) ||
              negb (Js.includes statuses (b_status b)));
      [intros H; contradiction H; reflexivity|].
    intros _. destruct (set_status_position _ _ i now (testDb s)); reflexivity.
  - unfold Server.delete_task, delete_task.
    destruct (Sqlite.get i (testDb s)); reflexivity.
Qed.

End Applications.

(** * The shape of what the statements write *)
Section Shapes.
Import Sqlite Http Props Props2.

Lemma bind_val_is_Some {A} (lenient : bool) (a : A) (p : option A) :
  bind lenient (Js.Val a) = Ok p -> p = Some a.
Proof. by intros [= <-]. Qed.

Lemma insert_shape (a_title a_description a_owner : Js.value string)
    (a_priority : Js.value Z) (a_status : Js.value string) (now : Z)
    (d : Database) (j : Z) (d' : Database) :
  insert a_title a_description a_owner a_priority a_status now d = Ok (j, d') ->
  exists t pd o pp st,
    bind (lenient_driver d) a_description = Ok pd ∧
    bind (lenient_driver d) a_priority = Ok pp ∧
    bind (lenient_driver d) a_status = Ok st ∧
    o ∈ owners ∧ (forall x, st = Some x -> x ∈ statuses) ∧
    j = next_rowid d ∧
    d' = mkDatabase
           (<[next_rowid d := mkColumns t pd o pp st (Some 0) now now]> (rows d))
           (next_rowid d) (lenient_driver d).
Proof.
  unfold insert, mbind, result_bind.
  destruct (bind _ a_title) as [pt|]; [|discriminate].
  destruct (bind _ a_description) as [pd|]; [|discriminate].
  destruct (bind _ a_owner) as [po|]; [|discriminate].
  destruct (bind _ a_priority) as [pp|]; [|discriminate].
  destruct (bind _ a_status) as [ps|]; [|discriminate].
  destruct (not_null pt) as [t|]; [|discriminate].
  destruct (check_owner po) as [o|] eqn:Eo; [|discriminate].
  destruct (check_status ps) as [st|] eqn:Es; [|discriminate].
  intros [= <- <-]. exists t, pd, o, pp, st.
  repeat (split; [reflexivity|]).
  assert (o ∈ owners).
  { unfold check_owner in Eo. destruct po as [x|]; [|discriminate].
    destruct (bool_decide (x ∈ owners)) eqn:E; [|discriminate].
    injection Eo as <-. by apply bool_decide_eq_true in E. }
  assert (ps = st ∧ forall x, st = Some x -> x ∈ statuses) as [-> ?].
  { unfold check_status in Es. destruct ps as [x|].
    - destruct (bool_decide (x ∈ statuses)) eqn:E; [|discriminate].
      injection Es as <-. split; [reflexivity|].
      intros ? [= <-]. by apply bool_decide_eq_true in E.
    - injection Es as <-. split; [reflexivity | discriminate]. }
  split; [reflexivity|]. split; [assumption|]. split; [assumption|].
  split; reflexivity.
Qed.

Lemma update_shape (a_title a_description a_owner : Js.value string)
    (a_priority : Js.value Z) (a_status : Js.value string)
    (a_position : Js.value Z) (i now : Z) (d d' : Database) :
  update a_title a_description a_owner a_priority a_status a_position i now d
  = Ok d' ->
  rows d !! i = None ∧ d' = d ∨
  exists old pt pd po pp ps ppos,
    rows d !! i = Some old ∧
    coalesce_nn po (owner old) ∈ owners ∧
    (forall x, coalesce ps (status old) = Some x -> x ∈ statuses) ∧
    d' = mkDatabase
           (<[i := mkColumns (coalesce_nn pt (title old))
                     (coalesce pd (description old))
                     (coalesce_nn po (owner old))
                     (coalesce pp (priority old))
                     (coalesce ps (status old))
                     (coalesce ppos (position old))
                     (created_at old) now]> (rows d))
           (sequence d) (lenient_driver d).
Proof.
  unfold update, mbind, result_bind.
  destruct (bind _ a_title) as [pt|]; [|discriminate].
  destruct (bind _ a_description) as [pd|]; [|discriminate].
  destruct (bind _ a_owner) as [po|]; [|discriminate].
  destruct (bind _ a_priority) as [pp|]; [|discriminate].
  destruct (bind _ a_status) as [ps|]; [|discriminate].
  destruct (bind _ a_position) as [ppos|]; [|discriminate].
  destruct (rows d !! i) as [old|]; [|intros [= <-]; left; auto].
  unfold check_owner.
  destruct (bool_decide (coalesce_nn po (owner old) ∈ owners)) eqn:Eo;
    [|discriminate].
  apply bool_decide_eq_true in Eo.
  destruct (check_status (coalesce ps (status old))) as [st|] eqn:Es;
    [|discriminate].
  intros [= <-]. right. exists old, pt, pd, po, pp, ps, ppos.
  split; [reflexivity|]. split; [exact Eo|].
  unfold check_status in Es.
  destruct (coalesce ps (status old)) as [x|].
  - destruct (bool_decide (x ∈ statuses)) eqn:E; [|discriminate].
    injection Es as <-. split; [|reflexivity].
    intros ? [= <-]. by apply bool_decide_eq_true in E.
  - injection Es as <-. split; [discriminate | reflexivity].
Qed.

Lemma set_status_position_shape (a_status : Js.value string)
    (a_position : Js.value Z) (i now : Z) (d d' : Database) :
  set_status_position a_status a_position i now d = Ok d' ->
  rows d !! i = None ∧ d' = d ∨
  exists old ps ppos,
    rows d !! i = Some old ∧
    bind (lenient_driver d) a_status = Ok ps ∧
    bind (lenient_driver d) a_position = Ok ppos ∧
    (forall x, ps = Some x -> x ∈ statuses) ∧
    d' = mkDatabase
           (<[i := mkColumns (title old) (description old) (owner old)
                     (priority old) ps ppos (created_at old) now]> (rows d))
           (sequence d) (lenient_driver d).
Proof.
  unfold set_status_position, mbind, result_bind.
  destruct (bind _ a_status) as [ps|]; [|discriminate].
  destruct (bind _ a_position) as [ppos|]; [|discriminate].
  destruct (rows d !! i) as [old|]; [|intros [= <-]; left; auto].
  destruct (check_status ps) as [st|] eqn:Es; [|discriminate].
  intros [= <-]. right. exists old, ps, ppos.
  repeat (split; [reflexivity|]).
  unfold check_status in Es. destruct ps as [x|].
  - destruct (bool_decide (x ∈ statuses)) eqn:E; [|discriminate].
    injection Es as <-. split; [|reflexivity].
    intros ? [= <-]. by apply bool_decide_eq_true in E.
  - injection Es as <-. split; [discriminate | reflexivity].
Qed.

End Shapes.

(** * What is stored stays within the enumerations *)
Section Enumerations.
Import Sqlite Http Props Props2 TestApp Examples.

Lemma bind_or_else {A} `{Js.Truthy A} (lenient : bool) (v : Js.value A)
    (dflt : A) (p : option A) :
  bind lenient (Js.or_else v dflt) = Ok p -> is_Some p.
Proof.
  destruct (or_else_cases v dflt) as [(a & -> & _)|[_ ->]];
    [intros [= <-]; eauto | discriminate].
Qed.

Lemma bind_truthy {A} `{Js.Truthy A} (lenient : bool) (v : Js.value A)
    (p : option A) :
  Js.truthy v = true -> bind lenient v = Ok p -> is_Some p.
Proof.
  intros [(a & -> & _)| ->]%truthy_cases; [intros [= <-]; eauto | discriminate].
Qed.

Lemma coalesce_is_Some {A} (p col : option A) :
  is_Some col -> is_Some (coalesce p col).
Proof. destruct p; simpl; eauto. Qed.

(** The row a POST inserts, on either application, is within the
    enumerations. *)
Lemma inserted_within_enums (b : Body) (now : Z) (d : Database) (j : Z)
    (d' : Database) :
  insert (b_title b) (Js.or_else (b_description b) EmptyString) (b_owner b)
    (Js.or_else (b_priority b) 1) (Js.or_else (b_status b) backlog) now d
  = Ok (j, d') ->
  exists c, within_enums c ∧
            d' = mkDatabase (<[next_rowid d := c]> (rows d)) (next_rowid d)
                   (lenient_driver d).
Proof.
  intros (t & pd & o & pp & st & Hd & Hp & Hs & Ho & Hst & _ & ->)%insert_shape.
  eexists. split; [|reflexivity].
  split; [exact Ho|]. simpl.
  apply bind_or_else in Hd, Hp. destruct (bind_or_else _ _ _ _ Hs) as [x ->].
  split; [eauto|]. split; [assumption|]. split; [assumption | eauto].
Qed.

Lemma within_enums_checks (c : Columns) : within_enums c -> within_checks c.
Proof.
  intros (Ho & (st & Es & Hst) & Hd & Hp & Hpos).
  split; [assumption|]. split; [|auto].
  intros x. rewrite Es. by intros [= <-].
Qed.

(** The row an UPDATE writes is within the constraints, or within the
    enumerations, when the row it replaces is. *)
Lemma updated_within (a_title a_description a_owner : Js.value string)
    (a_priority : Js.value Z) (a_status : Js.value string)
    (a_position : Js.value Z) (i now : Z) (d d' : Database) :
  update a_title a_description a_owner a_priority a_status a_position i now d
  = Ok d' ->
  (map_Forall (fun _ => within_checks) (rows d) ->
   map_Forall (fun _ => within_checks) (rows d')) ∧
  (map_Forall (fun _ => within_enums) (rows d) ->
   map_Forall (fun _ => within_enums) (rows d')).
Proof.
  intros [[_ ->]|(old & pt & pd & po & pp & ps & ppos & Hold & Ho & Hs & ->)]
    %update_shape; [auto|]. simpl. split; intros Hall.
  - apply map_Forall_insert_2; [|exact Hall].
    destruct (Hall i old Hold) as (_ & _ & Hd & Hp & Hpos).
    split; [exact Ho|]. split; [exact Hs|]. simpl.
    auto using @coalesce_is_Some.
  - apply map_Forall_insert_2; [|exact Hall].
    destruct (Hall i old Hold) as (_ & (st & Est & Hst) & Hd & Hp & Hpos).
    split; [exact Ho|]. simpl. split.
    + destruct (coalesce_is_Some ps (status old)) as [x Ex];
        [rewrite Est; eauto|]. exists x. split; [exact Ex | by apply Hs].
    + auto using @coalesce_is_Some.
Qed.

(** Every request leaves the rows of the test application within the
    enumerations. *)
Lemma handle_keeps_enums (now : Z) (r : request) (s : State) :
  map_Forall (fun _ => within_enums) (rows (testDb s)) ->
  map_Forall (fun _ => within_enums) (rows (testDb (handle now r s).2)).
Proof.
  intros Hall. rewrite handle_state.
  destruct r as [c|c|o|b|i b|i|i b]; simpl; try exact Hall.
  - unfold post_tasks.
    destruct (negb (Js.truthy (b_title b)) || negb (Js.truthy (b_owner b)));
      [exact Hall|].
    destruct (negb (Js.includes owners (b_owner b))); [exact Hall|].
    destruct (Js.truthy (b_status b) && negb (Js.includes statuses (b_status b)));
      [exact Hall|].
    destruct (insert _ _ _ _ _ now (testDb s)) as [[j d']|e] eqn:E;
      [|exact Hall].
    apply inserted_within_enums in E as (c & Hc & ->). simpl.
    by apply map_Forall_insert_2.
  - unfold put_task.
    destruct (Sqlite.get i (testDb s)); [|exact Hall].
    destruct (Js.truthy (b_owner b) && negb (Js.includes owners (b_owner b)));
      [exact Hall|].
    destruct (Js.truthy (b_status b) && negb (Js.includes statuses (b_status b)));
      [exact Hall|].
    destruct (update _ _ _ _ _ _ i now (testDb s)) as [d'|e] eqn:E;
      [|exact Hall].
    simpl. by apply (updated_within _ _ _ _ _ _ _ _ _ _ E).
  - unfold delete_task.
    destruct (Sqlite.get i (testDb s)); [|exact Hall].
    simpl. by apply map_Forall_delete.
  - unfold patch_move.
    destruct (Sqlite.get i (testDb s)); [|exact Hall].
    destruct (Js.truthy (b_status b)) eqn:Ht; [|exact Hall]. simpl.
    destruct (Js.includes statuses (b_status b)); [|exact Hall]. simpl.
    destruct (set_status_position _ _ i now (testDb s)) as [d'|e] eqn:E;
      [|exact Hall].
    apply set_status_position_shape in E
      as [[_ ->]|(old & ps & ppos & Hold & Hs & Hp & Hst & ->)]; [exact Hall|].
    simpl. apply map_Forall_insert_2; [|exact Hall].
    destruct (Hall i old Hold) as (Ho & _ & Hd & Hpr & _).
    apply bind_or_else in Hp. destruct (bind_truthy _ _ _ Ht Hs) as [x ->].
    split; [exact Ho|]. simpl. split; [eauto|]. auto.
Qed.

(** X3.  In every state the test application reaches from the empty
    database, whatever the requests, every stored task has one of the two
    owners and one of the three statuses, and no NULL in its description,
    priority, status or position. *)
Theorem test_app_rows_within_enums (lenient : bool)
    (trace : list (Z * request)) (i : Z) (t : Task) :
  Sqlite.get i (testDb (run trace (initial lenient))) = Some t ->
  (owner t = oracle ∨ owner t = soheil) ∧
  (status t = Some backlog ∨ status t = Some in_progress ∨
   status t = Some done) ∧
  is_Some (description t) ∧ is_Some (priority t) ∧ is_Some (position t).
Proof.
  assert (forall tr s,
            map_Forall (fun _ => within_enums) (rows (testDb s)) ->
            map_Forall (fun _ => within_enums) (rows (testDb (run tr s))))
    as Hrun.
  { induction tr as [|[now r] tr IH]; intros s Hall; [exact Hall|].
    simpl. by apply IH, handle_keeps_enums. }
  intros [_ Hrow]%get_Some.
  destruct (Hrun trace (initial lenient) (map_Forall_empty _) i _ Hrow)
    as (Ho & (st & Es & Hst) & Hrest).
  apply owners_spec in Ho. apply statuses_spec in Hst.
  split; [exact Ho|]. split; [|exact Hrest].
  rewrite Es. destruct Hst as [-> |[-> | ->]]; auto.
Qed.

Lemma test_app_rows_within_enums_witness :
  owner first_row = oracle ∨ owner first_row = soheil.
Proof.
  destruct (test_app_rows_within_enums false
              [(10, GET_events 0%nat); (10, POST_tasks (titled "A"%string oracle))]
              1 first_row) as [H _]; [reflexivity | exact H].
Defined.

(** X4.  On the server every request keeps the table within its
    constraints: if every stored task has one of the two owners, a status
    that is NULL or one of the three, and no NULL in description, priority
    or position, the same holds after any POST, PUT, PATCH or DELETE,
    whatever the body. *)
Theorem server_rows_within_checks (now i : Z) (b : Body) (d : Database) :
  map_Forall (fun _ => within_checks) (rows d) ->
  map_Forall (fun _ => within_checks) (rows (Server.post_tasks now b d).2) ∧
  map_Forall (fun _ => within_checks) (rows (Server.put_task now i b d).2) ∧
  map_Forall (fun _ => within_checks) (rows (Server.patch_move now i b d).2) ∧
  map_Forall (fun _ => within_checks) (rows (Server.delete_task i d).2).
Proof.
  intros Hall. split; [|split; [|split]].
  - unfold Server.post_tasks.
    destruct (negb (Js.truthy (b_title b)) || negb (Js.truthy (b_owner b)));
      [exact Hall|].
    destruct (negb (Js.includes owners (b_owner b))); [exact Hall|].
    destruct (insert _ _ _ _ _ now d) as [[j d']|e] eqn:E; [|exact Hall].
    apply inserted_within_enums in E as (c & Hc & ->). simpl.
    apply map_Forall_insert_2; [by apply within_enums_checks | exact Hall].
  - unfold Server.put_task.
    destruct (Sqlite.get i d); [|exact Hall].
    destruct (update _ _ _ _ _ _ i now d) as [d'|e] eqn:E; [|exact Hall].
    simpl. by apply (updated_within _ _ _ _ _ _ _ _ _ _ E).
  - unfold Server.patch_move.
    destruct (Sqlite.get i d); [|exact Hall].
    destruct (set_status_position _ _ i now d) as [d'|e] eqn:E; [|exact Hall].
    apply set_status_position_shape in E
      as [[_ ->]|(old & ps & ppos & Hold & Hs & Hp & Hst & ->)]; [exact Hall|].
    simpl. apply map_Forall_insert_2; [|exact Hall].
    destruct (Hall i old Hold) as (Ho & _ & Hd & Hpr & _).
    apply bind_or_else in Hp.
    split; [exact Ho|]. simpl. split; [exact Hst|]. auto.
  - unfold Server.delete_task.
    destruct (Sqlite.get i d); [|exact Hall].
    simpl. by apply map_Forall_delete.
Qed.

Lemma server_rows_within_checks_witness :
  map_Forall (fun _ => within_checks)
    (rows (Server.post_tasks 10 (titled "A"%string oracle)
             (Sqlite.empty false)).2).
Proof.
  destruct (server_rows_within_checks 10 1 (titled "A"%string oracle)
              (Sqlite.empty false)) as [H _].
  - intros j c Hj. vm_compute in Hj. discriminate Hj.
  - exact H.
Defined.

End Enumerations.

(** * Move: the success path *)
Section MoveEffect.
Import Sqlite Http Props Props2 TestApp Examples.

Lemma or_else_position (v : Js.value Z) :
  v ≠ Js.Bool true ->
  Js.or_else v 0 = Js.Val (match v with Js.Val n => n | _ => 0 end).
Proof.
  destruct v as [| |n|[|]]; try reflexivity.
  - intros _. unfold Js.or_else; simpl.
    unfold Js.truthy_prim, Js.truthy_number.
    destruct (Z.eqb_spec n 0) as [-> |]; reflexivity.
  - intros H. contradiction H. reflexivity.
Qed.

(** X5.  A PATCH that names a stored task and one of the three statuses,
    and whose position is not [true], is answered 200 on both
    applications with the stored row: its status is the one supplied;
    its position is the one supplied as [express.json()] read it (the
    integer itself up to 2^53 in magnitude, the nearest double beyond),
    or 0 when the position is absent, null or [false]; its updated_at is
    the clock reading, and every other column is as before. *)
Theorem move_overwrites_status_and_position (now i : Z) (sent b : Body)
    (s : State) (old : Task) (st : string) :
  express_json sent = Some b ->
  Sqlite.get i (testDb s) = Some old ->
  b_status sent = Js.Val st -> st ∈ statuses ->
  b_position sent ≠ Js.Bool true ->
  exists t : Task,
    (patch_move now i b s).1 = json_response 200 (JTask t) ∧
    Sqlite.get i (testDb (patch_move now i b s).2) = Some t ∧
    Server.patch_move now i b (testDb s) =
    (json_response 200 (JTask t), testDb (patch_move now i b s).2) ∧
    id t = id old ∧
    status t = Some st ∧
    position t = match b_position sent with
                 | Js.Val n => Js.double_of_literal n
                 | _ => Some 0
                 end ∧
    (forall n, b_position sent = Js.Val n -> Z.abs n <= 2 ^ 53 ->
               position t = Some n) ∧
    title t = title old ∧ description t = description old ∧
    owner t = owner old ∧ priority t = priority old ∧
    created_at t = created_at old ∧ updated_at t = now.
Proof.
  intros Hparse Hget Est Hst Npos.
  apply express_json_inv in Hparse as (_ & _ & _ & Ps & _ & Ppos).
  rewrite <- Ps in Est.
  pose proof (parse_number_inv _ _ Ppos) as Hinv.
  pose proof (parse_number_truthy _ _ Ppos) as (_ & _ & Pb & _).
  assert (b_position b ≠ Js.Bool true) as Npos' by (by rewrite Pb).
  pose proof Hget as [Hid Hrow]%get_Some.
  unfold patch_move, Server.patch_move.
  rewrite Hget, Est, or_else_position by exact Npos'.
  assert (Js.truthy (Js.Val st) = true) as ->.
  { simpl. apply truthy_string_nonempty. intros ->.
    by apply statuses_nonempty. }
  assert (Js.includes statuses (Js.Val st) = true) as ->
    by (by apply bool_decide_eq_true).
  simpl. unfold set_status_position, mbind, result_bind; simpl.
  rewrite Hrow. rewrite bool_decide_eq_true_2 by exact Hst. simpl.
  unfold Sqlite.get; simpl. rewrite lookup_insert_eq; simpl.
  assert (Some (match b_position b with Js.Val n => n | _ => 0 end) =
          match b_position sent with
          | Js.Val n => Js.double_of_literal n
          | _ => Some 0
          end) as Epos.
  { destruct (b_position sent) as [| |n|t]; simpl in Hinv;
      try (by rewrite Hinv).
    destruct Hinv as (m & Hm & ->). by symmetry. }
  eexists. split; [reflexivity|]. split; [reflexivity|].
  split; [reflexivity|]. simpl.
  split; [by symmetry|]. split; [reflexivity|]. split; [exact Epos|].
  split; [|auto 10].
  intros n E Hn. rewrite Epos, E. by apply double_of_literal_safe.
Qed.

Lemma move_overwrites_status_and_position_witness :
  exists t : Task,
    (patch_move 20 1 (titled_in "ignored"%string soheil done)
       (one_task false)).1 = json_response 200 (JTask t) ∧
    status t = Some done ∧ position t = Some 0 ∧
    title t = title first_row ∧ owner t = owner first_row ∧
    created_at t = 10 ∧ updated_at t = 20.
Proof.
  destruct (move_overwrites_status_and_position 20 1
              (titled_in "ignored"%string soheil done)
              (titled_in "ignored"%string soheil done) (one_task false)
              first_row done)
    as (t & E & _ & _ & _ & Hs & Hp & _ & Ht & _ & Ho & _ & Hc & Hu).
  - reflexivity.
  - reflexivity.
  - reflexivity.
  - apply statuses_spec. auto.
  - discriminate.
  - exists t. auto 10.
Defined.

End MoveEffect.

(** * Status codes *)
Section StatusCodes.
Import Sqlite Http Props Props2 TestApp Examples.

Lemma put_task_uncaught (now i : Z) (b : Body) (s : State) (old : Columns) :
  rows (testDb s) !! i = Some old -> within_checks old ->
  code (put_task now i b s).1 = 500 ->
  b_owner b = Js.Val EmptyString ∨ b_status b = Js.Val EmptyString ∨
  no_boolean b = false.
Proof.
  intros Hrow (Hoo & Hos & _) Hcode.
  assert (forall v : Js.value string,
            v = Js.Val EmptyString ∨ v ≠ Js.Val EmptyString) as Hdec.
  { intros [| |[|? ?]|?]; (by left) || (right; discriminate). }
  destruct (Hdec (b_owner b)) as [|Hno]; [by left|].
  destruct (Hdec (b_status b)) as [|Hns]; [by right; left|].
  destruct (no_boolean b) eqn:Hnb; [|by right; right].
  apply no_boolean_inv in Hnb as (Bt & Bd & Bo & Bp & Bs & Bpos).
  exfalso. revert Hcode. unfold put_task.
  assert (Sqlite.get i (testDb s) = Some (mkTask i old)) as ->
    by (by apply get_Some).
  destruct (Js.truthy (b_owner b) && negb (Js.includes owners (b_owner b)))
    eqn:Vo; [discriminate|].
  destruct (Js.truthy (b_status b) && negb (Js.includes statuses (b_status b)))
    eqn:Vs; [discriminate|].
  rewrite (update_ok _ _ _ _ _ _ i now (testDb s) old Bt Bd Bo Bp Bs Bpos Hrow);
    [discriminate|..].
  - apply andb_false_iff in Vo as [Vo|Vo].
    + apply title_falsy in Vo as [E|[E|[E|E]]]; rewrite E in *;
        first [assumption | contradiction | discriminate].
    + apply negb_false_iff, includes_inv in Vo as (o & -> & Hin). exact Hin.
  - apply status_admitted in Vs as [Vs|(st & -> & Hin)].
    + apply title_falsy in Vs as [E|[E|[E|E]]]; rewrite E in *;
        first [assumption | contradiction | discriminate].
    + simpl. by intros ? [= <-].
Qed.

(** X6.  Status codes of the test application, for bodies whose fields
    are absent, null, booleans, strings (text fields) or integers (number
    fields), on a table within its constraints.  Every REST request is
    answered 200, 201, 204, 400, 404 or 500.  A 500 is an uncaught
    exception of a statement: it leaves the table and the subscribers as
    they were and is answered only to a PUT on a stored task whose owner
    or status is the empty string or one of whose fields is a boolean,
    or to a PATCH on a stored task whose position is [true].  GET, POST
    and DELETE never end in a 500: what the INSERT throws is caught, and
    the message Failed to create task is answered, with 400, only to a
    POST one of whose arguments the driver refuses to bind. *)
Theorem test_app_status_codes (now : Z) (r : request) (s : State)
    (res : response) :
  map_Forall (fun _ => within_checks) (rows (testDb s)) ->
  (handle now r s).1 = Some res ->
  (code res = 200 ∨ code res = 201 ∨ code res = 204 ∨ code res = 400 ∨
   code res = 404 ∨ code res = 500) ∧
  (code res = 500 ->
   (handle now r s).2 = s ∧
   ((exists i b, r = PUT_task i b ∧ is_Some (Sqlite.get i (testDb s)) ∧
                 (b_owner b = Js.Val EmptyString ∨
                  b_status b = Js.Val EmptyString ∨
                  no_boolean b = false)) ∨
    (exists i b, r = PATCH_move i b ∧ is_Some (Sqlite.get i (testDb s)) ∧
                 b_position b = Js.Bool true))) ∧
  (body res = Json (JError FailedToCreate) ->
   code res = 400 ∧
   exists b, r = POST_tasks b ∧ unbindable_argument b).
Proof.
  intros Hall Hres.
  destruct r as [c|c|o|b|i b|i|i b]; simpl in Hres; try discriminate.
  - injection Hres as <-. simpl.
    split; [auto|]. split; discriminate.
  - destruct (post_tasks now b s) as [res0 s'] eqn:E.
    injection Hres as <-.
    assert (res0 = (post_tasks now b s).1) as -> by (by rewrite E).
    clear E s'.
    destruct (post_tasks_outcome now b s)
      as [[Hc (m & Hm & ->)]|[(N1 & N2 & N3 & Hu & ->)|
          (N1 & N2 & N3 & Nu & t & _ & _ & _ & ->)]]; simpl.
    + split; [auto 10|]. split; [discriminate|].
      intros [= ->]. contradiction.
    + split; [auto 10|]. split; [discriminate|]. eauto.
    + split; [auto 10|]. split; discriminate.
  - assert ((handle now (PUT_task i b) s).2 = (put_task now i b s).2) as ->
      by (simpl; by destruct (put_task now i b s)).
    assert (Some (put_task now i b s).1 = Some res) as [= <-]
      by (rewrite <- Hres; by destruct (put_task now i b s)).
    clear Hres. split; [|split].
    + unfold put_task.
      destruct (Sqlite.get i (testDb s)); [|simpl; auto 10].
      destruct (Js.truthy (b_owner b) && negb (Js.includes owners (b_owner b)));
        [simpl; auto 10|].
      destruct (Js.truthy (b_status b) && negb (Js.includes statuses (b_status b)));
        [simpl; auto 10|].
      destruct (update _ _ _ _ _ _ i now (testDb s)); simpl; auto 10.
    + intros Hcode. split.
      * revert Hcode. unfold put_task.
        destruct (Sqlite.get i (testDb s)); [|reflexivity].
        destruct (Js.truthy (b_owner b) && negb (Js.includes owners (b_owner b)));
          [reflexivity|].
        destruct (Js.truthy (b_status b) &&
                  negb (Js.includes statuses (b_status b))); [reflexivity|].
        destruct (update _ _ _ _ _ _ i now (testDb s));
          [discriminate | reflexivity].
      * left. exists i, b. split; [reflexivity|].
        destruct (rows (testDb s) !! i) as [old|] eqn:Hrow.
        -- split; [unfold Sqlite.get; rewrite Hrow; simpl; eauto|].
           exact (put_task_uncaught now i b s old Hrow (Hall i old Hrow) Hcode).
        -- exfalso. revert Hcode. unfold put_task.
           rewrite (proj2 (get_None i (testDb s)) Hrow). discriminate.
    + unfold put_task.
      destruct (Sqlite.get i (testDb s)); [|discriminate].
      destruct (Js.truthy (b_owner b) && negb (Js.includes owners (b_owner b)));
        [discriminate|].
      destruct (Js.truthy (b_status b) && negb (Js.includes statuses (b_status b)));
        [discriminate|].
      destruct (update _ _ _ _ _ _ i now (testDb s)) as [d'|e]; simpl;
        [destruct (Sqlite.get i d'); discriminate | discriminate].
  - destruct (delete_task i s) as [res0 s'] eqn:E.
    injection Hres as <-.
    assert (res0 = (delete_task i s).1) as -> by (by rewrite E).
    clear E s'. unfold delete_task.
    destruct (Sqlite.get i (testDb s)); simpl;
      (split; [auto 10|]; split; discriminate).
  - assert ((handle now (PATCH_move i b) s).2 = (patch_move now i b s).2)
      as -> by (simpl; by destruct (patch_move now i b s)).
    assert (Some (patch_move now i b s).1 = Some res) as [= <-]
      by (rewrite <- Hres; by destruct (patch_move now i b s)).
    clear Hres. unfold patch_move.
    destruct (Sqlite.get i (testDb s)) as [old|] eqn:Hget; simpl;
      [|split; [auto 10|]; split; discriminate].
    destruct (Js.truthy (b_status b)) eqn:Ht; simpl;
      [|split; [auto 10|]; split; discriminate].
    destruct (Js.includes statuses (b_status b)) eqn:Hi; simpl;
      [|split; [auto 10|]; split; discriminate].
    apply includes_inv in Hi as (st & Est & Hst).
    apply get_Some in Hget as [_ Hrow].
    destruct (bool_true_dec (b_position b)) as [Epos|Npos].
    + rewrite Est, Epos. simpl.
      split; [auto 10|]. split; [|discriminate].
      intros _. split; [reflexivity|]. right. exists i, b.
      split; [reflexivity|]. split; [|exact Epos].
      unfold Sqlite.get. rewrite Hrow. simpl. eauto.
    + rewrite Est, or_else_position by exact Npos.
      unfold set_status_position, mbind, result_bind; simpl.
      rewrite Hrow, bool_decide_eq_true_2 by exact Hst. simpl.
      unfold Sqlite.get; simpl. rewrite lookup_insert_eq. simpl.
      split; [auto 10|]. split; discriminate.
Qed.

Lemma test_app_status_codes_witness :
  exists i b,
    PUT_task 1 (titled "A"%string EmptyString) = PUT_task i b ∧
    is_Some (Sqlite.get i (testDb (one_task false))) ∧
    (b_owner b = Js.Val EmptyString ∨ b_status b = Js.Val EmptyString ∨
     no_boolean b = false).
Proof.
  destruct (test_app_status_codes 20
              (PUT_task 1 (titled "A"%string EmptyString)) (one_task false)
              (uncaught ConstraintFailed)) as (_ & H & _).
  - intros j c Hj.
    destruct (decide (j = 1)) as [-> |Hne].
    + vm_compute in Hj. injection Hj as <-.
      split; [apply owners_spec; auto|].
      split; [intros x [= <-]; apply statuses_spec; auto|].
      simpl; eauto.
    + change (rows (testDb (one_task false)))
        with (<[1 := columns first_row]> (∅ : gmap Z Columns)) in Hj.
      rewrite lookup_insert_ne, lookup_empty in Hj by congruence.
      discriminate Hj.
  - reflexivity.
  - destruct (H eq_refl) as [_ [Hput|(i & b & E & _)]];
      [exact Hput | discriminate E].
Defined.

End StatusCodes.

(** * Row ids *)
Section RowIds.
Import Sqlite Http Props Props2 TestApp Examples.

Lemma max_rowid_nonneg (m : gmap Z Columns) : 0 <= max_rowid m.
Proof.
  unfold max_rowid.
  apply (map_fold_weak_ind (fun r (_ : gmap Z Columns) => 0 <= r)); [lia|].
  intros i x m' r _ IH. lia.
Qed.

Lemma max_rowid_le (m : gmap Z Columns) (bound : Z) :
  0 <= bound -> (forall j c, m !! j = Some c -> j <= bound) ->
  max_rowid m <= bound.
Proof.
  intros Hb. unfold max_rowid.
  apply (map_fold_weak_ind
           (fun r (m : gmap Z Columns) =>
              (forall j c, m !! j = Some c -> j <= bound) -> r <= bound)).
  - intros _. exact Hb.
  - intros i x m' r Hi IH Hall.
    assert (i <= bound) by (apply (Hall i x), lookup_insert_eq).
    assert (r <= bound); [|lia].
    apply IH. intros j c Hj. apply (Hall j c).
    rewrite lookup_insert_ne; [exact Hj | congruence].
Qed.

(** After an insert the next id is the one after the id just given. *)
Lemma next_rowid_after_insert (d : Database) (c : Columns) (l : bool) :
  next_rowid (mkDatabase (<[next_rowid d := c]> (rows d)) (next_rowid d) l) =
  next_rowid d + 1.
Proof.
  unfold next_rowid at 1. simpl.
  pose proof (max_rowid_nonneg (rows d)).
  assert (0 <= next_rowid d) by (unfold next_rowid; lia).
  assert (max_rowid (<[next_rowid d := c]> (rows d)) <= next_rowid d).
  { apply max_rowid_le; [assumption|]. intros j c' Hj.
    apply lookup_insert_Some in Hj as [[<- _]|[_ Hj]]; [lia|].
    apply max_rowid_ge in Hj. unfold next_rowid. lia. }
  lia.
Qed.

Lemma run_sequence_mono (trace : list (Z * request)) (s : State) :
  sequence (testDb s) <= sequence (testDb (run trace s)).
Proof.
  revert s. induction trace as [|[now r] trace IH]; intros s; simpl; [lia|].
  destruct (handle_effect now r s 0) as [Hseq _].
  specialize (IH (handle now r s).2). lia.
Qed.

(** X7.  The id of a created task is above the id of every task stored at
    that moment, and of every task created before it, whatever happened in
    between (deletions included): ids are handed out in strictly
    increasing order and never reused. *)
Theorem created_ids_increase (s : State) (now1 now2 : Z) (b1 b2 : Body)
    (trace : list (Z * request)) (t1 t2 : Task) :
  (post_tasks now1 b1 s).1 = json_response 201 (JTask t1) ->
  (post_tasks now2 b2 (run trace (post_tasks now1 b1 s).2)).1 =
  json_response 201 (JTask t2) ->
  (forall j, is_Some (Sqlite.get j (testDb s)) -> j < id t1) ∧
  id t1 < id t2.
Proof.
  intros H1 H2.
  destruct (post_tasks_cases now1 b1 s) as [(m & E1)|(c1 & _ & _ & _ & E1)];
    rewrite E1 in H1, H2; [discriminate|].
  injection H1 as <-. simpl in *.
  set (s1 := mkState _ _) in H2.
  destruct (post_tasks_cases now2 b2 (run trace s1))
    as [(m & E2)|(c2 & _ & _ & _ & E2)]; rewrite E2 in H2; [discriminate|].
  injection H2 as <-. simpl. split.
  - intros j [t Ht]. apply get_Some in Ht as [_ Hrow].
    apply max_rowid_ge in Hrow. unfold next_rowid. lia.
  - pose proof (run_sequence_mono trace s1) as Hmono.
    pose proof (next_rowid_above_sequence (testDb (run trace s1))).
    subst s1. simpl in Hmono. lia.
Qed.

Lemma created_ids_increase_witness :
  let t1 := mkTask 1 (mkColumns "A"%string (Some EmptyString) oracle (Some 1)
                        (Some backlog) (Some 0) 10 10) in
  let t2 := mkTask 2 (mkColumns "B"%string (Some EmptyString) soheil (Some 1)
                        (Some backlog) (Some 0) 30 30) in
  (post_tasks 10 (titled "A"%string oracle) (initial false)).1 =
  json_response 201 (JTask t1) ∧
  (post_tasks 30 (titled "B"%string soheil)
     (run [(20, DELETE_task 1)]
        (post_tasks 10 (titled "A"%string oracle) (initial false)).2)).1 =
  json_response 201 (JTask t2) ∧
  id t1 < id t2.
Proof.
  intros t1 t2. split; [reflexivity|]. split; [reflexivity|].
  apply (created_ids_increase (initial false) 10 30 (titled "A"%string oracle)
           (titled "B"%string soheil) [(20, DELETE_task 1)] t1 t2);
    reflexivity.
Defined.

End RowIds.

(** * Listings before and after a mutation *)
Section ListingAfter.
Import Sqlite Http Props Props2 TestApp Examples.

Lemma StronglySorted_filter {A} (R : relation A) (P : A -> Prop)
    `{forall x, Decision (P x)} (l : list A) :
  StronglySorted R l -> StronglySorted R (filter P l).
Proof.
  induction 1 as [|x l Hl IH Hx]; [constructor|].
  rewrite filter_cons. destruct (decide (P x)); [|exact IH].
  constructor; [exact IH|].
  apply Forall_forall. intros y [_ Hy]%list_elem_of_filter.
  by apply (proj1 (Forall_forall _ _) Hx).
Qed.

(** Removing a row from the table removes it from every listing and
    leaves the other rows in their order. *)
Lemma all_after_removal (w : option string) (d d' : Database) (i : Z) :
  rows d' = delete i (rows d) ->
  Sqlite.all w d' = filter (fun t : Task => id t ≠ i) (Sqlite.all w d).
Proof.
  intros Hrows. symmetry.
  destruct (all_spec w d) as (Hsorted & Hnodup & Hmem).
  destruct (all_spec w d') as (_ & Hnodup' & Hmem').
  apply all_determined.
  - apply StronglySorted_Sorted. by apply StronglySorted_filter.
  - apply NoDup_Permutation; [by apply NoDup_filter | exact Hnodup'|].
    intros t. rewrite list_elem_of_filter, Hmem, Hmem', !get_Some, Hrows.
    rewrite lookup_delete_Some. intuition congruence.
Qed.

Lemma filter_all {A} (P : A -> Prop) `{forall x, Decision (P x)} (l : list A) :
  Forall P l -> filter P l = l.
Proof.
  induction 1 as [|x l Hx Hl IH]; [reflexivity|].
  rewrite filter_cons, decide_True by exact Hx. by rewrite IH.
Qed.

(** X8.  After a successful DELETE, every listing (filtered or not) is the
    listing before with that one task taken out; the remaining tasks keep
    their order. *)
Theorem listing_after_delete (i : Z) (o : option string) (s : State) :
  is_Some (Sqlite.get i (testDb s)) ->
  exists l : list Task,
    (get_tasks o s).1 = json_response 200 (JTasks l) ∧
    (get_tasks o (delete_task i s).2).1 =
    json_response 200 (JTasks (filter (fun t : Task => id t ≠ i) l)).
Proof.
  intros [old Hold]. eexists. split; [reflexivity|].
  unfold delete_task. rewrite Hold. unfold get_tasks; simpl.
  by rewrite (all_after_removal _ (testDb s) _ i).
Qed.

Lemma listing_after_delete_witness :
  (fun t : Task => id t) <$>
    match body (get_tasks None (delete_task 3 (board false)).2).1 with
    | Json (JTasks l) => l
    | _ => []
    end = [1; 4; 2].
Proof.
  destruct (listing_after_delete 3 None (board false)) as (l & E1 & E2).
  - vm_compute. eauto.
  - rewrite E2. simpl.
    assert (l = Sqlite.all None (testDb (board false))) as ->
      by (by injection E1).
    reflexivity.
Defined.

(** X9.  After a successful POST, the unfiltered listing is the listing
    before with the created task put in at one place: the tasks before it
    and the tasks after it are the old listing, in the old order. *)
Theorem listing_after_create (now : Z) (b : Body) (s : State) (t : Task) :
  (post_tasks now b s).1 = json_response 201 (JTask t) ->
  exists l1 l2 : list Task,
    (get_tasks None s).1 = json_response 200 (JTasks (l1 ++ l2)) ∧
    (get_tasks None (post_tasks now b s).2).1 =
    json_response 200 (JTasks (l1 ++ t :: l2)).
Proof.
  intros Hres.
  destruct (post_tasks_cases now b s) as [(m & E)|(c & _ & _ & _ & E)];
    rewrite E in Hres |- *; [discriminate|].
  injection Hres as <-. simpl. unfold get_tasks; simpl.
  set (i := next_rowid (testDb s)).
  set (d' := mkDatabase _ _ _).
  destruct (all_spec None d') as (_ & Hnodup' & Hmem').
  assert (mkTask i c ∈ Sqlite.all None d') as Hin.
  { apply Hmem'. split; [|exact I]. unfold Sqlite.get, d'; simpl.
    by rewrite lookup_insert_eq. }
  apply list_elem_of_split in Hin as (l1 & l2 & Hsplit).
  exists l1, l2. rewrite Hsplit. split; [|reflexivity].
  do 2 f_equal. f_equal.
  rewrite (all_after_removal None d' (testDb s) i).
  2:{ unfold d'; simpl. rewrite delete_insert_eq.
      symmetry. apply delete_id. apply next_rowid_fresh. }
  rewrite Hsplit, filter_app, filter_cons, decide_False by (simpl; tauto).
  rewrite Hsplit in Hnodup'.
  apply NoDup_app in Hnodup' as (Hn1 & Hdisj & Hn2).
  apply NoDup_cons in Hn2 as [Hnot2 _].
  assert (forall x, x ∈ l1 ++ mkTask i c :: l2 -> id x = i -> x = mkTask i c)
    as Huniq.
  { intros x Hx Hid. rewrite <- Hsplit in Hx.
    apply Hmem' in Hx as [Hx _]. rewrite Hid in Hx.
    unfold Sqlite.get, d' in Hx; simpl in Hx.
    rewrite lookup_insert_eq in Hx. by injection Hx. }
  rewrite !filter_all; [reflexivity|..].
  - apply Forall_forall. intros x Hx Hid.
    apply Hnot2. rewrite <- (Huniq x); [exact Hx| |exact Hid].
    apply elem_of_app. right. by right.
  - apply Forall_forall. intros x Hx Hid.
    apply (Hdisj x Hx). rewrite (Huniq x); [by left| |exact Hid].
    apply elem_of_app. by left.
Qed.

Lemma listing_after_create_witness :
  exists l1 l2 : list Task,
    (get_tasks None (one_task false)).1 =
    json_response 200 (JTasks (l1 ++ l2)) ∧
    (fun t : Task => id t) <$>
      match body (get_tasks None
                    (post_tasks 11 (titled_in "B"%string soheil in_progress)
                       (one_task false)).2).1 with
      | Json (JTasks l) => l
      | _ => []
      end =
    ((fun t : Task => id t) <$> l1) ++ 2 :: ((fun t : Task => id t) <$> l2).
Proof.
  destruct (listing_after_create 11 (titled_in "B"%string soheil in_progress)
              (one_task false)
              (mkTask 2 (mkColumns "B"%string (Some EmptyString) soheil
                           (Some 1) (Some in_progress) (Some 0) 11 11)))
    as (l1 & l2 & E1 & E2); [reflexivity|].
  exists l1, l2. split; [exact E1|].
  rewrite E2. simpl. by rewrite fmap_app.
Defined.

(** X10.  Any arrangement of the listed tasks that respects the listing
    order is the listing itself: two tasks of one table never tie on
    (status, position, id), so the order of a listing is fully
    determined. *)
Theorem listing_determined (o : option string) (s : State)
    (l l' : list Task) :
  (get_tasks o s).1 = json_response 200 (JTasks l) ->
  Sorted task_le l' -> l' ≡ₚ l -> l' = l.
Proof.
  unfold get_tasks; simpl. intros [= <-] Hsorted Hperm.
  by apply all_determined.
Qed.

Lemma listing_determined_witness :
  Sqlite.all None (testDb (board false)) =
  [mkTask 1 (mkColumns "A"%string (Some EmptyString) oracle (Some 1)
               (Some backlog) (Some 0) 10 10);
   mkTask 4 (mkColumns "D"%string (Some EmptyString) oracle (Some 1)
               (Some backlog) (Some 0) 13 13);
   mkTask 3 (mkColumns "C"%string (Some EmptyString) soheil (Some 1)
               (Some done) (Some 0) 12 12);
   mkTask 2 (mkColumns "B"%string (Some EmptyString) soheil (Some 1)
               (Some in_progress) (Some 0) 11 11)].
Proof.
  symmetry.
  apply (listing_determined None (board false)); [reflexivity| |reflexivity].
  apply (bool_decide_unpack _). vm_compute. exact I.
Defined.

End ListingAfter.

(** * Listings by owner *)
Section ListingByOwner.
Import Sqlite Http Props Props2 TestApp Examples.

Lemma run_keeps_enums (trace : list (Z * request)) (s : State) :
  map_Forall (fun _ => within_enums) (rows (testDb s)) ->
  map_Forall (fun _ => within_enums) (rows (testDb (run trace s))).
Proof.
  revert s. induction trace as [|[now r] trace IH]; intros s Hall;
    [exact Hall|].
  simpl. by apply IH, handle_keeps_enums.
Qed.

Lemma filter_agree {A} (P Q : A -> Prop) `{forall x, Decision (P x)}
    `{forall x, Decision (Q x)} (l : list A) :
  Forall (fun x => P x <-> Q x) l -> filter P l = filter Q l.
Proof.
  induction 1 as [|x l Hx Hl IH]; [reflexivity|].
  rewrite !filter_cons, IH.
  destruct (decide (P x)), (decide (Q x)); tauto.
Qed.

(** X11.  In every state the test application reaches from the empty
    database, the unfiltered listing holds exactly the tasks of the
    listing filtered by the first owner together with those of the
    listing filtered by the second: no task is lost to the filter and
    none is listed twice. *)
Theorem listing_split_by_owner (lenient : bool)
    (trace : list (Z * request)) :
  exists l lo ls : list Task,
    (get_tasks None (run trace (initial lenient))).1 =
    json_response 200 (JTasks l) ∧
    (get_tasks (Some oracle) (run trace (initial lenient))).1 =
    json_response 200 (JTasks lo) ∧
    (get_tasks (Some soheil) (run trace (initial lenient))).1 =
    json_response 200 (JTasks ls) ∧
    l ≡ₚ lo ++ ls ∧
    length l = (length lo + length ls)%nat.
Proof.
  set (s := run trace (initial lenient)).
  do 3 eexists. do 3 (split; [reflexivity|]).
  assert (Sqlite.all None (testDb s) ≡ₚ
          Sqlite.all (Some oracle) (testDb s) ++
          Sqlite.all (Some soheil) (testDb s)) as Hperm.
  { unfold Sqlite.all. rewrite !merge_sort_Permutation.
    rewrite <- (filter_app_complement (fun t : Task => owner t = oracle)
                  (all_tasks (testDb s))) at 1.
    rewrite (filter_agree (fun t : Task => ¬ owner t = oracle)
               (fun t : Task => owner t = soheil)); [reflexivity|].
    apply Forall_forall. intros t [_ Hrow]%elem_of_all_tasks%get_Some.
    pose proof (run_keeps_enums trace (initial lenient)
                  (map_Forall_empty _) _ _ Hrow) as (Ho & _).
    apply owners_spec in Ho. split.
    - intros Hne. destruct Ho as [Ho|Ho]; [contradiction | exact Ho].
    - intros ->. discriminate. }
  split; [exact Hperm|]. by rewrite Hperm, length_app.
Qed.

End ListingByOwner.

(** * The event stream along a run *)
Section EventStream.
Import Sqlite Http Props Props2 TestApp Examples.

Lemma write_nothing (clients : list Client) :
  (fun c => mkClient (conn c) (written c ++ [])) <$> clients = clients.
Proof.
  induction clients as [|[c w] clients IH]; [reflexivity|].
  rewrite fmap_cons, IH. simpl. by rewrite app_nil_r.
Qed.

(** What one request does to the subscriber list, read off its response. *)
Lemma handle_clients (now : Z) (r : request) (s : State) :
  match r with Close _ => False | _ => True end ->
  sseClients (handle now r s).2 =
  ((fun c => mkClient (conn c) (written c ++ frame_of r (handle now r s).1))
     <$> sseClients s) ++
  match r with
  | GET_events c => [mkClient c [Connected]]
  | _ => []
  end.
Proof.
  intros Hr. destruct r as [c|c|o|b|i b|i|i b]; simpl; try contradiction.
  - by rewrite write_nothing.
  - by rewrite write_nothing, app_nil_r.
  - rewrite app_nil_r.
    destruct (post_tasks_cases now b s) as [(m & ->)|(c & _ & _ & _ & ->)];
      simpl; [by rewrite write_nothing | reflexivity].
  - rewrite app_nil_r.
    destruct (put_task_cases now i b s)
      as [([c [j| |e]] & Hc & ->)|(d' & t & _ & _ & ->)]; simpl;
      try (by rewrite write_nothing); [|reflexivity].
    simpl in Hc. apply Z.eqb_neq in Hc. rewrite Hc. by rewrite write_nothing.
  - rewrite app_nil_r.
    destruct (delete_task_cases i s) as [[_ ->]|[_ ->]]; simpl;
      [by rewrite write_nothing | reflexivity].
  - rewrite app_nil_r.
    destruct (patch_move_cases now i b s)
      as [([c [j| |e]] & Hc & ->)|(d' & t & _ & _ & ->)]; simpl;
      try (by rewrite write_nothing); [|reflexivity].
    simpl in Hc. apply Z.eqb_neq in Hc. rewrite Hc. by rewrite write_nothing.
Qed.

(** X12.  Along any run in which no subscriber disconnects, every
    subscriber present at the start is still subscribed, at its place, and
    has been written the same frames in the same order: one per POST
    answered 201, PUT or PATCH answered 200 and DELETE answered 204,
    carrying the JSON of that response (the id for a DELETE), and nothing
    for any other request.  Subscribers that join during the run are
    placed behind them. *)
Theorem subscribers_receive_the_same_frames (trace : list (Z * request))
    (s : State) :
  no_close trace ->
  exists newcomers : list Client,
    sseClients (run trace s) =
    ((fun c => mkClient (conn c) (written c ++ frames_of_run trace s))
       <$> sseClients s) ++ newcomers.
Proof.
  revert s. induction trace as [|[now r] trace IH]; intros s Hnc.
  - exists []. simpl. by rewrite write_nothing, app_nil_r.
  - apply Forall_cons in Hnc as [Hr Hnc]. simpl in Hr.
    destruct (IH (handle now r s).2 Hnc) as (new' & E).
    simpl. rewrite E, (handle_clients now r s Hr), fmap_app, <- app_assoc.
    eexists. f_equal. rewrite <- list_fmap_compose.
    apply list_fmap_ext. intros _ [c w] _. simpl. by rewrite app_assoc.
Qed.

Lemma subscribers_receive_the_same_frames_witness :
  exists newcomers : list Client,
    sseClients
      (run [(20, PUT_task 1 (titled "A2"%string soheil));
            (21, GET_events 1%nat);
            (22, DELETE_task 9);
            (23, DELETE_task 1)] (one_task false)) =
    [mkClient 0%nat
       [Connected;
        Event task_created (JTask first_row);
        Event task_updated
          (JTask (mkTask 1 (mkColumns "A2"%string (Some EmptyString) soheil
                              (Some 1) (Some backlog) (Some 0) 10 20)));
        Event task_deleted (JId 1)]] ++ newcomers.
Proof.
  destruct (subscribers_receive_the_same_frames
              [(20, PUT_task 1 (titled "A2"%string soheil));
               (21, GET_events 1%nat);
               (22, DELETE_task 9);
               (23, DELETE_task 1)] (one_task false)) as (new & E).
  - repeat constructor.
  - exists new. rewrite E. reflexivity.
Defined.

Lemma splice_first_filter (c : nat) (clients : list Client) :
  NoDup (conn <$> clients) ->
  splice_first c clients = filter (fun x => conn x ≠ c) clients.
Proof.
  induction clients as [|x clients IH]; [reflexivity|].
  csimpl. intros [Hx Hnd]%NoDup_cons.
  rewrite filter_cons. case_bool_decide as E.
  - rewrite decide_False by tauto. symmetry. apply filter_all.
    apply Forall_forall. intros y Hy Hc. apply Hx.
    rewrite E, <- Hc. by apply list_elem_of_fmap_2.
  - rewrite decide_True by exact E. by rewrite IH.
Qed.

Lemma splice_first_last (c : nat) (w : list chunk) (clients : list Client) :
  c ∉ conn <$> clients ->
  splice_first c (clients ++ [mkClient c w]) = clients.
Proof.
  induction clients as [|x clients IH]; simpl.
  - intros _. by rewrite bool_decide_eq_true_2.
  - intros [Hx Hrest]%not_elem_of_cons.
    rewrite bool_decide_eq_false_2 by congruence. by rewrite IH.
Qed.

(** X13.  When the subscribers are distinct connections, the close of a
    connection takes exactly that connection out of the list and leaves
    the others in place, with what was written to them, and the table
    untouched; a connection that subscribes and closes at once leaves the
    state as it was. *)
Theorem close_removes_that_subscriber (c : nat) (s : State) :
  NoDup (conn <$> sseClients s) ->
  sseClients (on_close c s) = filter (fun x => conn x ≠ c) (sseClients s) ∧
  testDb (on_close c s) = testDb s ∧
  (c ∉ conn <$> sseClients s -> on_close c s = s) ∧
  (c ∉ conn <$> sseClients s -> on_close c (get_events c s) = s).
Proof.
  intros Hnd. destruct s as [d clients]. simpl in *.
  split; [by apply splice_first_filter|]. split; [reflexivity|].
  split; intros Hc; unfold on_close, get_events; simpl; f_equal.
  - rewrite splice_first_filter by exact Hnd. apply filter_all.
    apply Forall_forall. intros y Hy E. apply Hc.
    rewrite <- E. by apply list_elem_of_fmap_2.
  - by apply splice_first_last.
Qed.

Lemma close_removes_that_subscriber_witness :
  let s := get_events 2%nat (get_events 1%nat (one_task false)) in
  conn <$> sseClients (on_close 1%nat s) = [0%nat; 2%nat] ∧
  on_close 3%nat (get_events 3%nat s) = s.
Proof.
  intros s.
  destruct (close_removes_that_subscriber 1%nat s) as (E & _).
  { apply (bool_decide_unpack _). vm_compute. exact I. }
  destruct (close_removes_that_subscriber 3%nat s) as (_ & _ & _ & H).
  { apply (bool_decide_unpack _). vm_compute. exact I. }
  split; [by rewrite E|]. apply H.
  apply (bool_decide_unpack _). vm_compute. exact I.
Defined.

End EventStream.

(** * The test database helpers *)
Section SetupFacts.
Import Sqlite Http Props Props2 TestApp Examples Setup.

(** X14.  [resetDatabase] empties the table, so every listing is the
    empty array and no id selects a row, but it does not reset the id
    counter: a task created afterwards gets an id above every id handed
    out before the reset. *)
Theorem reset_empties_but_keeps_counter (s : State) (o : option string)
    (now : Z) (b : Body) (t : Task) :
  (post_tasks now b
     (mkState (resetDatabase (testDb s)) (sseClients s))).1 =
  json_response 201 (JTask t) ->
  (get_tasks o (mkState (resetDatabase (testDb s)) (sseClients s))).1 =
  json_response 200 (JTasks []) ∧
  (forall j, Sqlite.get j (resetDatabase (testDb s)) = None) ∧
  sequence (testDb s) < id t ∧
  (sequence_covers (testDb s) ->
   forall j, is_Some (Sqlite.get j (testDb s)) -> j < id t).
Proof.
  intros Hres. set (s0 := mkState _ _) in Hres.
  assert (sequence (testDb s) < id t) as Hlt.
  { destruct (post_tasks_cases now b s0) as [(m & E)|(c & _ & _ & _ & E)];
      rewrite E in Hres; [discriminate|].
    injection Hres as <-. simpl.
    apply (next_rowid_above_sequence (resetDatabase (testDb s))). }
  split; [|split; [|split; [exact Hlt|]]].
  - unfold get_tasks, Sqlite.all, all_tasks; simpl.
    rewrite map_to_list_empty.
    destruct o as [o|]; [destruct (Js.truthy_prim o)|]; reflexivity.
  - intros j. apply get_None. simpl. apply lookup_empty.
  - intros Hcov j [old [_ Hold]%get_Some].
    specialize (Hcov j _ Hold). simpl in Hcov. lia.
Qed.

Lemma reset_empties_but_keeps_counter_witness :
  let s0 := mkState (resetDatabase (testDb (board false))) [] in
  (get_tasks None s0).1 = json_response 200 (JTasks []) ∧
  (post_tasks 50 (titled "E"%string oracle) s0).1 =
  json_response 201
    (JTask (mkTask 5 (mkColumns "E"%string (Some EmptyString) oracle (Some 1)
                        (Some backlog) (Some 0) 50 50))).
Proof.
  intros s0.
  destruct (reset_empties_but_keeps_counter
              (mkState (testDb (board false)) []) None 50
              (titled "E"%string oracle)
              (mkTask 5 (mkColumns "E"%string (Some EmptyString) oracle
                           (Some 1) (Some backlog) (Some 0) 50 50)))
    as (H & _); [reflexivity|].
  split; [exact H | reflexivity].
Defined.

Lemma insert_positioned_values (t de o : string) (p : Z) (st : string)
    (pos : Z) (now : Z) (d : Database) :
  o ∈ owners -> st ∈ statuses ->
  insert_positioned (Js.Val t) (Js.Val de) (Js.Val o) (Js.Val p) (Js.Val st)
    (Js.Val pos) now d =
  Ok (next_rowid d,
      mkDatabase
        (<[next_rowid d :=
             mkColumns t (Some de) o (Some p) (Some st) (Some pos) now now]>
           (rows d))
        (next_rowid d) (lenient_driver d)).
Proof.
  intros Ho Hst. unfold insert_positioned; simpl.
  unfold mbind, result_bind; simpl.
  rewrite !bool_decide_eq_true_2 by assumption. reflexivity.
Qed.

(** X15.  [seedTestTasks] on a table just reset never throws and stores
    exactly four tasks under the next four ids, two for each owner; their
    listing is the two backlog tasks by position, then the done task, then
    the task in progress, whatever the table held and whatever ids it had
    handed out before. *)
Theorem seed_after_reset (now : nat -> Z) (d : Database) :
  exists d' : Database,
    seedTestTasks now (resetDatabase d) = Ok d' ∧
    (fun t : Task =>
       (id t - next_rowid (resetDatabase d), title t, owner t, status t,
        position t, updated_at t)) <$> Sqlite.all None d' =
    [(1, "Design new dashboard"%string, soheil, Some backlog, Some 0, now 1%nat);
     (2, "Write documentation"%string, oracle, Some backlog, Some 1, now 2%nat);
     (3, "Deploy to production"%string, soheil, Some done, Some 0, now 3%nat);
     (0, "Fix authentication bug"%string, oracle, Some in_progress, Some 0,
      now 0%nat)] ∧
    length (Sqlite.all (Some oracle) d') = 2%nat ∧
    length (Sqlite.all (Some soheil) d') = 2%nat.
Proof.
  set (d0 := resetDatabase d). set (n := next_rowid d0).
  assert (oracle ∈ owners ∧ soheil ∈ owners) as [Hor Hso]
    by (split; apply owners_spec; auto).
  assert (backlog ∈ statuses ∧ in_progress ∈ statuses ∧ done ∈ statuses)
    as (Hb & Hp & Hd) by (repeat split; apply statuses_spec; auto).
  assert (forall (d1 : Database) (c : Columns) (l : bool) (k : Z),
            next_rowid d1 = k ->
            next_rowid (mkDatabase (<[k := c]> (rows d1)) k l) = k + 1)
    as Hnext by (intros d1 c l k <-; apply next_rowid_after_insert).
  unfold seedTestTasks, mbind, result_bind.
  rewrite insert_positioned_values by assumption. cbn [snd]. fold n.
  set (c0 := mkColumns "Fix authentication bug" _ _ _ _ _ _ _).
  set (d1 := mkDatabase (<[n := c0]> (rows d0)) n (lenient_driver d0)).
  assert (next_rowid d1 = n + 1) as E1 by (by apply Hnext).
  rewrite insert_positioned_values by assumption. cbn [snd]. rewrite E1.
  set (c1 := mkColumns "Design new dashboard" _ _ _ _ _ _ _).
  set (d2 := mkDatabase (<[n + 1 := c1]> (rows d1)) (n + 1) (lenient_driver d1)).
  assert (next_rowid d2 = n + 1 + 1) as E2 by (by apply Hnext).
  rewrite insert_positioned_values by assumption. cbn [snd]. rewrite E2.
  set (c2 := mkColumns "Write documentation" _ _ _ _ _ _ _).
  set (d3 := mkDatabase (<[n + 1 + 1 := c2]> (rows d2)) (n + 1 + 1)
               (lenient_driver d2)).
  assert (next_rowid d3 = n + 1 + 1 + 1) as E3 by (by apply Hnext).
  rewrite insert_positioned_values by assumption. cbn [snd]. rewrite E3.
  set (c3 := mkColumns "Deploy to production" _ _ _ _ _ _ _).
  eexists. split; [reflexivity|].
  set (d' := mkDatabase _ _ _).
  assert (all_tasks d' ≡ₚ
          [mkTask (n + 1) c1; mkTask (n + 1 + 1) c2;
           mkTask (n + 1 + 1 + 1) c3; mkTask n c0]) as Hperm.
  { unfold all_tasks, d', d3, d2, d1, d0; simpl.
    rewrite !map_to_list_insert, map_to_list_empty;
      [|rewrite ?lookup_insert_ne, ?lookup_empty by lia; reflexivity..].
    csimpl.
    etransitivity; [apply Permutation_swap|].
    etransitivity; [apply perm_skip, Permutation_swap|].
    apply Permutation_swap. }
  split; [|split].
  - rewrite <- (all_determined None d'
                  [mkTask (n + 1) c1; mkTask (n + 1 + 1) c2;
                   mkTask (n + 1 + 1 + 1) c3; mkTask n c0]).
    + csimpl. repeat f_equal; lia.
    + assert (task_le (mkTask (n + 1) c1) (mkTask (n + 1 + 1) c2)) as H12.
      { apply task_le_lexicographic; simpl.
        right. split; [reflexivity|]. left. split; [discriminate | lia]. }
      assert (task_le (mkTask (n + 1 + 1) c2) (mkTask (n + 1 + 1 + 1) c3))
        as H23.
      { apply task_le_lexicographic; simpl.
        left. split; [discriminate | vm_compute; exact I]. }
      assert (task_le (mkTask (n + 1 + 1 + 1) c3) (mkTask n c0)) as H30.
      { apply task_le_lexicographic; simpl.
        left. split; [discriminate | vm_compute; exact I]. }
      repeat first [apply Sorted_cons | apply Sorted_nil
                   | apply HdRel_cons | apply HdRel_nil]; assumption.
    + unfold Sqlite.all. by rewrite merge_sort_Permutation, Hperm.
  - unfold Sqlite.all. rewrite merge_sort_Permutation, Hperm. reflexivity.
  - unfold Sqlite.all. rewrite merge_sort_Permutation, Hperm. reflexivity.
Qed.

End SetupFacts.

(** * The board the front end draws from a listing *)
Section FrontendFacts.
Import Sqlite Http Props Props2 Examples Frontend.

Lemma status_key_enum (t : Task) (s : string) :
  s ∈ statuses -> status_key t = s <-> status t = Some s.
Proof.
  intros Hs. unfold status_key. destruct (status t) as [x|].
  - split; congruence.
  - split; [|discriminate]. intros <-.
    apply statuses_spec in Hs as [Hs|[Hs|Hs]]; discriminate Hs.
Qed.

(** A status that passed the CHECK constraint, or NULL, names no
    inherited property. *)
Lemma checked_status_key (t : Task) :
  within_checks t -> status_key t ∉ object_prototype_keys.
Proof.
  intros (_ & Hst & _). unfold status_key.
  destruct (status t) as [s|].
  - specialize (Hst s eq_refl).
    apply statuses_spec in Hst as [-> |[-> | ->]];
      intros H; repeat (apply elem_of_cons in H as [H|H]; [discriminate H|]);
      by apply elem_of_nil in H.
  - intros H; repeat (apply elem_of_cons in H as [H|H]; [discriminate H|]).
    by apply elem_of_nil in H.
Qed.

Lemma group_task_step (b : Board) (t : Task) :
  status_key t ∉ object_prototype_keys ->
  group_task (Some b) t =
  Some (mkBoard
          (in_backlog b ++
           filter (fun x : Task => status x = Some backlog) [t])
          (in_in_progress b ++
           filter (fun x : Task => status x = Some in_progress) [t])
          (in_done b ++ filter (fun x : Task => status x = Some done) [t])).
Proof.
  intros Hk.
  assert (backlog ∈ statuses ∧ in_progress ∈ statuses ∧ done ∈ statuses)
    as (Hb & Hp & Hd) by (repeat split; apply statuses_spec; auto).
  pose proof (status_key_enum t backlog Hb) as K1.
  pose proof (status_key_enum t in_progress Hp) as K2.
  pose proof (status_key_enum t done Hd) as K3.
  destruct b as [l1 l2 l3]. unfold group_task; simpl.
  rewrite !filter_cons, !filter_nil.
  repeat case_bool_decide;
    repeat match goal with
           | |- context [decide ?P] => destruct (decide P)
           end;
    first [ by rewrite ?app_nil_r
          | exfalso; unfold backlog, in_progress, done in *;
            intuition congruence ].
Qed.

Lemma render_from (tasks : list Task) (b : Board) :
  Forall (fun t => status_key t ∉ object_prototype_keys) tasks ->
  foldl group_task (Some b) tasks =
  Some (mkBoard
          (in_backlog b ++
           filter (fun x : Task => status x = Some backlog) tasks)
          (in_in_progress b ++
           filter (fun x : Task => status x = Some in_progress) tasks)
          (in_done b ++ filter (fun x : Task => status x = Some done) tasks)).
Proof.
  intros Hall. revert b.
  induction Hall as [|t l Ht Hl IH]; intros b; cbn [foldl].
  - rewrite !filter_nil, !app_nil_r. by destruct b.
  - rewrite group_task_step by exact Ht. rewrite IH.
    cbn [in_backlog in_in_progress in_done].
    rewrite <- !app_assoc.
    change (t :: l) with ([t] ++ l). by rewrite !filter_app.
Qed.

(** A list of tasks whose status is NULL or enumerated is its four
    status classes put together. *)
Lemma partition_by_status (l : list Task) :
  Forall (fun t : Task => within_checks t) l ->
  l ≡ₚ filter (fun t : Task => status t = None) l ++
       filter (fun t : Task => status t = Some backlog) l ++
       filter (fun t : Task => status t = Some done) l ++
       filter (fun t : Task => status t = Some in_progress) l.
Proof.
  induction 1 as [|t l (_ & Hst & _) Hl IH]; [reflexivity|].
  rewrite !filter_cons.
  destruct (status t) as [s|] eqn:Es.
  - specialize (Hst s eq_refl).
    apply statuses_spec in Hst as [-> |[-> | ->]];
      repeat match goal with
             | |- context [decide ?P] =>
                 destruct (decide P); try discriminate; try congruence
             end.
    all: cbn [app]; rewrite ?app_assoc, <- Permutation_middle, <- ?app_assoc;
      by constructor.
  - repeat match goal with
           | |- context [decide ?P] =>
               destruct (decide P); try discriminate; try congruence
           end.
    simpl. by constructor.
Qed.

(** [ORDER BY status] puts the rows without a status first, then the
    backlog, then done, then in progress. *)
Lemma listing_by_status (d : Database) :
  map_Forall (fun _ => within_checks) (rows d) ->
  Sqlite.all None d =
  filter (fun t : Task => status t = None) (Sqlite.all None d) ++
  filter (fun t : Task => status t = Some backlog) (Sqlite.all None d) ++
  filter (fun t : Task => status t = Some done) (Sqlite.all None d) ++
  filter (fun t : Task => status t = Some in_progress) (Sqlite.all None d).
Proof.
  intros Hall. symmetry.
  destruct (all_spec None d) as (Hsorted & _ & Hmem).
  assert (forall (a b : Task) (x y : option string),
            status a = x -> status b = y -> x ≠ y ->
            null_first String.le x y -> task_le a b) as Hlt.
  { intros a b x y <- <- Hne Hle. apply task_le_lexicographic. by left. }
  apply all_determined.
  - apply StronglySorted_Sorted.
    repeat (apply StronglySorted_app_2;
            [|by apply StronglySorted_filter|]);
      [| | |by apply StronglySorted_filter].
    + intros a b [Ha _]%list_elem_of_filter Hb.
      rewrite !elem_of_app, !list_elem_of_filter in Hb.
      destruct Hb as [[Hb _]|[[Hb _]|[Hb _]]];
        by eapply Hlt; [exact Ha|exact Hb|discriminate|exact I].
    + intros a b [Ha _]%list_elem_of_filter Hb.
      rewrite !elem_of_app, !list_elem_of_filter in Hb.
      destruct Hb as [[Hb _]|[Hb _]];
        by eapply Hlt; [exact Ha|exact Hb|discriminate|vm_compute].
    + intros a b [Ha _]%list_elem_of_filter [Hb _]%list_elem_of_filter.
      by eapply Hlt; [exact Ha|exact Hb|discriminate|vm_compute].
  - symmetry. apply partition_by_status.
    apply Forall_forall. intros t [[_ Hrow]%get_Some _]%Hmem.
    exact (Hall _ _ Hrow).
Qed.

Lemma render_listing (d : Database) :
  map_Forall (fun _ => within_checks) (rows d) ->
  renderTasks (Sqlite.all None d) =
  Some (mkBoard
          (filter (fun t : Task => status t = Some backlog) (Sqlite.all None d))
          (filter (fun t : Task => status t = Some in_progress)
             (Sqlite.all None d))
          (filter (fun t : Task => status t = Some done) (Sqlite.all None d))).
Proof.
  intros Hall. unfold renderTasks. rewrite render_from; [reflexivity|].
  apply Forall_forall. intros t [[_ Hrow]%get_Some _]%all_spec.
  apply checked_status_key. exact (Hall _ _ Hrow).
Qed.

Lemma cards_in_listing (d : Database) (b : Board) (col : string) :
  map_Forall (fun _ => within_checks) (rows d) ->
  renderTasks (Sqlite.all None d) = Some b -> col ∈ statuses ->
  cards_in b col =
  filter (fun t : Task => status t = Some col) (Sqlite.all None d).
Proof.
  intros Hall Hb Hcol. rewrite render_listing in Hb by exact Hall.
  injection Hb as <-.
  apply statuses_spec in Hcol as [-> |[-> | ->]]; reflexivity.
Qed.

Lemma one_task_within_checks :
  map_Forall (fun _ => within_checks)
    (rows (TestApp.testDb (one_task false))).
Proof.
  intros j c Hj.
  destruct (decide (j = 1)) as [-> |Hne].
  - vm_compute in Hj. injection Hj as <-.
    split; [apply owners_spec; auto|].
    split; [intros x [= <-]; apply statuses_spec; auto|].
    simpl; eauto.
  - change (rows (TestApp.testDb (one_task false)))
      with (<[1 := columns first_row]> (∅ : gmap Z Columns)) in Hj.
    rewrite lookup_insert_ne, lookup_empty in Hj by congruence.
    discriminate Hj.
Qed.

(** X16.  The board shows the listing column by column.  On a table
    whose rows pass the CHECK constraints, [renderTasks] succeeds; each
    column holds the listed tasks of that status, in listing order; a
    task is on the board exactly when it is stored with a status; and the
    listing itself is the tasks without a status, then the backlog
    column, then the done column, then the in-progress column, because
    the statuses are ordered as text. *)
Theorem board_of_listing (d : Database) :
  map_Forall (fun _ => within_checks) (rows d) ->
  exists b : Board,
    renderTasks (Sqlite.all None d) = Some b ∧
    (forall col : string, col ∈ statuses ->
       cards_in b col =
       filter (fun t : Task => status t = Some col) (Sqlite.all None d)) ∧
    Sqlite.all None d =
      filter (fun t : Task => status t = None) (Sqlite.all None d) ++
      in_backlog b ++ in_done b ++ in_in_progress b ∧
    (forall t : Task,
       t ∈ in_backlog b ++ in_in_progress b ++ in_done b <->
       Sqlite.get (id t) d = Some t ∧ status t ≠ None).
Proof.
  intros Hall. eexists. split; [by apply render_listing|].
  split; [|split].
  - intros col Hcol.
    apply (cards_in_listing d); [exact Hall|by apply render_listing|exact Hcol].
  - by apply listing_by_status.
  - intros t. cbn [in_backlog in_in_progress in_done].
    rewrite !elem_of_app, !list_elem_of_filter.
    destruct (all_spec None d) as (_ & _ & Hmem). rewrite Hmem.
    split.
    + intros [[E [H _]]|[[E [H _]]|[E [H _]]]]; split; congruence.
    + intros [Hget Hne]. pose proof Hget as [_ Hrow]%get_Some.
      destruct (Hall _ _ Hrow) as (_ & Hst & _).
      destruct (status t) as [x|] eqn:Ex; [|congruence].
      specialize (Hst x eq_refl).
      apply statuses_spec in Hst as [-> |[-> | ->]]; auto 10.
Qed.

Lemma board_of_listing_witness :
  exists b : Board,
    renderTasks (Sqlite.all None (TestApp.testDb (one_task false))) = Some b ∧
    cards_in b backlog = [first_row] ∧ cards_in b done = [].
Proof.
  destruct (board_of_listing (TestApp.testDb (one_task false))
              one_task_within_checks) as (b & Hb & Hcards & _).
  exists b. split; [exact Hb|].
  rewrite !Hcards by (apply statuses_spec; auto).
  split; reflexivity.
Defined.

(** X17.  A stored task can be taken off the board through the server:
    a PATCH whose body carries [status: null] (and a position the driver
    can bind: anything but [true]) is answered 200 whatever the driver,
    the row's status becomes NULL, the task is still listed, and
    [renderTasks] puts it on no column. *)
Theorem null_status_leaves_the_board (now i : Z) (b : Body) (d : Database) :
  map_Forall (fun _ => within_checks) (rows d) ->
  is_Some (Sqlite.get i d) ->
  b_status b = Js.Null ->
  b_position b ≠ Js.Bool true ->
  exists (t : Task) (d' : Database) (brd : Board),
    Server.patch_move now i b d = (json_response 200 (JTask t), d') ∧
    id t = i ∧ status t = None ∧
    t ∈ Sqlite.all None d' ∧
    renderTasks (Sqlite.all None d') = Some brd ∧
    t ∉ in_backlog brd ++ in_in_progress brd ++ in_done brd.
Proof.
  intros Hall [old Hget] Est Npos.
  pose proof Hget as [Hid Hrow]%get_Some.
  unfold Server.patch_move. rewrite Hget, Est, or_else_position by exact Npos.
  unfold set_status_position, mbind, result_bind; simpl.
  rewrite Hrow; simpl.
  set (c' := mkColumns _ _ _ _ _ _ _ _).
  set (d' := mkDatabase _ _ _).
  assert (Sqlite.get i d' = Some (mkTask i c')) as Hget'.
  { unfold Sqlite.get, d'; simpl. by rewrite lookup_insert_eq. }
  assert (map_Forall (fun _ => within_checks) (rows d')) as Hall'.
  { unfold d'; simpl. apply map_Forall_insert_2; [|exact Hall].
    destruct (Hall _ _ Hrow) as (Ho & _ & Hd & Hp & _).
    split; [exact Ho|]. split; [discriminate|]. simpl. eauto. }
  rewrite Hget'. exists (mkTask i c'), d'. eexists.
  split; [reflexivity|]. split; [reflexivity|]. split; [reflexivity|].
  split; [by apply all_spec|].
  split; [by apply render_listing|].
  cbn [in_backlog in_in_progress in_done].
  rewrite !elem_of_app, !list_elem_of_filter.
  intros [[E _]|[[E _]|[E _]]]; discriminate E.
Qed.

Lemma null_status_leaves_the_board_witness :
  exists (t : Task) (d' : Database),
    Server.patch_move 20 1
      (mkBody Js.Undefined Js.Undefined Js.Undefined Js.Undefined Js.Null
         Js.Undefined) (TestApp.testDb (one_task false)) =
    (json_response 200 (JTask t), d') ∧
    status t = None ∧ t ∈ Sqlite.all None d' ∧
    renderTasks (Sqlite.all None d') = Some (mkBoard [] [] []).
Proof.
  destruct (null_status_leaves_the_board 20 1
              (mkBody Js.Undefined Js.Undefined Js.Undefined Js.Undefined
                 Js.Null Js.Undefined) (TestApp.testDb (one_task false)))
    as (t & d' & brd & E & _ & Hs & Hin & _ & _).
  - exact one_task_within_checks.
  - exists first_row. reflexivity.
  - reflexivity.
  - discriminate.
  - exists t, d'. split; [exact E|]. split; [exact Hs|]. split; [exact Hin|].
    injection E as _ <-. reflexivity.
Defined.

(** Rewriting one row leaves every other row where it was in every
    listing. *)
Lemma all_after_rewrite (w : option string) (d d' : Database) (i : Z)
    (c : Columns) :
  rows d' = <[i := c]> (rows d) ->
  filter (fun t : Task => id t ≠ i) (Sqlite.all w d') =
  filter (fun t : Task => id t ≠ i) (Sqlite.all w d).
Proof.
  intros Hrows.
  rewrite <- (all_after_removal w d (delete_row i d) i) by reflexivity.
  rewrite <- (all_after_removal w d' (delete_row i d) i); [reflexivity|].
  simpl. by rewrite Hrows, delete_insert_eq.
Qed.

Lemma filter_comm {A} (P Q : A -> Prop) `{forall x, Decision (P x)}
    `{forall x, Decision (Q x)} (l : list A) :
  filter P (filter Q l) = filter Q (filter P l).
Proof.
  rewrite !list_filter_filter. apply filter_agree.
  apply Forall_forall. tauto.
Qed.

(** X18.  Dropping a card on a column.  [handleDrop] sends the column's
    id as status and the number of cards the column shows as position,
    wherever in the column the card was dropped.  For a stored task and
    one of the three columns the server answers 200; the task then has
    that status and that position, the redrawn board shows it on that
    column, and every other card is on the column it was on, in the same
    order.  The card comes last on its column when every other card of
    the column has a position below that number. *)
Theorem drop_moves_the_card (now i : Z) (col : string) (d : Database)
    (brd : Board) :
  map_Forall (fun _ => within_checks) (rows d) ->
  renderTasks (Sqlite.all None d) = Some brd ->
  col ∈ statuses ->
  is_Some (Sqlite.get i d) ->
  exists (t : Task) (d' : Database) (brd' : Board),
    Server.patch_move now i (handleDrop brd col) d =
    (json_response 200 (JTask t), d') ∧
    id t = i ∧ status t = Some col ∧
    position t =
    Some (Z.of_nat
            (length (filter (fun x : Task => status x = Some col)
                       (Sqlite.all None d)))) ∧
    renderTasks (Sqlite.all None d') = Some brd' ∧
    t ∈ cards_in brd' col ∧
    (forall col' : string, col' ∈ statuses ->
       filter (fun x : Task => id x ≠ i) (cards_in brd' col') =
       filter (fun x : Task => id x ≠ i) (cards_in brd col')) ∧
    ((forall x : Task, x ∈ cards_in brd col -> id x ≠ i ->
        null_first Z.lt (position x) (position t)) ->
     last (cards_in brd' col) = Some t).
Proof.
  intros Hall Hbrd Hcol [old Hget].
  pose proof Hget as [Hid Hrow]%get_Some.
  unfold Server.patch_move, handleDrop. rewrite Hget.
  cbn [b_status b_position]. rewrite or_else_position by discriminate.
  rewrite (cards_in_listing d brd col Hall Hbrd Hcol).
  unfold set_status_position, mbind, result_bind; simpl.
  rewrite Hrow; simpl. rewrite bool_decide_eq_true_2 by exact Hcol. simpl.
  set (n := Z.of_nat (length _)).
  set (c' := mkColumns _ _ _ _ _ _ _ _).
  set (d' := mkDatabase _ _ _).
  assert (Sqlite.get i d' = Some (mkTask i c')) as Hget'.
  { unfold Sqlite.get, d'; simpl. by rewrite lookup_insert_eq. }
  assert (map_Forall (fun _ => within_checks) (rows d')) as Hall'.
  { unfold d'; simpl. apply map_Forall_insert_2; [|exact Hall].
    destruct (Hall _ _ Hrow) as (Ho & _ & Hd & Hp & _).
    split; [exact Ho|]. split; [by intros x [= <-]|]. simpl. eauto. }
  pose proof (render_listing d' Hall') as Hbrd'.
  set (brd' := mkBoard _ _ _) in Hbrd'.
  assert (forall col' : string, col' ∈ statuses ->
            cards_in brd' col' =
            filter (fun t : Task => status t = Some col') (Sqlite.all None d'))
    as Hcards' by (intros; by apply cards_in_listing).
  assert (forall col' : string, col' ∈ statuses ->
            filter (fun x : Task => id x ≠ i) (cards_in brd' col') =
            filter (fun x : Task => id x ≠ i) (cards_in brd col')) as Hrest.
  { intros col' Hcol'.
    rewrite Hcards', (cards_in_listing d brd col') by assumption.
    rewrite !(filter_comm (fun x : Task => id x ≠ i)).
    by rewrite (all_after_rewrite None d d' i c'). }
  assert (mkTask i c' ∈ cards_in brd' col) as Hin.
  { rewrite Hcards' by exact Hcol. apply list_elem_of_filter.
    split; [reflexivity|]. by apply all_spec. }
  rewrite Hget'. exists (mkTask i c'), d', brd'.
  repeat (split; [first [reflexivity | assumption]|]).
  intros Hbelow.
  destruct (all_spec None d') as (Hsorted & Hnodup & Hmem).
  pose proof Hin as Hin'. rewrite Hcards' in Hin' by exact Hcol.
  apply list_elem_of_split in Hin' as (l1 & l2 & Esplit).
  rewrite Hcards', Esplit by exact Hcol.
  destruct l2 as [|y l2]; [apply last_snoc|exfalso].
  assert (y ∈ filter (fun t : Task => status t = Some col)
                (Sqlite.all None d')) as Hy
    by (rewrite Esplit; rewrite elem_of_app, !elem_of_cons; auto).
  pose proof Hy as [Hsy [Hgy _]%Hmem]%list_elem_of_filter.
  assert (id y ≠ i) as Hne.
  { intros Ey. rewrite Ey, Hget' in Hgy. injection Hgy as <-.
    pose proof (NoDup_filter (fun t : Task => status t = Some col) _ Hnodup)
      as Hnd.
    rewrite Esplit in Hnd. apply NoDup_app in Hnd as (_ & _ & Hnd).
    apply NoDup_cons in Hnd as [Hnd _]. apply Hnd. by left. }
  assert (task_le (mkTask i c') y) as Hle.
  { pose proof (StronglySorted_filter task_le
                  (fun t : Task => status t = Some col) _ Hsorted) as Hs.
    rewrite Esplit in Hs. apply StronglySorted_app in Hs as (_ & _ & Hs).
    apply StronglySorted_cons in Hs as [Hs _].
    apply Forall_cons in Hs as [Hs _]. exact Hs. }
  assert (y ∈ cards_in brd col) as Hyold.
  { assert (y ∈ filter (fun x : Task => id x ≠ i) (cards_in brd col)) as H
      by (rewrite <- Hrest, Hcards' by exact Hcol;
          by apply list_elem_of_filter).
    by apply list_elem_of_filter in H as [_ H]. }
  rewrite (cards_in_listing d brd col Hall Hbrd Hcol) in Hyold.
  specialize (Hbelow y Hyold Hne). simpl in Hbelow.
  apply task_le_lexicographic in Hle. simpl in Hle.
  destruct Hle as [[Hs _]|[_ [[_ Hp]|[Ep _]]]].
  - congruence.
  - destruct (position y) as [py|]; simpl in *; [lia|exact Hp].
  - rewrite <- Ep in Hbelow. simpl in Hbelow. lia.
Qed.

Lemma drop_moves_the_card_witness :
  exists (t : Task) (d' : Database),
    Server.patch_move 20 1 (handleDrop (mkBoard [first_row] [] []) done)
      (TestApp.testDb (one_task false)) = (json_response 200 (JTask t), d') ∧
    status t = Some done ∧ position t = Some 0 ∧
    renderTasks (Sqlite.all None d') = Some (mkBoard [] [] [t]).
Proof.
  destruct (drop_moves_the_card 20 1 done (TestApp.testDb (one_task false))
              (mkBoard [first_row] [] []))
    as (t & d' & brd' & E & _ & Hs & Hp & Hb & _).
  - exact one_task_within_checks.
  - reflexivity.
  - apply statuses_spec. auto.
  - exists first_row. reflexivity.
  - exists t, d'. split; [exact E|]. split; [exact Hs|].
    split; [exact Hp|].
    injection E as <- <-. reflexivity.
Defined.

End FrontendFacts.
